(** * pdf-tools: the four Lambda handlers (merge, split, compress, rotate)

    A shallow embedding of the handlers of [src/unnamed/part_000] (merge and
    split) and [src/backend/functions/compress/index.js] (compress and
    rotate), with the storage service, the clock and the PDF library as an
    explicit world that every call reads and extends. *)

From Stdlib Require Import Ascii QArith Qround Qcanon Lqa.
From stdpp Require Import gmap strings list fin_maps pretty.

Open Scope Z_scope.

(** ** JavaScript values *)

Module JS.

(** A JavaScript number.  A finite double is represented by the rational it
    denotes, so [-0] and [+0] are one value, as they are for every operator
    the handlers apply ([<], [>], [includes], truthiness). *)
Inductive JSNum :=
| NaN
| PosInf
| NegInf
| Fin (q : Qc).

(** The number an integer denotes. *)
Definition Int (z : Z) : JSNum := Fin (Qc_of_Z z).

Global Instance JSNum_eq_dec : EqDecision JSNum.
Proof. solve_decision. Defined.

(** What [JSON.parse] yields, together with [undefined] for a missing
    property. *)
#[warnings="-register-all"]
Inductive JSValue :=
| JUndefined
| JNull
| JBool (b : bool)
| JNum (n : JSNum)
| JStr (s : string)
| JArr (xs : list JSValue)
| JObj (fields : gmap string JSValue).

(** ToBoolean: the operand of [!]. *)
Definition truthy (v : JSValue) : bool :=
  match v with
  | JUndefined | JNull => false
  | JBool b => b
  | JNum NaN => false
  | JNum (Fin q) => negb (bool_decide (q = Qc_of_Z 0))
  | JNum _ => true
  | JStr s => negb (bool_decide (s = ""))
  | JArr _ | JObj _ => true
  end.

(** [a < b] and [a > b] on numbers: false as soon as one side is [NaN]. *)
Definition js_lt (a b : JSNum) : bool :=
  match a, b with
  | NaN, _ | _, NaN => false
  | _, NegInf => false
  | NegInf, _ => true
  | PosInf, _ => false
  | Fin _, PosInf => true
  | Fin p, Fin q => bool_decide (p < q)%Qc
  end.

Definition js_gt (a b : JSNum) : bool := js_lt b a.

(** [Math.round]: the nearest integer, a tie going up. *)
Definition Math_round (x : JSNum) : JSNum :=
  match x with
  | Fin q => Int (Qfloor (q + (1 # 2))%Q)
  | _ => x
  end.

(** The integer an integral number denotes (0 for what is not finite). *)
Definition to_Z (n : JSNum) : Z :=
  match n with
  | Fin q => Qfloor q
  | _ => 0
  end.

(** [Array.prototype.includes] on numbers compares with SameValueZero. *)
Definition includes (l : list JSNum) (x : JSNum) : bool :=
  existsb (fun y => bool_decide (y = x)) l.

(** The coercions and the arithmetic that belong to the language runtime.
    [StringToNumber] is the numeric reading of a string ([NaN] when it has
    none), [ObjectToString] the [toString] of an array or object, [round64]
    the rounding of an exact result to the nearest double, [toFixed] the
    method of that name. *)
Class Runtime := {
  StringToNumber : string -> JSNum;
  ObjectToString : JSValue -> string;
  round64 : Qc -> Qc;
  toFixed : JSNum -> nat -> string
}.

Section Coercions.
Context `{!Runtime}.

(** [Number(v)]. *)
Definition Number (v : JSValue) : JSNum :=
  match v with
  | JUndefined => NaN
  | JNull => Int 0
  | JBool true => Int 1
  | JBool false => Int 0
  | JNum n => n
  | JStr s => StringToNumber s
  | JArr _ | JObj _ => StringToNumber (ObjectToString v)
  end.

Definition is_zero (q : Qc) : bool := bool_decide (q = Qc_of_Z 0).

(** [a / b], [a - b] and [a * b] on numbers.  A zero divisor is [+0]: the
    only divisor of the handlers is a byte count. *)
Definition js_div (a b : JSNum) : JSNum :=
  match a, b with
  | NaN, _ | _, NaN => NaN
  | (PosInf | NegInf), (PosInf | NegInf) => NaN
  | PosInf, Fin q => if bool_decide (q < Qc_of_Z 0)%Qc then NegInf else PosInf
  | NegInf, Fin q => if bool_decide (q < Qc_of_Z 0)%Qc then PosInf else NegInf
  | Fin _, (PosInf | NegInf) => Int 0
  | Fin p, Fin q =>
      if is_zero q then
        if is_zero p then NaN
        else if bool_decide (p < Qc_of_Z 0)%Qc then NegInf else PosInf
      else Fin (round64 (p / q)%Qc)
  end.

Definition js_sub (a b : JSNum) : JSNum :=
  match a, b with
  | NaN, _ | _, NaN => NaN
  | PosInf, PosInf | NegInf, NegInf => NaN
  | PosInf, _ | _, NegInf => PosInf
  | NegInf, _ | _, PosInf => NegInf
  | Fin p, Fin q => Fin (round64 (p - q)%Qc)
  end.

Definition js_mul (a b : JSNum) : JSNum :=
  match a, b with
  | NaN, _ | _, NaN => NaN
  | (PosInf | NegInf) as i, Fin q | Fin q, (PosInf | NegInf) as i =>
      if is_zero q then NaN
      else if bool_decide (q < Qc_of_Z 0)%Qc
           then match i with PosInf => NegInf | _ => PosInf end
           else i
  | PosInf, PosInf | NegInf, NegInf => PosInf
  | PosInf, NegInf | NegInf, PosInf => NegInf
  | Fin p, Fin q => Fin (round64 (p * q)%Qc)
  end.
End Coercions.

(** Property access for the destructuring [const { name } = body]: it
    throws on [null] and [undefined], finds the field of an object, and
    finds nothing named like a request field on any other value. *)
Definition get_field (name : string) (v : JSValue) : option JSValue :=
  match v with
  | JUndefined | JNull => None
  | JObj fields => Some (default JUndefined (fields !! name))
  | _ => Some JUndefined
  end.

(** A string is held as the bytes of its UTF-8 form, which is how Rocq reads
    a literal (a lone surrogate, as the three bytes of its generalised
    form).  A byte [10xxxxxx] continues the code point begun before it. *)
Definition is_continuation (c : ascii) : bool :=
  (128 <=? Ascii.nat_of_ascii c)%nat && (Ascii.nat_of_ascii c <? 192)%nat.

(** [s] starts with a continuation byte. *)
Definition continues (s : string) : bool :=
  match s with
  | String c _ => is_continuation c
  | EmptyString => false
  end.

(** The code points of a string, each with all its bytes, in order: what
    the string iterator yields. *)
Fixpoint code_points (s : string) : list string :=
  match s with
  | EmptyString => []
  | String c s' =>
      match code_points s' with
      | item :: items =>
          if continues s' then String c item :: items
          else String c "" :: item :: items
      | [] => [String c ""]
      end
  end.

(** The UTF-16 code units of one code point: two when its UTF-8 form has
    four bytes (a first byte [11110xxx]), one otherwise. *)
Definition code_units (item : string) : nat :=
  match item with
  | String c _ => if (240 <=? Ascii.nat_of_ascii c)%nat then 2 else 1
  | EmptyString => 1
  end.

(** [s.length]: the number of UTF-16 code units of [s]. *)
Definition utf16_length (s : string) : nat := sum_list_with code_units (code_points s).

(** [v.length] for a truthy [v]. *)
Definition length_of (v : JSValue) : JSValue :=
  match v with
  | JArr xs => JNum (Int (Z.of_nat (length xs)))
  | JStr s => JNum (Int (Z.of_nat (utf16_length s)))
  | JObj fields => default JUndefined (fields !! "length")
  | _ => JUndefined
  end.

(** The items [for (const x of v)] visits: the elements of an array, the
    code points of a string; any other value of the model is not
    iterable. *)
Definition iterate (v : JSValue) : option (list JSValue) :=
  match v with
  | JArr xs => Some xs
  | JStr s => Some (JStr <$> code_points s)
  | _ => None
  end.

End JS.

Export JS.

(** ** Documents, the bucket and the world *)

Definition Bytes := list Byte.byte.

(** A page as the handlers see it: its rotation, an integer number of
    degrees that [getRotation().angle] reads and [setRotation(degrees(_))]
    writes, and everything else, which no handler inspects. *)
Record Page := { content : Bytes; rotation : Z }.

(** A document is its sequence of pages. *)
Record Document := { pages : list Page }.

(** What a GetObject answers: a stream of chunks that may break before its
    end, and the declared size of the object. *)
Record Stream := { chunks : list Bytes; broken : bool }.
Record StoredObject := { Body : Stream; ContentLength : option N }.

(** The commands the handlers build; the bucket is the fixed [BUCKET_NAME]. *)
Inductive Command :=
| GetObjectCommand (Key : JSValue)
| PutObjectCommand (Key : string) (body : Bytes) (ContentType : string).

(** The calls that leave the handler: to the storage service, to the URL
    signer and to the PDF library. *)
Inductive Call :=
| Send (c : Command)
| Presign (c : Command) (expiresIn : Z)
| PdfLoad (b : Bytes) (ignoreEncryption : option bool)
| PdfCreate
| PdfSave (d : Document) (useObjectStreams : option bool).

(** The world of one invocation: the objects of the bucket, the clock, which
    service calls fail (given the calls made before), the URL the signer
    issues for a command, the object name the storage client makes of a
    [Key] that is not a string, and the calls made so far, oldest first. *)
Record World := {
  bucket : gmap string StoredObject;
  clock : Z;
  faults : list Call -> Call -> bool;
  signer : Command -> Z -> string;
  names : JSValue -> string;
  trace : list Call
}.

Definition log (c : Call) (w : World) : World :=
  {| bucket := bucket w; clock := clock w; faults := faults w;
     signer := signer w; names := names w; trace := trace w ++ [c] |}.

Definition store (k : string) (o : StoredObject) (w : World) : World :=
  {| bucket := <[k := o]> (bucket w); clock := clock w; faults := faults w;
     signer := signer w; names := names w; trace := trace w |}.

(** What a promise settles to. *)
Inductive Error :=
| SyntaxError      (* JSON.parse *)
| TypeError        (* destructuring null, iterating a non-iterable *)
| NoSuchKey        (* GetObject on a key the bucket does not hold *)
| ServiceError     (* a storage or signing call that fails *)
| StreamError      (* the body stream breaks *)
| ParseError.      (* PDFDocument.load on bytes that are no document *)

Inductive Outcome (A : Type) :=
| Returned (a : A)
| Thrown (e : Error).
Arguments Returned {A} a.
Arguments Thrown {A} e.

(** An asynchronous computation: it runs in a world and leaves a world, also
    when it throws. *)
Definition M (A : Type) : Type := World -> Outcome A * World.

Definition ret {A} (a : A) : M A := fun w => (Returned a, w).
Definition throw {A} (e : Error) : M A := fun w => (Thrown e, w).
Definition bind {A B} (m : M A) (k : A -> M B) : M B :=
  fun w => match m w with
           | (Returned a, w') => k a w'
           | (Thrown e, w') => (Thrown e, w')
           end.

Notation "'let*' x ':=' m 'in' k" := (bind m (fun x => k))
  (at level 10, x pattern, m at level 100, k at level 200,
   format "'[v' 'let*'  x  ':='  m  'in' '/' k ']'").

(** A [for] loop whose body awaits: the items in order, the loop state
    threaded through, the first throw ending it. *)
Fixpoint for_each {A S} (body : S -> A -> M S) (xs : list A) (s : S) : M S :=
  match xs with
  | [] => ret s
  | x :: xs' => let* s' := body s x in for_each body xs' s'
  end.

Definition of_option {A} (e : Error) (o : option A) : M A :=
  match o with Some a => ret a | None => throw e end.

(** *** The storage client *)

(** The object a [Key] names.  The handlers hand the [fileKey] of the
    request to the client as it is: a string names the object stored under
    it, and any other value the object under the name the client makes of
    it. *)
Definition key_name (w : World) (Key : JSValue) : string :=
  match Key with
  | JStr k => k
  | _ => names w Key
  end.

(** [s3.send(new GetObjectCommand({ Key }))]. *)
Definition send_get (Key : JSValue) : M StoredObject := fun w =>
  let c := Send (GetObjectCommand Key) in
  if faults w (trace w) c then (Thrown ServiceError, log c w)
  else match bucket w !! key_name w Key with
       | Some o => (Returned o, log c w)
       | None => (Thrown NoSuchKey, log c w)
       end.

(** [s3.send(new PutObjectCommand({ Key, Body, ContentType }))]: one whole
    write, or none. *)
Definition send_put (Key : string) (body : Bytes) (ContentType : string) : M unit :=
  fun w =>
    let c := Send (PutObjectCommand Key body ContentType) in
    if faults w (trace w) c then (Thrown ServiceError, log c w)
    else (Returned tt,
          store Key {| Body := {| chunks := [body]; broken := false |};
                       ContentLength := Some (N.of_nat (length body)) |}
                (log c w)).

(** [getSignedUrl(s3, command, { expiresIn })]. *)
Definition getSignedUrl (c : Command) (expiresIn : Z) : M string := fun w =>
  let e := Presign c expiresIn in
  if faults w (trace w) e then (Thrown ServiceError, log e w)
  else (Returned (signer w c expiresIn), log e w).

(** [Date.now()]. *)
Definition Date_now : M Z := fun w => (Returned (clock w), w).

(** [streamToBuffer]: the chunks joined once the stream has ended, a
    rejection when it breaks. *)
Definition streamToBuffer (stream : Stream) : M Bytes :=
  if broken stream then throw StreamError else ret (concat (chunks stream)).

(** *** The PDF library

    [PDF_parse] and [PDF_serialize] are the decoder and the encoder behind
    [PDFDocument.load] and [save]; nothing is assumed of them. *)
Class PdfLib := {
  PDF_parse : option bool -> Bytes -> option Document;
  PDF_serialize : option bool -> Document -> Bytes
}.

Section Library.
Context `{!PdfLib}.

Definition PDFDocument_load (b : Bytes) (ignoreEncryption : option bool) : M Document :=
  fun w => let w' := log (PdfLoad b ignoreEncryption) w in
           match PDF_parse ignoreEncryption b with
           | Some d => (Returned d, w')
           | None => (Thrown ParseError, w')
           end.

Definition PDFDocument_create : M Document :=
  fun w => (Returned {| pages := [] |}, log PdfCreate w).

Definition save (d : Document) (useObjectStreams : option bool) : M Bytes :=
  fun w => (Returned (PDF_serialize useObjectStreams d),
            log (PdfSave d useObjectStreams) w).
End Library.

(** The document model of the PDF library: a document is read and changed
    through its page sequence. *)
Definition getPageCount (d : Document) : nat := length (pages d).
Definition getPageIndices (d : Document) : list nat := seq 0 (getPageCount d).
Definition getPages (d : Document) : list Page := pages d.

(** [dst.copyPages(src, indices)]: independent copies of the pages of [src]
    at [indices], in that order; an index [src] does not have throws. *)
Definition copyPages (src : Document) (indices : list nat) : M (list Page) :=
  of_option TypeError (mapM (fun i => pages src !! i) indices).

Definition addPage (d : Document) (p : Page) : Document :=
  {| pages := pages d ++ [p] |}.

Definition getRotation (p : Page) : Z := rotation p.
Definition setRotation (angle : Z) (p : Page) : Page :=
  {| content := content p; rotation := angle |}.

(** ** Responses *)

Record Response := {
  statusCode : Z;
  headers : gmap string string;
  body_json : JSValue     (* the value given to JSON.stringify *)
}.

(** The body of the event: what [JSON.parse(event.body)] yields, [None] when
    it throws. *)
Record LambdaEvent := { parsed_body : option JSValue }.

Definition JSON_parse (event : LambdaEvent) : M JSValue :=
  of_option SyntaxError (parsed_body event).

Definition destructure (name : string) (v : JSValue) : M JSValue :=
  of_option TypeError (get_field name v).

Definition obj (fields : list (string * JSValue)) : JSValue :=
  JObj (list_to_map fields).

(** ** merge ([src/unnamed/part_000], first file) *)

Module Merge.
Section Handler.
Context `{!Runtime, !PdfLib}.

Definition corsHeaders : gmap string string :=
  list_to_map [("Access-Control-Allow-Origin", "*");
               ("Access-Control-Allow-Headers", "Content-Type");
               ("Access-Control-Allow-Methods", "POST, OPTIONS")].

Definition downloadPdfFromS3 (fileKey : JSValue) : M Bytes :=
  let* response := send_get fileKey in
  let* buffer := streamToBuffer (Body response) in
  ret buffer.

Definition uploadPdfToS3 (pdfBytes : Bytes) (outputKey : string) : M string :=
  let* _ := send_put outputKey pdfBytes "application/pdf" in
  let downloadCommand := GetObjectCommand (JStr outputKey) in
  let* signedUrl := getSignedUrl downloadCommand 3600 in
  ret signedUrl.

(** The body of the [for ... of fileKeys] loop. *)
Definition merge_one (mergedPdf : Document) (fileKey : JSValue) : M Document :=
  let* pdfBuffer := downloadPdfFromS3 fileKey in
  let* pdf := PDFDocument_load pdfBuffer None in
  let pageIndices := getPageIndices pdf in
  let* copiedPages := copyPages pdf pageIndices in
  ret (foldl addPage mergedPdf copiedPages).

Definition too_few : Response :=
  {| statusCode := 400;
     headers := corsHeaders;
     body_json := obj [("error", JStr "Please provide at least 2 PDF files to merge")] |}.

Definition handler (event : LambdaEvent) : M Response :=
  let* body := JSON_parse event in
  let* fileKeys := destructure "fileKeys" body in
  if negb (truthy fileKeys) || js_lt (Number (length_of fileKeys)) (Int 2) then
    ret too_few
  else
    let* mergedPdf := PDFDocument_create in
    let* items := of_option TypeError (iterate fileKeys) in
    let* mergedPdf := for_each merge_one items mergedPdf in
    let* mergedPdfBytes := save mergedPdf None in
    let* now := Date_now in
    let outputKey := "processed/merged-" +:+ pretty now +:+ ".pdf" in
    let* downloadUrl := uploadPdfToS3 mergedPdfBytes outputKey in
    ret {| statusCode := 200;
           headers := corsHeaders;
           body_json := obj [("message", JStr "PDFs merged successfully");
                             ("downloadUrl", JStr downloadUrl);
                             ("outputKey", JStr outputKey)] |}.
End Handler.
End Merge.

(** ** split ([src/unnamed/part_000], second file) *)

Module Split.

(** The object [uploadPageToS3] returns for one page. *)
Record PageResult := {
  pageNumber : Z;
  downloadUrl : string;
  outputKey : string
}.

Definition page_json (r : PageResult) : JSValue :=
  obj [("pageNumber", JNum (Int (pageNumber r)));
       ("downloadUrl", JStr (downloadUrl r));
       ("outputKey", JStr (outputKey r))].

Definition page_key (timestamp pageNumber : Z) : string :=
  "processed/split-" +:+ pretty timestamp +:+ "-page-" +:+ pretty pageNumber +:+ ".pdf".

Section Handler.
Context `{!Runtime, !PdfLib}.

Definition corsHeaders : gmap string string :=
  list_to_map [("Access-Control-Allow-Origin", "*");
               ("Access-Control-Allow-Headers", "Content-Type");
               ("Access-Control-Allow-Methods", "POST, OPTIONS")].

Definition downloadPdfFromS3 (fileKey : JSValue) : M Bytes :=
  let* response := send_get fileKey in
  streamToBuffer (Body response).

Definition uploadPageToS3 (pageBytes : Bytes) (pageNumber timestamp : Z) : M PageResult :=
  let outputKey := page_key timestamp pageNumber in
  let* _ := send_put outputKey pageBytes "application/pdf" in
  let downloadCommand := GetObjectCommand (JStr outputKey) in
  let* signedUrl := getSignedUrl downloadCommand 3600 in
  ret {| pageNumber := pageNumber; downloadUrl := signedUrl; outputKey := outputKey |}.

(** The body of the loop [for (let i = 0; i < pageCount; i++)]. *)
Definition split_one (pdf : Document) (timestamp : Z)
    (pages : list PageResult) (i : nat) : M (list PageResult) :=
  let* singlePagePdf := PDFDocument_create in
  let* copied := copyPages pdf [i] in
  let* copiedPage := of_option TypeError (head copied) in
  let singlePagePdf := addPage singlePagePdf copiedPage in
  let* pageBytes := save singlePagePdf None in
  let* pageResult := uploadPageToS3 pageBytes (Z.of_nat i + 1) timestamp in
  ret (pages ++ [pageResult]).

Definition no_file : Response :=
  {| statusCode := 400;
     headers := corsHeaders;
     body_json := obj [("error", JStr "Please provide a PDF file to split")] |}.

Definition too_short : Response :=
  {| statusCode := 400;
     headers := corsHeaders;
     body_json := obj [("error", JStr "PDF must have at least 2 pages to split")] |}.

Definition handler (event : LambdaEvent) : M Response :=
  let* body := JSON_parse event in
  let* fileKey := destructure "fileKey" body in
  if negb (truthy fileKey) then ret no_file
  else
    let* pdfBuffer := downloadPdfFromS3 fileKey in
    let* pdf := PDFDocument_load pdfBuffer None in
    let pageCount := getPageCount pdf in
    if (pageCount <? 2)%nat then ret too_short
    else
      let* timestamp := Date_now in
      let* pages := for_each (split_one pdf timestamp) (seq 0 pageCount) [] in
      ret {| statusCode := 200;
             headers := corsHeaders;
             body_json :=
               obj [("message", JStr ("PDF split into " +:+ pretty pageCount
                                      +:+ " pages successfully"));
                    ("pageCount", JNum (Int (Z.of_nat pageCount)));
                    ("pages", JArr (page_json <$> pages))] |}.
End Handler.
End Split.

(** ** compress ([src/backend/functions/compress/index.js], first file) *)

Module Compress.

(** The object [downloadPdfFromS3] returns; [originalSize] is
    [response.ContentLength], which may be absent. *)
Record Download := { buffer : Bytes; originalSize : option N }.

Section Handler.
Context `{!Runtime, !PdfLib}.

Definition corsHeaders : gmap string string :=
  list_to_map [("Access-Control-Allow-Origin", "*");
               ("Access-Control-Allow-Headers", "Content-Type");
               ("Access-Control-Allow-Methods", "POST, OPTIONS")].

Definition downloadPdfFromS3 (fileKey : JSValue) : M Download :=
  let* response := send_get fileKey in
  let* buffer := streamToBuffer (Body response) in
  ret {| buffer := buffer; originalSize := ContentLength response |}.

Definition compressPdf (pdfBuffer : Bytes) : M Bytes :=
  let* pdf := PDFDocument_load pdfBuffer (Some true) in
  let* compressedBytes := save pdf (Some true) in
  ret compressedBytes.

Definition uploadCompressedPdfToS3 (pdfBytes : Bytes) (outputKey : string) : M string :=
  let* _ := send_put outputKey pdfBytes "application/pdf" in
  let downloadCommand := GetObjectCommand (JStr outputKey) in
  let* signedUrl := getSignedUrl downloadCommand 3600 in
  ret signedUrl.

(** A size as the number the arithmetic sees: [undefined] becomes [NaN]. *)
Definition size_number (bytes : option N) : JSNum :=
  match bytes with
  | Some n => Int (Z.of_N n)
  | None => NaN
  end.

Definition formatBytes (bytes : option N) : string :=
  let b := size_number bytes in
  if js_lt b (Int 1024) then
    match bytes with Some n => pretty n | None => "undefined" end +:+ " B"
  else if js_lt b (Int (1024 * 1024)) then
    toFixed (js_div b (Int 1024)) 1 +:+ " KB"
  else toFixed (js_div b (Int (1024 * 1024))) 1 +:+ " MB".

(** [Math.round((1 - compressedSize / originalSize) * 100)]. *)
Definition savedPercent (compressedSize : N) (originalSize : option N) : JSNum :=
  Math_round
    (js_mul (js_sub (Int 1)
                    (js_div (Int (Z.of_N compressedSize)) (size_number originalSize)))
            (Int 100)).

(** [savedPercent > 0 ? savedPercent : 0]. *)
Definition reported (savedPercent : JSNum) : JSNum :=
  if js_gt savedPercent (Int 0) then savedPercent else Int 0.

Definition no_file : Response :=
  {| statusCode := 400;
     headers := corsHeaders;
     body_json := obj [("error", JStr "Please provide a PDF file to compress")] |}.

Definition handler (event : LambdaEvent) : M Response :=
  let* body := JSON_parse event in
  let* fileKey := destructure "fileKey" body in
  if negb (truthy fileKey) then ret no_file
  else
    let* download := downloadPdfFromS3 fileKey in
    let pdfBuffer := buffer download in
    let originalSize := originalSize download in
    let* compressedBytes := compressPdf pdfBuffer in
    let compressedSize := N.of_nat (length compressedBytes) in
    let savedPercent := savedPercent compressedSize originalSize in
    let* now := Date_now in
    let outputKey := "processed/compressed-" +:+ pretty now +:+ ".pdf" in
    let* downloadUrl := uploadCompressedPdfToS3 compressedBytes outputKey in
    ret {| statusCode := 200;
           headers := corsHeaders;
           body_json :=
             obj [("message", JStr "PDF compressed successfully");
                  ("downloadUrl", JStr downloadUrl);
                  ("outputKey", JStr outputKey);
                  ("originalSize", JStr (formatBytes originalSize));
                  ("compressedSize", JStr (formatBytes (Some compressedSize)));
                  ("savedPercent", JNum (reported savedPercent))] |}.
End Handler.
End Compress.

(** ** rotate ([src/backend/functions/compress/index.js], second file) *)

Module Rotate.
Section Handler.
Context `{!Runtime, !PdfLib}.

Definition corsHeaders : gmap string string :=
  list_to_map [("Access-Control-Allow-Origin", "*");
               ("Access-Control-Allow-Headers", "Content-Type");
               ("Access-Control-Allow-Methods", "POST, OPTIONS")].

Definition downloadPdfFromS3 (fileKey : JSValue) : M Bytes :=
  let* response := send_get fileKey in
  streamToBuffer (Body response).

Definition uploadRotatedPdfToS3 (pdfBytes : Bytes) (outputKey : string) : M string :=
  let* _ := send_put outputKey pdfBytes "application/pdf" in
  let downloadCommand := GetObjectCommand (JStr outputKey) in
  let* signedUrl := getSignedUrl downloadCommand 3600 in
  ret signedUrl.

Definition validAngles : list JSNum := [Int 90; Int (-90); Int 180].

Definition validateRotation (angle : JSValue) : bool :=
  includes validAngles (Number angle).

(** The callback of [pages.forEach]: the requested angle added to the
    angle the page has. *)
Definition rotate_page (rotationAngle : Z) (page : Page) : Page :=
  let currentRotation := getRotation page in
  let newRotation := currentRotation + rotationAngle in
  setRotation newRotation page.

(** The whole loop over [pdf.getPages()]. *)
Definition rotate_pages (rotationAngle : Z) (pdf : Document) : Document :=
  {| pages := rotate_page rotationAngle <$> getPages pdf |}.

Definition no_file : Response :=
  {| statusCode := 400;
     headers := corsHeaders;
     body_json := obj [("error", JStr "Please provide a PDF file to rotate")] |}.

Definition bad_rotation : Response :=
  {| statusCode := 400;
     headers := corsHeaders;
     body_json := obj [("error", JStr "Invalid rotation. Must be 90, -90, or 180 degrees")] |}.

(** [rotationAngle] is [Number(rotation)], one of the three valid angles
    once the validation has passed; [to_Z] reads it as the integer the
    page angles are added to. *)
Definition handler (event : LambdaEvent) : M Response :=
  let* body := JSON_parse event in
  let* fileKey := destructure "fileKey" body in
  let* rotation := destructure "rotation" body in
  if negb (truthy fileKey) then ret no_file
  else if negb (validateRotation rotation) then ret bad_rotation
  else
    let rotationAngle := to_Z (Number rotation) in
    let* pdfBuffer := downloadPdfFromS3 fileKey in
    let* pdf := PDFDocument_load pdfBuffer None in
    let pages := getPages pdf in
    let pdf := rotate_pages rotationAngle pdf in
    let* rotatedPdfBytes := save pdf None in
    let* now := Date_now in
    let outputKey := "processed/rotated-" +:+ pretty now +:+ ".pdf" in
    let* downloadUrl := uploadRotatedPdfToS3 rotatedPdfBytes outputKey in
    ret {| statusCode := 200;
           headers := corsHeaders;
           body_json :=
             obj [("message", JStr ("PDF rotated " +:+ pretty rotationAngle
                                    +:+ " degrees successfully"));
                  ("downloadUrl", JStr downloadUrl);
                  ("outputKey", JStr outputKey);
                  ("pageCount", JNum (Int (Z.of_nat (length pages))));
                  ("rotation", JNum (Int rotationAngle))] |}.
End Handler.
End Rotate.

(** ** The vocabulary of the specification *)

(** A world in which no service call fails. *)
Definition fault_free (w : World) : Prop := forall t c, faults w t c = false.

(** [logs t w]: the world [w] after the calls [t], none of them a write. *)
Definition logs (t : list Call) (w : World) : World :=
  {| bucket := bucket w; clock := clock w; faults := faults w;
     signer := signer w; names := names w; trace := trace w ++ t |}.

(** The object a PutObject of [b] leaves in the bucket. *)
Definition written (b : Bytes) : StoredObject :=
  {| Body := {| chunks := [b]; broken := false |};
     ContentLength := Some (N.of_nat (length b)) |}.

(** The bytes a download of [o] yields, when its stream does not break. *)
Definition delivered (o : StoredObject) : option Bytes :=
  if broken (Body o) then None else Some (concat (chunks (Body o))).

(** The three fixed cross-origin headers. *)
Definition has_cors (r : Response) : Prop :=
  headers r !! "Access-Control-Allow-Origin" = Some "*" /\
  headers r !! "Access-Control-Allow-Headers" = Some "Content-Type" /\
  headers r !! "Access-Control-Allow-Methods" = Some "POST, OPTIONS".

(** An outcome that is a response with the cross-origin headers. *)
Definition carries_cors (o : Outcome Response) : Prop :=
  exists r, o = Returned r /\ has_cors r.

(** The field [name] of a response body. *)
Definition body_field (name : string) (r : Response) : option JSValue :=
  match body_json r with
  | JObj fields => fields !! name
  | _ => None
  end.

(** What an upload of [bytes] under [key] does in [w]: when the write is
    refused it throws, the write attempt is its only call and the bucket is
    as before; when the write is accepted the bucket holds the bytes under
    the key and the signing call follows the write. *)
Definition write_then_sign {A} (upload : M A) (key : string) (bytes : Bytes)
    (w : World) : Prop :=
  let put := Send (PutObjectCommand key bytes "application/pdf") in
  let sign := Presign (GetObjectCommand (JStr key)) 3600 in
  (faults w (trace w) put = true ->
     exists w', upload w = (Thrown ServiceError, w') /\
                trace w' = trace w ++ [put] /\
                bucket w' = bucket w) /\
  (faults w (trace w) put = false ->
     exists o w', upload w = (o, w') /\
                  trace w' = trace w ++ [put; sign] /\
                  bucket w' = <[key := written bytes]> (bucket w)).

(** The calls of one upload. *)
Definition upload_calls (k : string) (b : Bytes) : list Call :=
  [Send (PutObjectCommand k b "application/pdf");
   Presign (GetObjectCommand (JStr k)) 3600].

(** A source of a merge: its key, the bytes a download yields and the
    document they decode to. *)
Record Source := { src_key : string; src_bytes : Bytes; src_doc : Document }.

Definition fetched `{!PdfLib} (w : World) (opt : option bool) (s : Source) : Prop :=
  exists o, bucket w !! src_key s = Some o /\
            delivered o = Some (src_bytes s) /\
            PDF_parse opt (src_bytes s) = Some (src_doc s).

Definition fetch_calls (opt : option bool) (s : Source) : list Call :=
  [Send (GetObjectCommand (JStr (src_key s))); PdfLoad (src_bytes s) opt].

(** The pages of a document with their indices, from [i] on. *)
Fixpoint indexed {A} (i : nat) (l : list A) : list (nat * A) :=
  match l with
  | [] => []
  | x :: l' => (i, x) :: indexed (S i) l'
  end.

(** The document made of the one page [p]. *)
Definition single (p : Page) : Document := {| pages := [p] |}.

Definition split_key (timestamp : Z) (i : nat) : string :=
  Split.page_key timestamp (Z.of_nat i + 1).

(** What is stored for the page [p] of index [i], the calls made for it and
    the entry of the response that describes it. *)
Definition split_output `{!PdfLib} (timestamp : Z) (ip : nat * Page) : string * Bytes :=
  (split_key timestamp ip.1, PDF_serialize None (single ip.2)).

Definition split_calls `{!PdfLib} (timestamp : Z) (ip : nat * Page) : list Call :=
  PdfCreate :: PdfSave (single ip.2) None
    :: upload_calls (split_key timestamp ip.1) (PDF_serialize None (single ip.2)).

Definition split_result (w : World) (timestamp : Z) (ip : nat * Page) : Split.PageResult :=
  {| Split.pageNumber := Z.of_nat ip.1 + 1;
     Split.downloadUrl :=
       signer w (GetObjectCommand (JStr (split_key timestamp ip.1))) 3600;
     Split.outputKey := split_key timestamp ip.1 |}.

(** The world after the writes [outs], in order. *)
Definition put_all (outs : list (string * Bytes)) (w : World) : World :=
  foldl (fun w kb => store kb.1 (written kb.2) w) w outs.

(** The storage writes among the calls [t]. *)
Definition writes (t : list Call) : list (string * Bytes) :=
  omap (fun c => match c with
                 | Send (PutObjectCommand k b _) => Some (k, b)
                 | _ => None
                 end) t.

(** The calls that can be refused: those to the storage service and to the
    signer. *)
Definition is_service (c : Call) : bool :=
  match c with
  | Send _ | Presign _ _ => true
  | _ => false
  end.

(** Did the run end in an exception? *)
Definition is_thrown {A} (o : Outcome A) : bool :=
  match o with
  | Thrown _ => true
  | Returned _ => false
  end.

(** [orderly f h t thrown]: after the calls [h], under the fault oracle [f],
    the calls [t] are library calls, accepted fetches and accepted writes
    each followed at once by the signing of the written key; only the last
    call may be a refused one, and then the run has thrown. *)
Inductive orderly (f : list Call -> Call -> bool) : list Call -> list Call -> bool -> Prop :=
| orderly_end h thrown :
    orderly f h [] thrown
| orderly_library h c t thrown :
    is_service c = false ->
    orderly f (h ++ [c]) t thrown ->
    orderly f h (c :: t) thrown
| orderly_fetch h K t thrown :
    f h (Send (GetObjectCommand K)) = false ->
    orderly f (h ++ [Send (GetObjectCommand K)]) t thrown ->
    orderly f h (Send (GetObjectCommand K) :: t) thrown
| orderly_write_sign h k b ct e t thrown :
    f h (Send (PutObjectCommand k b ct)) = false ->
    f (h ++ [Send (PutObjectCommand k b ct)]) (Presign (GetObjectCommand (JStr k)) e) = false ->
    orderly f (h ++ [Send (PutObjectCommand k b ct); Presign (GetObjectCommand (JStr k)) e]) t thrown ->
    orderly f h (Send (PutObjectCommand k b ct) :: Presign (GetObjectCommand (JStr k)) e :: t) thrown
| orderly_refused h c :
    f h (Send c) = true ->
    orderly f h [Send c] true
| orderly_write_unsigned h k b ct e :
    f h (Send (PutObjectCommand k b ct)) = false ->
    f (h ++ [Send (PutObjectCommand k b ct)]) (Presign (GetObjectCommand (JStr k)) e) = true ->
    orderly f h [Send (PutObjectCommand k b ct); Presign (GetObjectCommand (JStr k)) e] true.

(** A computation all of whose runs are orderly. *)
Definition disciplined {A} (m : M A) : Prop :=
  forall w, exists t,
    trace (snd (m w)) = trace w ++ t /\
    faults (snd (m w)) = faults w /\
    orderly (faults w) (trace w) t (is_thrown (fst (m w))).

(** What every run of [m] guarantees about signing: a signing call directly
    follows an accepted write of the key it signs, and a refused service
    call is the last call of a run that has thrown. *)
Definition signs_only_written {A} (m : M A) : Prop :=
  forall w, exists t,
    trace (snd (m w)) = trace w ++ t /\
    (forall t1 c e t2,
        t = t1 ++ Presign c e :: t2 ->
        exists t0 k b ct,
          t1 = t0 ++ [Send (PutObjectCommand k b ct)] /\
          c = GetObjectCommand (JStr k) /\
          faults w (trace w ++ t0) (Send (PutObjectCommand k b ct)) = false) /\
    (forall t1 c t2,
        t = t1 ++ c :: t2 ->
        is_service c = true ->
        faults w (trace w ++ t1) c = true ->
        t2 = [] /\ exists e, fst (m w) = Thrown e).

(** ** The output area *)

(** The four operations, and the handler of each. *)
Inductive Operation := merging | splitting | compressing | rotating.

Definition handler_of `{!Runtime, !PdfLib} (op : Operation) : LambdaEvent -> M Response :=
  match op with
  | merging => Merge.handler
  | splitting => Split.handler
  | compressing => Compress.handler
  | rotating => Rotate.handler
  end.

(** The keys an operation writes under when the clock reads [ts]: one key
    for merge, compress and rotate, one key per page number for split. *)
Definition own_key (op : Operation) (ts : Z) (k : string) : Prop :=
  match op with
  | merging => k = "processed/merged-" +:+ pretty ts +:+ ".pdf"
  | splitting => exists n, 1 <= n /\ k = Split.page_key ts n
  | compressing => k = "processed/compressed-" +:+ pretty ts +:+ ".pdf"
  | rotating => k = "processed/rotated-" +:+ pretty ts +:+ ".pdf"
  end.

(** Is [k] a key of the output area? *)
Definition output_key (k : string) : bool := String.prefix "processed/" k.

(** The calls a run that owns the keys [own] may make: any fetch and any
    library call; a write only of a PDF under a key it owns; a signing only
    of a download of a key it owns, valid for 3600 seconds. *)
Definition allowed (own : string -> Prop) (c : Call) : Prop :=
  match c with
  | Send (PutObjectCommand k _ ct) => own k /\ ct = "application/pdf"
  | Presign (GetObjectCommand (JStr k)) e => own k /\ e = 3600
  | Presign _ _ => False
  | _ => True
  end.

(** The run of [m] in [w] makes allowed calls only, leaves the clock, the
    fault oracle and the signer as they were, changes no object but those
    under the keys it owns, and removes none. *)
Definition confined {A} (own : string -> Prop) (m : M A) (w : World) : Prop :=
  exists t,
    trace (snd (m w)) = trace w ++ t /\
    Forall (allowed own) t /\
    clock (snd (m w)) = clock w /\
    faults (snd (m w)) = faults w /\
    signer (snd (m w)) = signer w /\
    (forall k, ~ own k -> bucket (snd (m w)) !! k = bucket w !! k) /\
    (forall k, is_Some (bucket w !! k) -> is_Some (bucket (snd (m w)) !! k)).

(** The key [K] of a request names the object of the source [s], which
    downloads and decodes. *)
Definition fetched_as `{!PdfLib} (w : World) (opt : option bool)
    (K : JSValue) (s : Source) : Prop :=
  key_name w K = src_key s /\ fetched w opt s.

(** A key that names an object of the bucket which downloads and decodes. *)
Definition usable `{!PdfLib} (w : World) (opt : option bool) (K : JSValue) : Prop :=
  exists s, fetched_as w opt K s.

(** The calls of the fetch and the decoding of the source [s] asked for as
    [K]. *)
Definition fetch_as (opt : option bool) (K : JSValue) (s : Source) : list Call :=
  [Send (GetObjectCommand K); PdfLoad (src_bytes s) opt].

(** Why a key cannot be used as a source, with the exception it causes and
    the calls made until then: it names no object, the stream of its object
    breaks, or the bytes of its object are no document. *)
Inductive source_defect `{!PdfLib} (w : World) (opt : option bool) (K : JSValue) :
    Error -> list Call -> Prop :=
| defect_missing :
    bucket w !! key_name w K = None ->
    source_defect w opt K NoSuchKey [Send (GetObjectCommand K)]
| defect_broken o :
    bucket w !! key_name w K = Some o -> broken (Body o) = true ->
    source_defect w opt K StreamError [Send (GetObjectCommand K)]
| defect_malformed o b :
    bucket w !! key_name w K = Some o -> delivered o = Some b ->
    PDF_parse opt b = None ->
    source_defect w opt K ParseError [Send (GetObjectCommand K); PdfLoad b opt].

(** ** Services that refuse some calls *)

(** The service of [w] refuses exactly the calls that satisfy [P], whatever
    was called before. *)
Definition refuses (P : Call -> bool) (w : World) : Prop :=
  forall h c, faults w h c = P c.

Definition is_signing (c : Call) : bool :=
  match c with
  | Presign _ _ => true
  | _ => false
  end.

Definition is_write (c : Call) : bool :=
  match c with
  | Send (PutObjectCommand _ _ _) => true
  | _ => false
  end.

(** A call that neither writes nor signs. *)
Definition reads (c : Call) : Prop := is_write c = false /\ is_signing c = false.

Definition is_write_under (K : string) (c : Call) : bool :=
  match c with
  | Send (PutObjectCommand k _ _) => bool_decide (k = K)
  | _ => false
  end.

(** The calls split makes for a page whose write is refused. *)
Definition refused_split_calls `{!PdfLib} (timestamp : Z) (ip : nat * Page) : list Call :=
  [PdfCreate; PdfSave (single ip.2) None;
   Send (PutObjectCommand (split_key timestamp ip.1)
           (PDF_serialize None (single ip.2)) "application/pdf")].

(** The service lets through the write and the signing of a page. *)
Definition page_accepted `{!PdfLib} (P : Call -> bool) (timestamp : Z)
    (ip : nat * Page) : Prop :=
  P (Send (PutObjectCommand (split_key timestamp ip.1)
             (PDF_serialize None (single ip.2)) "application/pdf")) = false /\
  P (Presign (GetObjectCommand (JStr (split_key timestamp ip.1))) 3600) = false.

(** What split has stored for the page [ip], read as a source of a merge. *)
Definition split_source `{!PdfLib} (timestamp : Z) (ip : nat * Page) : Source :=
  {| src_key := split_key timestamp ip.1;
     src_bytes := PDF_serialize None (single ip.2);
     src_doc := single ip.2 |}.

(** A decimal digit, and a string of digits. *)
Definition is_digit (c : ascii) : bool :=
  (48 <=? Ascii.nat_of_ascii c)%nat && (Ascii.nat_of_ascii c <=? 57)%nat.

Fixpoint all_digits (s : string) : bool :=
  match s with
  | EmptyString => true
  | String c s' => is_digit c && all_digits s'
  end.

(** ** A concrete runtime, library and bucket

    One instance of the interfaces above, on which the handlers can be run:
    a reader of decimal integers, exact arithmetic, and a two-bytes-a-page
    document format (a content byte, then the rotation in quarter turns; a
    last odd byte is padding). *)

Module Sample.

Fixpoint digits (s : string) (acc : Z) : option Z :=
  match s with
  | EmptyString => Some acc
  | String c s' =>
      let n := Z.of_nat (Ascii.nat_of_ascii c) - 48 in
      if (0 <=? n) && (n <=? 9) then digits s' (10 * acc + n) else None
  end.

Definition read_number (s : string) : JSNum :=
  match s with
  | EmptyString => Int 0
  | String "-"%char (String _ _ as s') =>
      match digits s' 0 with Some n => Int (- n) | None => NaN end
  | _ => match digits s 0 with Some n => Int n | None => NaN end
  end.

Definition runtime : Runtime :=
  {| StringToNumber := read_number;
     ObjectToString := fun _ => "[object Object]";
     round64 := fun q => q;
     toFixed := fun _ _ => "?" |}.

Fixpoint parse_pages (b : Bytes) : option (list Page) :=
  match b with
  | [] => Some []
  | [_] => Some []
  | c :: r :: b' =>
      match parse_pages b' with
      | Some ps => Some ({| content := [c]; rotation := 90 * Z.of_N (Byte.to_N r) |} :: ps)
      | None => None
      end
  end.

Definition quarter_turns (p : Page) : Byte.byte :=
  default Byte.x00 (Byte.of_N (Z.to_N ((rotation p / 90) mod 256))).

Definition pdf : PdfLib :=
  {| PDF_parse := fun _ b =>
       match b with
       | [] => None
       | _ => (fun ps => {| pages := ps |}) <$> parse_pages b
       end;
     PDF_serialize := fun _ d =>
       concat ((fun p => content p ++ [quarter_turns p]) <$> pages d) |}.

Definition object (b : Bytes) : StoredObject :=
  {| Body := {| chunks := [b]; broken := false |};
     ContentLength := Some (N.of_nat (length b)) |}.

(** [uploads/a.pdf]: two pages, at 0 and 270 degrees; [uploads/b.pdf]: one
    page at 90 degrees; [uploads/c.pdf]: three upright pages;
    [uploads/d.pdf]: one upright page and a byte of padding. *)
Definition a_pdf : Bytes := [Byte.x41; Byte.x00; Byte.x42; Byte.x03].
Definition b_pdf : Bytes := [Byte.x43; Byte.x01].
Definition c_pdf : Bytes := [Byte.x44; Byte.x00; Byte.x45; Byte.x00; Byte.x46; Byte.x00].
Definition d_pdf : Bytes := [Byte.x47; Byte.x00; Byte.xff].

Definition sign (c : Command) (expiresIn : Z) : string :=
  match c with
  | GetObjectCommand (JStr k) => "https://bucket.example/" +:+ k +:+ "?expires=" +:+ pretty expiresIn
  | _ => ""
  end.

(** The names of the sample worlds for the keys that are not strings: the
    text of an integer, of a boolean, of [null] and of [undefined]; no
    sample asks for another one. *)
Definition key_text (K : JSValue) : string :=
  match K with
  | JStr k => k
  | JNum (Fin q) => pretty (Qfloor q)
  | JNum NaN => "NaN"
  | JNum PosInf => "Infinity"
  | JNum NegInf => "-Infinity"
  | JBool true => "true"
  | JBool false => "false"
  | JNull => "null"
  | JUndefined => "undefined"
  | JArr _ | JObj _ => "[object Object]"
  end.

Definition world : World :=
  {| bucket := list_to_map [("uploads/a.pdf", object a_pdf);
                            ("uploads/b.pdf", object b_pdf);
                            ("uploads/c.pdf", object c_pdf);
                            ("uploads/d.pdf", object d_pdf)];
     clock := 1709123456789;
     faults := fun _ _ => false;
     signer := sign;
     names := key_text;
     trace := [] |}.

(** The same bucket behind a service that refuses every write. *)
Definition read_only_world : World :=
  {| bucket := bucket world;
     clock := clock world;
     faults := fun _ c => match c with Send (PutObjectCommand _ _ _) => true | _ => false end;
     signer := sign;
     names := key_text;
     trace := [] |}.

Definition request (fields : list (string * JSValue)) : LambdaEvent :=
  {| parsed_body := Some (obj fields) |}.

End Sample.

(** ** Other worlds

    The bucket of [Sample.world] behind services that refuse some calls, and
    a bucket whose one object has no declared size. *)

Module Worlds.

(** The signer is down. *)
Definition unsigned_world : World :=
  {| bucket := bucket Sample.world;
     clock := clock Sample.world;
     faults := fun _ c => is_signing c;
     signer := Sample.sign;
     names := Sample.key_text;
     trace := [] |}.

(** The service refuses the third page of a split made at the reading of
    the clock. *)
Definition third_page_refused : World :=
  {| bucket := bucket Sample.world;
     clock := clock Sample.world;
     faults := fun _ c => is_write_under (split_key (clock Sample.world) 2) c;
     signer := Sample.sign;
     names := Sample.key_text;
     trace := [] |}.

(** [uploads/e.pdf]: the two pages of [uploads/a.pdf], stored without a
    declared size. *)
Definition unsized_world : World :=
  {| bucket := {["uploads/e.pdf" :=
                   {| Body := {| chunks := [Sample.a_pdf]; broken := false |};
                      ContentLength := None |}]};
     clock := 1709123456789;
     faults := fun _ _ => false;
     signer := Sample.sign;
     names := Sample.key_text;
     trace := [] |}.

(** The bucket of [Sample.world] with one more object, the page of
    [uploads/b.pdf] under a numeral: the object a request reaches that gives
    its key as the number 123. *)
Definition numbered_world : World :=
  {| bucket := <["123" := Sample.object Sample.b_pdf]> (bucket Sample.world);
     clock := clock Sample.world;
     faults := fun _ _ => false;
     signer := Sample.sign;
     names := Sample.key_text;
     trace := [] |}.

End Worlds.

(** ** Reasoning about runs *)

Lemma logs_nil w : logs [] w = w.
Proof. destruct w; unfold logs; simpl. by rewrite app_nil_r. Qed.

Lemma log_logs c t w : log c (logs t w) = logs (t ++ [c]) w.
Proof. unfold log, logs; simpl. by rewrite <- app_assoc. Qed.

Lemma fault_free_store k o w : fault_free w -> fault_free (store k o w).
Proof. intros F ? ?. apply F. Qed.

Lemma bind_returned {A B} (m : M A) (k : A -> M B) w a w' :
  m w = (Returned a, w') -> bind m k w = k a w'.
Proof. unfold bind. by intros ->. Qed.

Lemma bind_thrown {A B} (m : M A) (k : A -> M B) w e w' :
  m w = (Thrown e, w') -> bind m k w = (Thrown e, w').
Proof. unfold bind. by intros ->. Qed.

Lemma bind_inv {A B} (m : M A) (k : A -> M B) w b w' :
  bind m k w = (Returned b, w') ->
  exists a w1, m w = (Returned a, w1) /\ k a w1 = (Returned b, w').
Proof.
  unfold bind. destruct (m w) as [[a|e] w1]; [eauto | discriminate].
Qed.

Lemma bind_of_option_Some {A B} e (a : A) (k : A -> M B) w :
  bind (of_option e (Some a)) k w = k a w.
Proof. reflexivity. Qed.

Lemma js_lt_Int a b : js_lt (Int a) (Int b) = bool_decide (a < b).
Proof.
  unfold js_lt, Int. apply bool_decide_ext. symmetry. apply Z2Qc_inj_lt.
Qed.

Lemma Int_inj a b : Int a = Int b -> a = b.
Proof. unfold Int. intros H. apply Z2Qc_inj. congruence. Qed.

Lemma to_Z_Int z : to_Z (Int z) = z.
Proof. unfold to_Z, Int. simpl. apply Qfloor_Z. Qed.

(** ** merge: validation *)

Section MergeValidation.
Context `{!Runtime, !PdfLib}.

(** The guard [!fileKeys || fileKeys.length < 2] answers at once. *)
Lemma merge_guard event body fileKeys w :
  parsed_body event = Some body ->
  get_field "fileKeys" body = Some fileKeys ->
  negb (truthy fileKeys) || js_lt (Number (length_of fileKeys)) (Int 2) = true ->
  Merge.handler event w = (Returned Merge.too_few, w).
Proof.
  intros Hb Hf Hg. unfold Merge.handler, JSON_parse, destructure.
  rewrite Hb. simpl. unfold bind at 1. simpl.
  rewrite Hf. simpl. unfold bind at 1. simpl.
  by rewrite Hg.
Qed.

Lemma merge_few_keys event body (keys : list JSValue) w :
  parsed_body event = Some body ->
  get_field "fileKeys" body = Some (JArr keys) ->
  (length keys < 2)%nat ->
  Merge.handler event w = (Returned Merge.too_few, w).
Proof.
  intros Hb Hf Hlen. eapply merge_guard; eauto.
  cbn [truthy negb orb length_of Number].
  rewrite js_lt_Int. apply bool_decide_eq_true. lia.
Qed.

End MergeValidation.

(** C10. A merge request whose body has no [fileKeys] field, or whose
    [fileKeys] is [null] or any other falsy value, gets the 400 response
    "Please provide at least 2 PDF files to merge" — the response a list of
    fewer than two keys gets — and the world is left as it was: no storage
    or library call is made and no exception is thrown. *)
Theorem merge_missing_fileKeys `{!Runtime, !PdfLib}
    (event : LambdaEvent) (body fileKeys : JSValue) (w : World) :
  parsed_body event = Some body ->
  get_field "fileKeys" body = Some fileKeys ->
  truthy fileKeys = false ->
  Merge.handler event w = (Returned Merge.too_few, w) /\
  statusCode Merge.too_few = 400 /\
  body_field "error" Merge.too_few
    = Some (JStr "Please provide at least 2 PDF files to merge") /\
  (forall event' body' keys w',
      parsed_body event' = Some body' ->
      get_field "fileKeys" body' = Some (JArr keys) ->
      (length keys < 2)%nat ->
      Merge.handler event' w' = (Returned Merge.too_few, w')).
Proof.
  intros Hb Hf Hfalsy. split; [| split; [| split]].
  - eapply merge_guard; eauto. by rewrite Hfalsy.
  - reflexivity.
  - reflexivity.
  - intros. eapply merge_few_keys; eauto.
Qed.

Lemma merge_missing_fileKeys_witness :
  parsed_body (Sample.request []) = Some (obj []) /\
  get_field "fileKeys" (obj []) = Some JUndefined /\
  truthy JUndefined = false /\
  @Merge.handler Sample.runtime Sample.pdf (Sample.request []) Sample.world
    = (Returned Merge.too_few, Sample.world).
Proof.
  split; [reflexivity | split; [reflexivity | split; [reflexivity |]]].
  apply (@merge_missing_fileKeys Sample.runtime Sample.pdf
           (Sample.request []) (obj []) JUndefined Sample.world);
    reflexivity.
Defined.

(** ** Responses and headers *)

(** Reading a successful run backwards: each awaited step returned, each
    test went one way, and the last step built the response. *)
Ltac invert_run H :=
  repeat (cbv beta zeta in H;
          match type of H with
          | bind _ _ _ = (Returned _, _) =>
              let a := fresh "a" in
              let w := fresh "w" in
              apply bind_inv in H; destruct H as (a & w & _ & H)
          | (if ?c then _ else _) _ = (Returned _, _) => destruct c
          | ret _ _ = (Returned _, _) => injection H as <- <-
          end).

Section Headers.
Context `{!Runtime, !PdfLib}.

Lemma merge_response_cors event w r w' :
  Merge.handler event w = (Returned r, w') -> has_cors r.
Proof.
  unfold Merge.handler. intros Hrun. invert_run Hrun; repeat split; reflexivity.
Qed.

Lemma split_response_cors event w r w' :
  Split.handler event w = (Returned r, w') -> has_cors r.
Proof.
  unfold Split.handler. intros Hrun. invert_run Hrun; repeat split; reflexivity.
Qed.

Lemma compress_response_cors event w r w' :
  Compress.handler event w = (Returned r, w') -> has_cors r.
Proof.
  unfold Compress.handler. intros Hrun. invert_run Hrun; repeat split; reflexivity.
Qed.

Lemma rotate_response_cors event w r w' :
  Rotate.handler event w = (Returned r, w') -> has_cors r.
Proof.
  unfold Rotate.handler. intros Hrun. invert_run Hrun; repeat split; reflexivity.
Qed.
End Headers.

(** C8, as stated, fails: a compress request for a key the bucket does not
    hold ends in an exception, not in a response, so there is nothing that
    carries the cross-origin headers. *)
Lemma compress_fault_has_no_response :
  fst (@Compress.handler Sample.runtime Sample.pdf
         (Sample.request [("fileKey", JStr "uploads/missing.pdf")]) Sample.world)
    = Thrown NoSuchKey /\
  ~ carries_cors
      (fst (@Compress.handler Sample.runtime Sample.pdf
              (Sample.request [("fileKey", JStr "uploads/missing.pdf")]) Sample.world)).
Proof.
  assert (E : fst (@Compress.handler Sample.runtime Sample.pdf
                     (Sample.request [("fileKey", JStr "uploads/missing.pdf")])
                     Sample.world) = Thrown NoSuchKey) by (vm_compute; reflexivity).
  split; [exact E |].
  rewrite E. intros (r & Hr & _). discriminate Hr.
Qed.

(** C8, amended. Every response a handler returns, the 200 of a success and
    the 400 of a validation failure alike, has status 200 or 400 and carries
    the three fixed cross-origin headers.  (A storage, decode or signing
    fault is not turned into a response: the handler throws.) *)
Theorem returned_responses_carry_cors `{!Runtime, !PdfLib} :
  (forall event w r w',
      Merge.handler event w = (Returned r, w') ->
      has_cors r /\ (statusCode r = 200 \/ statusCode r = 400)) /\
  (forall event w r w',
      Split.handler event w = (Returned r, w') ->
      has_cors r /\ (statusCode r = 200 \/ statusCode r = 400)) /\
  (forall event w r w',
      Compress.handler event w = (Returned r, w') ->
      has_cors r /\ (statusCode r = 200 \/ statusCode r = 400)) /\
  (forall event w r w',
      Rotate.handler event w = (Returned r, w') ->
      has_cors r /\ (statusCode r = 200 \/ statusCode r = 400)).
Proof.
  repeat apply conj; intros event w r w' Hrun.
  - split; [by eapply merge_response_cors |].
    unfold Merge.handler in Hrun. invert_run Hrun; simpl; auto.
  - split; [by eapply split_response_cors |].
    unfold Split.handler in Hrun. invert_run Hrun; simpl; auto.
  - split; [by eapply compress_response_cors |].
    unfold Compress.handler in Hrun. invert_run Hrun; simpl; auto.
  - split; [by eapply rotate_response_cors |].
    unfold Rotate.handler in Hrun. invert_run Hrun; simpl; auto.
Qed.

Lemma returned_responses_carry_cors_witness :
  @Rotate.handler Sample.runtime Sample.pdf
     (Sample.request [("fileKey", JStr "uploads/a.pdf"); ("rotation", JNum (Int 45))])
     Sample.world
    = (Returned Rotate.bad_rotation, Sample.world) /\
  has_cors Rotate.bad_rotation /\
  (statusCode Rotate.bad_rotation = 200 \/ statusCode Rotate.bad_rotation = 400).
Proof.
  split; [vm_compute; reflexivity |].
  apply (proj2 (proj2 (proj2
           (@returned_responses_carry_cors Sample.runtime Sample.pdf)))
           (Sample.request [("fileKey", JStr "uploads/a.pdf"); ("rotation", JNum (Int 45))])
           Sample.world Rotate.bad_rotation Sample.world).
  vm_compute; reflexivity.
Defined.

(** ** The upload step *)

Ltac solve_write_then_sign :=
  split; intros Hput;
  [ unfold bind, send_put; rewrite Hput; eexists; repeat split; reflexivity
  | unfold bind at 1; unfold send_put; rewrite Hput;
    unfold bind, getSignedUrl;
    match goal with
    | |- context [faults ?w0 (trace ?w0) (Presign ?c ?e)] =>
        destruct (faults w0 (trace w0) (Presign c e))
    end; do 2 eexists; (split; [reflexivity |]); simpl;
    (split; [by rewrite <- app_assoc | reflexivity]) ].

Lemma merge_upload_order pdfBytes outputKey w :
  write_then_sign (Merge.uploadPdfToS3 pdfBytes outputKey) outputKey pdfBytes w.
Proof. unfold write_then_sign, Merge.uploadPdfToS3. solve_write_then_sign. Qed.

Lemma split_upload_order pageBytes pageNumber timestamp w :
  write_then_sign (Split.uploadPageToS3 pageBytes pageNumber timestamp)
                  (Split.page_key timestamp pageNumber) pageBytes w.
Proof. unfold write_then_sign, Split.uploadPageToS3. solve_write_then_sign. Qed.

Lemma compress_upload_order pdfBytes outputKey w :
  write_then_sign (Compress.uploadCompressedPdfToS3 pdfBytes outputKey)
                  outputKey pdfBytes w.
Proof. unfold write_then_sign, Compress.uploadCompressedPdfToS3. solve_write_then_sign. Qed.

Lemma rotate_upload_order pdfBytes outputKey w :
  write_then_sign (Rotate.uploadRotatedPdfToS3 pdfBytes outputKey)
                  outputKey pdfBytes w.
Proof. unfold write_then_sign, Rotate.uploadRotatedPdfToS3. solve_write_then_sign. Qed.

(** *** The calls of a whole run *)

Lemma orderly_app f h t1 t2 thrown :
  orderly f h t1 false -> orderly f (h ++ t1) t2 thrown ->
  orderly f h (t1 ++ t2) thrown.
Proof.
  intros H1. remember false as b eqn:Hb. revert t2.
  induction H1 as [h b | h c t b Hc _ IH | h K t b HK _ IH
                  | h k bs ct e t b Hput Hsign _ IH | | ];
    intros t2 H2; try discriminate Hb.
  - by rewrite app_nil_r in H2.
  - simpl. apply orderly_library; [done |]. apply IH; [done |].
    by rewrite <- app_assoc.
  - simpl. apply orderly_fetch; [done |]. apply IH; [done |].
    by rewrite <- app_assoc.
  - simpl. apply orderly_write_sign; [done | done |]. apply IH; [done |].
    by rewrite <- app_assoc.
Qed.

Lemma orderly_sign f h t thrown :
  orderly f h t thrown ->
  forall t1 c e t2,
    t = t1 ++ Presign c e :: t2 ->
    exists t0 k b ct,
      t1 = t0 ++ [Send (PutObjectCommand k b ct)] /\
      c = GetObjectCommand (JStr k) /\
      f (h ++ t0) (Send (PutObjectCommand k b ct)) = false.
Proof.
  induction 1 as [h b | h c t b Hc _ IH | h K t b HK _ IH
                 | h k bs ct e t b Hput Hsign _ IH | h c Hc | h k bs ct e Hput Hsign];
    intros t1 c0 e0 t2 E.
  - by destruct t1.
  - destruct t1 as [| x t1]; simplify_eq/=.
    destruct (IH _ _ _ _ eq_refl) as (t0 & k & bs & ct & -> & -> & Hf).
    eexists (_ :: t0), k, bs, ct. repeat split. by rewrite <- app_assoc in Hf.
  - destruct t1 as [| x t1]; simplify_eq/=.
    destruct (IH _ _ _ _ eq_refl) as (t0 & k & bs & ct & -> & -> & Hf).
    eexists (_ :: t0), k, bs, ct. repeat split.
    by rewrite <- app_assoc in Hf.
  - destruct t1 as [| x [| y t1]]; simplify_eq/=.
    + exists [], k, bs, ct. repeat split. by rewrite app_nil_r.
    + destruct (IH _ _ _ _ eq_refl) as (t0 & k' & bs' & ct' & -> & -> & Hf).
      eexists (_ :: _ :: t0), k', bs', ct'. repeat split.
      by rewrite <- app_assoc in Hf.
  - destruct t1 as [| x [| y t1]]; simplify_eq/=.
  - destruct t1 as [| x [| y [| z t1]]]; simplify_eq/=.
    exists [], k, bs, ct. repeat split. by rewrite app_nil_r.
Qed.

Lemma orderly_refused_last f h t thrown :
  orderly f h t thrown ->
  forall t1 c t2,
    t = t1 ++ c :: t2 -> is_service c = true -> f (h ++ t1) c = true ->
    t2 = [] /\ thrown = true.
Proof.
  induction 1 as [h b | h c t b Hc _ IH | h K t b HK _ IH
                 | h k bs ct e t b Hput Hsign _ IH | h c Hc | h k bs ct e Hput Hsign];
    intros t1 c0 t2 E Hs Hf.
  - by destruct t1.
  - destruct t1 as [| x t1]; simplify_eq/=.
    + congruence.
    + eapply IH; [done | done |]. by rewrite <- app_assoc.
  - destruct t1 as [| x t1]; simplify_eq/=.
    + rewrite app_nil_r in Hf. congruence.
    + eapply IH; [done | done |]. by rewrite <- app_assoc.
  - destruct t1 as [| x [| y t1]]; simplify_eq/=.
    + rewrite app_nil_r in Hf. congruence.
    + congruence.
    + eapply IH; [done | done |]. by rewrite <- app_assoc.
  - destruct t1 as [| x [| y t1]]; simplify_eq/=. done.
  - destruct t1 as [| x [| y [| z t1]]]; simplify_eq/=.
    + rewrite app_nil_r in Hf. congruence.
    + done.
Qed.

Create HintDb disciplined.

Lemma disciplined_ret {A} (a : A) : disciplined (ret a).
Proof. intros w. exists []. simpl. rewrite app_nil_r. repeat split. constructor. Qed.

Lemma disciplined_throw {A} e : disciplined (@throw A e).
Proof. intros w. exists []. simpl. rewrite app_nil_r. repeat split. constructor. Qed.

Lemma disciplined_of_option {A} e (o : option A) : disciplined (of_option e o).
Proof. destruct o; [apply disciplined_ret | apply disciplined_throw]. Qed.

Lemma disciplined_bind {A B} (m : M A) (k : A -> M B) :
  disciplined m -> (forall a, disciplined (k a)) -> disciplined (bind m k).
Proof.
  intros Hm Hk w. unfold bind.
  destruct (Hm w) as (t1 & Ht1 & Hf1 & Ho1).
  destruct (m w) as [[a | e] w1]; simpl in *.
  - destruct (Hk a w1) as (t2 & Ht2 & Hf2 & Ho2).
    exists (t1 ++ t2). rewrite Ht2, Ht1, Hf2, Hf1, app_assoc.
    repeat split. apply orderly_app; [done |]. by rewrite <- Ht1, <- Hf1.
  - by exists t1.
Qed.

Lemma disciplined_for_each {A S} (body : S -> A -> M S) xs :
  (forall s x, disciplined (body s x)) -> forall s, disciplined (for_each body xs s).
Proof.
  intros Hbody. induction xs as [| x xs IH]; intros s; simpl.
  - apply disciplined_ret.
  - apply disciplined_bind; [apply Hbody | apply IH].
Qed.

Lemma disciplined_send_get K : disciplined (send_get K).
Proof.
  intros w. exists [Send (GetObjectCommand K)]. unfold send_get.
  destruct (faults w (trace w) (Send (GetObjectCommand K))) eqn:Hf.
  - repeat split. by apply orderly_refused.
  - destruct (bucket w !! key_name w K);
      repeat split; apply orderly_fetch; [done | constructor | done | constructor].
Qed.

Lemma disciplined_streamToBuffer s : disciplined (streamToBuffer s).
Proof.
  unfold streamToBuffer. destruct (broken s);
    [apply disciplined_throw | apply disciplined_ret].
Qed.

Lemma disciplined_Date_now : disciplined Date_now.
Proof. intros w. exists []. simpl. rewrite app_nil_r. repeat split. constructor. Qed.

Lemma disciplined_copyPages src indices : disciplined (copyPages src indices).
Proof. apply disciplined_of_option. Qed.

Lemma disciplined_load `{!PdfLib} b opt : disciplined (PDFDocument_load b opt).
Proof.
  intros w. exists [PdfLoad b opt]. unfold PDFDocument_load.
  destruct (PDF_parse opt b); repeat split;
    (apply orderly_library; [done | constructor]).
Qed.

Lemma disciplined_create `{!PdfLib} : disciplined PDFDocument_create.
Proof.
  intros w. exists [PdfCreate]. repeat split.
  apply orderly_library; [done | constructor].
Qed.

Lemma disciplined_save `{!PdfLib} d opt : disciplined (save d opt).
Proof.
  intros w. exists [PdfSave d opt]. repeat split.
  apply orderly_library; [done | constructor].
Qed.

(** A write and the signing of the written key, as every upload makes them. *)
Lemma disciplined_write_sign {A} (k : string -> M A) key bytes e :
  (forall url w, k url w = (fst (k url w), w)) ->
  (forall url w, is_thrown (fst (k url w)) = false) ->
  disciplined (let* _ := send_put key bytes "application/pdf" in
               let* signedUrl := getSignedUrl (GetObjectCommand (JStr key)) e in
               k signedUrl).
Proof.
  intros Hk Hret w. unfold bind, send_put, getSignedUrl.
  destruct (faults w (trace w) (Send (PutObjectCommand key bytes "application/pdf")))
    eqn:Hput.
  - exists [Send (PutObjectCommand key bytes "application/pdf")].
    repeat split. by apply orderly_refused.
  - cbn [trace store log faults].
    destruct (faults w (trace w ++ [Send (PutObjectCommand key bytes "application/pdf")])
                (Presign (GetObjectCommand (JStr key)) e)) eqn:Hsign.
    + eexists [_; _]. cbn [fst snd trace log store faults].
      rewrite <- app_assoc. repeat split. by apply orderly_write_unsigned.
    + eexists [_; _]. rewrite Hk. cbn [fst snd trace log store faults].
      rewrite <- app_assoc. repeat split. rewrite Hret.
      apply orderly_write_sign; [done | done | constructor].
Qed.

Ltac discipline :=
  repeat first
    [ apply disciplined_ret
    | apply disciplined_throw
    | apply disciplined_of_option
    | apply disciplined_send_get
    | apply disciplined_streamToBuffer
    | apply disciplined_Date_now
    | apply disciplined_copyPages
    | apply disciplined_load
    | apply disciplined_create
    | apply disciplined_save
    | solve [auto with disciplined]
    | apply disciplined_bind; [| intros ?]
    | apply disciplined_for_each; intros ? ?
    | match goal with
      | |- disciplined (if ?c then _ else _) => destruct c
      end
    | progress cbv beta zeta ].

Section Discipline.
Context `{!Runtime, !PdfLib}.

Lemma disciplined_merge_upload b k : disciplined (Merge.uploadPdfToS3 b k).
Proof. unfold Merge.uploadPdfToS3. by apply disciplined_write_sign. Qed.

Lemma disciplined_split_upload b n ts : disciplined (Split.uploadPageToS3 b n ts).
Proof. unfold Split.uploadPageToS3. by apply disciplined_write_sign. Qed.

Lemma disciplined_compress_upload b k :
  disciplined (Compress.uploadCompressedPdfToS3 b k).
Proof. unfold Compress.uploadCompressedPdfToS3. by apply disciplined_write_sign. Qed.

Lemma disciplined_rotate_upload b k : disciplined (Rotate.uploadRotatedPdfToS3 b k).
Proof. unfold Rotate.uploadRotatedPdfToS3. by apply disciplined_write_sign. Qed.

#[local] Hint Resolve disciplined_merge_upload disciplined_split_upload
  disciplined_compress_upload disciplined_rotate_upload : disciplined.

Lemma disciplined_merge event : disciplined (Merge.handler event).
Proof.
  unfold Merge.handler, JSON_parse, destructure, Merge.merge_one,
    Merge.downloadPdfFromS3.
  discipline.
Qed.

Lemma disciplined_split event : disciplined (Split.handler event).
Proof.
  unfold Split.handler, JSON_parse, destructure, Split.split_one,
    Split.downloadPdfFromS3.
  discipline.
Qed.

Lemma disciplined_compress event : disciplined (Compress.handler event).
Proof.
  unfold Compress.handler, JSON_parse, destructure, Compress.compressPdf,
    Compress.downloadPdfFromS3.
  discipline.
Qed.

Lemma disciplined_rotate event : disciplined (Rotate.handler event).
Proof.
  unfold Rotate.handler, JSON_parse, destructure, Rotate.downloadPdfFromS3.
  discipline.
Qed.
End Discipline.

#[global] Hint Resolve disciplined_merge_upload disciplined_split_upload
  disciplined_compress_upload disciplined_rotate_upload : disciplined.

Lemma disciplined_signs_only_written {A} (m : M A) :
  disciplined m -> signs_only_written m.
Proof.
  intros Hm w. destruct (Hm w) as (t & Ht & _ & Ho).
  exists t. split; [exact Ht |]. split.
  - intros t1 c e t2 E. by eapply orderly_sign.
  - intros t1 c t2 E Hs Hf.
    destruct (orderly_refused_last _ _ _ _ Ho t1 c t2 E Hs Hf) as [-> Hthrown].
    split; [done |]. destruct (fst (m w)); [done | eauto].
Qed.

(** C9. In the upload step of every handler ([uploadPdfToS3],
    [uploadPageToS3], [uploadCompressedPdfToS3], [uploadRotatedPdfToS3]) a
    refused write makes the step throw: the write attempt is its only call,
    so no URL is signed, and the bucket is as before.  When the write is
    accepted, the bucket holds the bytes and the signing call follows.  In
    every run of every handler, then, each signing call directly follows an
    accepted write of the key it signs, and a refused service call is the
    last call of the run, which ends in an exception. *)
Theorem signing_follows_successful_write `{!Runtime, !PdfLib}
    (pdfBytes : Bytes) (outputKey : string) (pageNumber timestamp : Z) (w : World) :
  write_then_sign (Merge.uploadPdfToS3 pdfBytes outputKey) outputKey pdfBytes w /\
  write_then_sign (Split.uploadPageToS3 pdfBytes pageNumber timestamp)
                  (Split.page_key timestamp pageNumber) pdfBytes w /\
  write_then_sign (Compress.uploadCompressedPdfToS3 pdfBytes outputKey)
                  outputKey pdfBytes w /\
  write_then_sign (Rotate.uploadRotatedPdfToS3 pdfBytes outputKey)
                  outputKey pdfBytes w /\
  (forall event, signs_only_written (Merge.handler event)) /\
  (forall event, signs_only_written (Split.handler event)) /\
  (forall event, signs_only_written (Compress.handler event)) /\
  (forall event, signs_only_written (Rotate.handler event)).
Proof.
  split; [apply merge_upload_order |].
  split; [apply split_upload_order |].
  split; [apply compress_upload_order |].
  split; [apply rotate_upload_order |].
  repeat split; intros event; apply disciplined_signs_only_written.
  - apply disciplined_merge.
  - apply disciplined_split.
  - apply disciplined_compress.
  - apply disciplined_rotate.
Qed.

Lemma signing_follows_successful_write_witness :
  faults Sample.read_only_world (trace Sample.read_only_world)
         (Send (PutObjectCommand "processed/merged-1.pdf" Sample.b_pdf "application/pdf"))
    = true /\
  exists w',
    Merge.uploadPdfToS3 Sample.b_pdf "processed/merged-1.pdf" Sample.read_only_world
      = (Thrown ServiceError, w') /\
    trace w' = trace Sample.read_only_world
               ++ [Send (PutObjectCommand "processed/merged-1.pdf" Sample.b_pdf
                                          "application/pdf")] /\
    bucket w' = bucket Sample.read_only_world.
Proof.
  split; [reflexivity |].
  apply (proj1 (proj1 (@signing_follows_successful_write
                         Sample.runtime Sample.pdf
                         Sample.b_pdf "processed/merged-1.pdf" 1 1
                         Sample.read_only_world))).
  reflexivity.
Defined.

(** ** Runs in which every step succeeds *)

(** One step of a run: the awaited computation returns by [L]. *)
Ltac step L :=
  erewrite bind_returned; [| solve [eapply L; eauto]]; cbv beta zeta.

Section Steps.
Context `{!PdfLib}.

Lemma send_get_ok w t k o :
  fault_free w -> bucket w !! k = Some o ->
  send_get (JStr k) (logs t w)
    = (Returned o, logs (t ++ [Send (GetObjectCommand (JStr k))]) w).
Proof.
  intros F Hk. unfold send_get. simpl. rewrite F, Hk.
  by rewrite log_logs.
Qed.

Lemma streamToBuffer_ok o b w :
  delivered o = Some b -> streamToBuffer (Body o) w = (Returned b, w).
Proof.
  unfold delivered, streamToBuffer. destruct (broken (Body o)); [done |].
  by intros [= <-].
Qed.

Lemma load_ok w t b opt d :
  PDF_parse opt b = Some d ->
  PDFDocument_load b opt (logs t w) = (Returned d, logs (t ++ [PdfLoad b opt]) w).
Proof. intros Hd. unfold PDFDocument_load. by rewrite Hd, log_logs. Qed.

Lemma create_ok w t :
  PDFDocument_create (logs t w)
    = (Returned {| pages := [] |}, logs (t ++ [PdfCreate]) w).
Proof. unfold PDFDocument_create. by rewrite log_logs. Qed.

Lemma save_ok w t d opt :
  save d opt (logs t w)
    = (Returned (PDF_serialize opt d), logs (t ++ [PdfSave d opt]) w).
Proof. unfold save. by rewrite log_logs. Qed.

Lemma send_put_ok w t k b :
  fault_free w ->
  send_put k b "application/pdf" (logs t w)
    = (Returned tt,
       logs (t ++ [Send (PutObjectCommand k b "application/pdf")])
            (store k (written b) w)).
Proof.
  intros F. unfold send_put. simpl. rewrite F. by rewrite log_logs.
Qed.

Lemma getSignedUrl_ok w t c e :
  fault_free w ->
  getSignedUrl c e (logs t w)
    = (Returned (signer w c e), logs (t ++ [Presign c e]) w).
Proof.
  intros F. unfold getSignedUrl. simpl. rewrite F. by rewrite log_logs.
Qed.

Lemma Date_now_ok w t : Date_now (logs t w) = (Returned (clock w), logs t w).
Proof. reflexivity. Qed.

Lemma copyPages_all pdf w :
  copyPages pdf (getPageIndices pdf) w = (Returned (pages pdf), w).
Proof.
  unfold copyPages, getPageIndices, getPageCount.
  assert (E : mapM (fun i => pages pdf !! i) (seq 0 (length (pages pdf)))
              = Some (pages pdf)); [| by rewrite E].
  apply mapM_Some, Forall2_same_length_lookup. split.
  - by rewrite length_seq.
  - intros i x y Hx Hy. apply lookup_seq in Hx as [-> _]. done.
Qed.

Lemma copyPages_one pdf i p w :
  pages pdf !! i = Some p -> copyPages pdf [i] w = (Returned [p], w).
Proof. intros Hp. unfold copyPages. simpl. by rewrite Hp. Qed.

Lemma foldl_addPage d ps :
  foldl addPage d ps = {| pages := pages d ++ ps |}.
Proof.
  revert d. induction ps as [| p ps IH]; intros d; simpl.
  - destruct d. simpl. by rewrite app_nil_r.
  - rewrite IH. simpl. by rewrite <- app_assoc.
Qed.
End Steps.

(** ** merge: the pages of the output *)

Section MergePages.
Context `{!Runtime, !PdfLib}.

Lemma merge_download_ok w t k o b :
  fault_free w -> bucket w !! k = Some o -> delivered o = Some b ->
  Merge.downloadPdfFromS3 (JStr k) (logs t w)
    = (Returned b, logs (t ++ [Send (GetObjectCommand (JStr k))]) w).
Proof.
  intros F Hk Hb. unfold Merge.downloadPdfFromS3.
  step send_get_ok. step streamToBuffer_ok. reflexivity.
Qed.

Lemma merge_upload_ok w t k b :
  fault_free w ->
  Merge.uploadPdfToS3 b k (logs t w)
    = (Returned (signer w (GetObjectCommand (JStr k)) 3600),
       logs (t ++ upload_calls k b) (store k (written b) w)).
Proof.
  intros F. unfold Merge.uploadPdfToS3.
  step send_put_ok.
  erewrite bind_returned;
    [| apply getSignedUrl_ok; by apply fault_free_store].
  cbv beta. unfold ret, upload_calls. by rewrite <- app_assoc.
Qed.

Lemma merge_one_ok w t acc s :
  fault_free w -> fetched w None s ->
  Merge.merge_one acc (JStr (src_key s)) (logs t w)
    = (Returned {| pages := pages acc ++ pages (src_doc s) |},
       logs (t ++ fetch_calls None s) w).
Proof.
  intros F (o & Hk & Hb & Hd). unfold Merge.merge_one.
  step merge_download_ok. step load_ok.
  rewrite (bind_returned _ _ _ _ _ (copyPages_all _ _)).
  rewrite foldl_addPage. unfold ret, fetch_calls. by rewrite <- app_assoc.
Qed.

Lemma merge_loop_ok w srcs : forall t acc,
  fault_free w -> Forall (fetched w None) srcs ->
  for_each Merge.merge_one (JStr ∘ src_key <$> srcs) acc (logs t w)
    = (Returned {| pages := pages acc ++ concat (pages ∘ src_doc <$> srcs) |},
       logs (t ++ (srcs ≫= fetch_calls None)) w).
Proof.
  induction srcs as [| s srcs IH]; intros t acc F Hall.
  - simpl. unfold ret. rewrite !app_nil_r. by destruct acc.
  - apply Forall_cons in Hall as [Hs Hall].
    cbn [fmap list_fmap for_each compose]. 
    rewrite (bind_returned _ _ _ _ _ (merge_one_ok w t acc s F Hs)).
    rewrite (IH _ _ F Hall). simpl. by rewrite <- !app_assoc.
Qed.

Lemma merge_run_ok event body srcs w t :
  parsed_body event = Some body ->
  get_field "fileKeys" body = Some (JArr (JStr ∘ src_key <$> srcs)) ->
  (2 <= length srcs)%nat ->
  fault_free w ->
  Forall (fetched w None) srcs ->
  let merged := {| pages := concat (pages ∘ src_doc <$> srcs) |} in
  let outputKey := "processed/merged-" +:+ pretty (clock w) +:+ ".pdf" in
  let mergedBytes := PDF_serialize None merged in
  Merge.handler event (logs t w)
  = (Returned
       {| statusCode := 200;
          headers := Merge.corsHeaders;
          body_json :=
            obj [("message", JStr "PDFs merged successfully");
                 ("downloadUrl",
                  JStr (signer w (GetObjectCommand (JStr outputKey)) 3600));
                 ("outputKey", JStr outputKey)] |},
     logs (t ++ PdfCreate :: (srcs ≫= fetch_calls None)
             ++ PdfSave merged None :: upload_calls outputKey mergedBytes)
          (store outputKey (written mergedBytes) w)).
Proof.
  intros Hb Hf Hlen F Hall merged outputKey mergedBytes.
  unfold Merge.handler, JSON_parse, destructure.
  rewrite Hb, bind_of_option_Some, Hf, bind_of_option_Some.
  cbn [truthy negb orb length_of Number iterate].
  rewrite js_lt_Int, bool_decide_eq_false_2 by (rewrite length_fmap; lia).
  rewrite (bind_returned _ _ _ _ _ (create_ok w t)).
  rewrite bind_of_option_Some.
  rewrite (bind_returned _ _ _ _ _ (merge_loop_ok w srcs _ _ F Hall)).
  cbn [pages app].
  rewrite (bind_returned _ _ _ _ _ (save_ok w _ _ None)).
  rewrite (bind_returned _ _ _ _ _ (Date_now_ok w _)).
  rewrite (bind_returned _ _ _ _ _ (merge_upload_ok w _ _ _ F)).
  unfold ret. f_equal. f_equal.
  rewrite <- !app_assoc. reflexivity.
Qed.

Lemma sum_list_concat (docs : list Document) :
  length (concat (pages <$> docs)) = sum_list (getPageCount <$> docs).
Proof.
  induction docs as [| d docs IH]; [done |].
  rewrite !fmap_cons. change (concat (pages d :: (pages <$> docs)))
    with (pages d ++ concat (pages <$> docs)).
  rewrite length_app, IH. reflexivity.
Qed.
End MergePages.

(** C1. A merge request whose [fileKeys] lists N >= 2 keys of objects that
    download and decode (and no service call fails) is answered with 200;
    the document that is serialised and stored under the output key has as
    its page sequence the concatenation of the sources' page sequences, in
    the order of [fileKeys], each source's own order kept, so its page count
    is the sum of the sources' page counts. *)
Theorem merge_concatenates_pages `{!Runtime, !PdfLib}
    (event : LambdaEvent) (body : JSValue) (srcs : list Source) (w : World) :
  parsed_body event = Some body ->
  get_field "fileKeys" body = Some (JArr (JStr ∘ src_key <$> srcs)) ->
  (2 <= length srcs)%nat ->
  fault_free w ->
  Forall (fetched w None) srcs ->
  let merged := {| pages := concat (pages ∘ src_doc <$> srcs) |} in
  let outputKey := "processed/merged-" +:+ pretty (clock w) +:+ ".pdf" in
  let mergedBytes := PDF_serialize None merged in
  getPageCount merged = sum_list (getPageCount ∘ src_doc <$> srcs) /\
  exists r,
    Merge.handler event w
      = (Returned r,
         logs (PdfCreate :: (srcs ≫= fetch_calls None)
                 ++ PdfSave merged None :: upload_calls outputKey mergedBytes)
              (store outputKey (written mergedBytes) w)) /\
    statusCode r = 200 /\
    body_field "outputKey" r = Some (JStr outputKey) /\
    body_field "downloadUrl" r
      = Some (JStr (signer w (GetObjectCommand (JStr outputKey)) 3600)).
Proof.
  intros Hb Hf Hlen F Hall merged outputKey mergedBytes. split.
  - change (getPageCount merged)
      with (length (concat (pages ∘ src_doc <$> srcs))).
    rewrite (list_fmap_compose src_doc pages).
    rewrite (list_fmap_compose src_doc getPageCount).
    apply sum_list_concat.
  - pose proof (merge_run_ok event body srcs w [] Hb Hf Hlen F Hall) as Hrun.
    rewrite logs_nil in Hrun. eexists. split; [exact Hrun |].
    repeat split; reflexivity.
Qed.

Lemma merge_concatenates_pages_witness :
  exists r w',
    @Merge.handler Sample.runtime Sample.pdf
       (Sample.request [("fileKeys", JArr [JStr "uploads/a.pdf"; JStr "uploads/b.pdf"])])
       Sample.world
      = (Returned r, w') /\
    statusCode r = 200 /\
    PdfSave {| pages := [{| content := [Byte.x41]; rotation := 0 |};
                         {| content := [Byte.x42]; rotation := 270 |};
                         {| content := [Byte.x43]; rotation := 90 |}] |} None
      ∈ trace w' /\
    bucket w' !! "processed/merged-1709123456789.pdf"
      = Some (written [Byte.x41; Byte.x00; Byte.x42; Byte.x03; Byte.x43; Byte.x01]).
Proof.
  destruct (@merge_concatenates_pages Sample.runtime Sample.pdf
              (Sample.request [("fileKeys", JArr [JStr "uploads/a.pdf"; JStr "uploads/b.pdf"])])
              (obj [("fileKeys", JArr [JStr "uploads/a.pdf"; JStr "uploads/b.pdf"])])
              [ {| src_key := "uploads/a.pdf"; src_bytes := Sample.a_pdf;
                   src_doc := {| pages := [{| content := [Byte.x41]; rotation := 0 |};
                                           {| content := [Byte.x42]; rotation := 270 |}] |} |};
                {| src_key := "uploads/b.pdf"; src_bytes := Sample.b_pdf;
                   src_doc := {| pages := [{| content := [Byte.x43]; rotation := 90 |}] |} |} ]
              Sample.world)
    as (_ & r & Hrun & Hstatus & _).
  - reflexivity.
  - reflexivity.
  - simpl. lia.
  - intros ? ?. reflexivity.
  - repeat constructor.
    + exists (Sample.object Sample.a_pdf). repeat split; reflexivity.
    + exists (Sample.object Sample.b_pdf). repeat split; reflexivity.
  - exists r. eexists. split; [exact Hrun |]. split; [exact Hstatus |].
    split; [| reflexivity].
    simpl. apply list_elem_of_In. simpl. tauto.
Defined.

(** ** split: one stored document a page *)

Lemma string_length_app (s1 s2 : string) :
  String.length (s1 +:+ s2) = (String.length s1 + String.length s2)%nat.
Proof. induction s1 as [| a s1 IH]; simpl; [done | by rewrite IH]. Qed.

Lemma string_app_inj_r (s1 s2 t : string) : s1 +:+ t = s2 +:+ t -> s1 = s2.
Proof.
  revert s2. induction s1 as [| a s1 IH]; intros [| b s2] E; simpl in E.
  - done.
  - apply (f_equal String.length) in E.
    rewrite !string_length_app in E. simpl in E. lia.
  - apply (f_equal String.length) in E.
    rewrite !string_length_app in E. simpl in E. lia.
  - injection E as -> E. f_equal. by apply IH.
Qed.

Lemma page_key_inj ts n m : Split.page_key ts n = Split.page_key ts m -> n = m.
Proof.
  unfold Split.page_key. intros E.
  do 3 apply String.app_inj in E.
  apply string_app_inj_r in E. by apply pretty_Z_inj in E.
Qed.

Lemma split_key_inj ts i j : split_key ts i = split_key ts j -> i = j.
Proof. unfold split_key. intros E%page_key_inj. lia. Qed.

Lemma indexed_length {A} (l : list A) i : length (indexed i l) = length l.
Proof. revert i. induction l as [| x l IH]; intros i; simpl; [done | by rewrite IH]. Qed.

Lemma indexed_fst {A} (l : list A) i : (indexed i l).*1 = seq i (length l).
Proof. revert i. induction l as [| x l IH]; intros i; simpl; [done | by rewrite IH]. Qed.

Lemma indexed_lookup {A} (l : list A) i j x :
  l !! j = Some x -> indexed i l !! j = Some ((i + j)%nat, x).
Proof.
  revert i j. induction l as [| y l IH]; intros i [| j] Hx; simplify_eq/=.
  - by rewrite Nat.add_0_r.
  - rewrite (IH (S i) j Hx). do 2 f_equal. lia.
Qed.

Lemma bucket_put_all_notin outs w k :
  k ∉ outs.*1 -> bucket (put_all outs w) !! k = bucket w !! k.
Proof.
  revert w. induction outs as [| [k1 b1] outs IH]; intros w Hk; [done |].
  rewrite fmap_cons, not_elem_of_cons in Hk. destruct Hk as [Hne Hk].
  unfold put_all in *. simpl. rewrite IH by done. simpl.
  by rewrite lookup_insert_ne.
Qed.

Lemma bucket_put_all_in outs w k b :
  NoDup outs.*1 -> (k, b) ∈ outs ->
  bucket (put_all outs w) !! k = Some (written b).
Proof.
  revert w. induction outs as [| [k1 b1] outs IH]; intros w Hnd Hin.
  - by apply elem_of_nil in Hin.
  - rewrite fmap_cons in Hnd. apply NoDup_cons in Hnd as [Hk1 Hnd].
    apply elem_of_cons in Hin as [[= -> ->] | Hin].
    + change (put_all ((k1, b1) :: outs) w)
        with (put_all outs (store k1 (written b1) w)).
      rewrite bucket_put_all_notin by done. simpl. apply lookup_insert_eq.
    + change (put_all ((k1, b1) :: outs) w)
        with (put_all outs (store k1 (written b1) w)).
      by apply IH.
Qed.

Lemma trace_put_all outs w : trace (put_all outs w) = trace w.
Proof.
  revert w. induction outs as [| kb outs IH]; intros w; [done |].
  unfold put_all in *. simpl. by rewrite IH.
Qed.

Lemma fault_free_put_all outs w : fault_free w -> fault_free (put_all outs w).
Proof.
  revert w. induction outs as [| kb outs IH]; intros w F; [done |].
  apply IH. by apply fault_free_store.
Qed.

Section SplitPages.
Context `{!PdfLib}.

Lemma split_download_ok w t k o b :
  fault_free w -> bucket w !! k = Some o -> delivered o = Some b ->
  Split.downloadPdfFromS3 (JStr k) (logs t w)
    = (Returned b, logs (t ++ [Send (GetObjectCommand (JStr k))]) w).
Proof.
  intros F Hk Hb. unfold Split.downloadPdfFromS3.
  step send_get_ok. by apply streamToBuffer_ok.
Qed.

Lemma split_upload_ok w t b n ts :
  fault_free w ->
  Split.uploadPageToS3 b n ts (logs t w)
    = (Returned {| Split.pageNumber := n;
                   Split.downloadUrl :=
                     signer w (GetObjectCommand (JStr (Split.page_key ts n))) 3600;
                   Split.outputKey := Split.page_key ts n |},
       logs (t ++ upload_calls (Split.page_key ts n) b)
            (store (Split.page_key ts n) (written b) w)).
Proof.
  intros F. unfold Split.uploadPageToS3.
  step send_put_ok.
  erewrite bind_returned;
    [| apply getSignedUrl_ok; by apply fault_free_store].
  cbv beta. unfold ret, upload_calls. by rewrite <- app_assoc.
Qed.

Lemma split_one_ok pdf ts acc i p w t :
  fault_free w -> pages pdf !! i = Some p ->
  Split.split_one pdf ts acc i (logs t w)
    = (Returned (acc ++ [split_result w ts (i, p)]),
       logs (t ++ split_calls ts (i, p))
            (put_all [split_output ts (i, p)] w)).
Proof.
  intros F Hp. unfold Split.split_one.
  rewrite (bind_returned _ _ _ _ _ (create_ok w t)).
  rewrite (bind_returned _ _ _ _ _ (copyPages_one pdf i p _ Hp)).
  cbn [head]. rewrite bind_of_option_Some.
  change (addPage {| pages := [] |} p) with (single p).
  rewrite (bind_returned _ _ _ _ _ (save_ok w _ _ None)).
  rewrite (bind_returned _ _ _ _ _ (split_upload_ok w _ _ _ ts F)).
  unfold ret, split_calls, split_result, split_output, split_key, put_all.
  simpl. by rewrite <- !app_assoc.
Qed.

Lemma split_loop_ok pdf ts ps : forall pre acc t w,
  fault_free w -> pages pdf = pre ++ ps ->
  for_each (Split.split_one pdf ts) (seq (length pre) (length ps)) acc (logs t w)
    = (Returned (acc ++ (split_result w ts <$> indexed (length pre) ps)),
       logs (t ++ (indexed (length pre) ps ≫= split_calls ts))
            (put_all (split_output ts <$> indexed (length pre) ps) w)).
Proof.
  induction ps as [| p ps IH]; intros pre acc t w F Hpages.
  - simpl. unfold ret. by rewrite !app_nil_r.
  - assert (Hp : pages pdf !! length pre = Some p)
      by (rewrite Hpages; apply list_lookup_middle; done).
    cbn [length seq for_each].
    rewrite (bind_returned _ _ _ _ _ (split_one_ok pdf ts acc _ p w t F Hp)).
    specialize (IH (pre ++ [p]) (acc ++ [split_result w ts (length pre, p)])
                   (t ++ split_calls ts (length pre, p))
                   (put_all [split_output ts (length pre, p)] w)).
    rewrite length_app, Nat.add_1_r in IH.
    rewrite IH; [| by apply fault_free_put_all | by rewrite <- app_assoc].
    cbn [indexed fmap list_fmap mbind list_bind]. f_equal.
    + f_equal. by rewrite <- app_assoc.
    + by rewrite <- app_assoc.
Qed.

Lemma writes_split_calls ts (ips : list (nat * Page)) :
  writes (ips ≫= split_calls ts) = split_output ts <$> ips.
Proof.
  induction ips as [| ip ips IH]; [done |].
  cbn [mbind list_bind fmap list_fmap]. unfold writes in *.
  rewrite omap_app, IH. reflexivity.
Qed.

Lemma split_keys_NoDup ts (ps : list Page) i :
  NoDup (split_output ts <$> indexed i ps).*1.
Proof.
  rewrite <- list_fmap_compose.
  rewrite (list_fmap_ext _ (split_key ts ∘ fst) (indexed i ps))
    by (by intros ? [? ?]).
  rewrite (list_fmap_compose fst (split_key ts)), indexed_fst.
  apply NoDup_fmap_2; [intros ? ? ?; by eapply split_key_inj | apply NoDup_seq].
Qed.

Lemma split_run_ok event body k o b pdf w t :
  parsed_body event = Some body ->
  get_field "fileKey" body = Some (JStr k) ->
  k <> "" ->
  fault_free w ->
  bucket w !! k = Some o -> delivered o = Some b ->
  PDF_parse None b = Some pdf ->
  (2 <= getPageCount pdf)%nat ->
  let ips := indexed 0 (pages pdf) in
  Split.handler event (logs t w)
  = (Returned
       {| statusCode := 200;
          headers := Split.corsHeaders;
          body_json :=
            obj [("message", JStr ("PDF split into " +:+ pretty (getPageCount pdf)
                                   +:+ " pages successfully"));
                 ("pageCount", JNum (Int (Z.of_nat (getPageCount pdf))));
                 ("pages",
                  JArr (Split.page_json <$> (split_result w (clock w) <$> ips)))] |},
     logs (t ++ Send (GetObjectCommand (JStr k)) :: PdfLoad b None
             :: (ips ≫= split_calls (clock w)))
          (put_all (split_output (clock w) <$> ips) w)).
Proof.
  intros Hb Hf Hk F Ho Hd Hpdf Hlen ips.
  unfold Split.handler, JSON_parse, destructure.
  rewrite Hb, bind_of_option_Some, Hf, bind_of_option_Some.
  cbn [truthy negb].
  rewrite bool_decide_eq_false_2 by done. cbn [negb].
  rewrite (bind_returned _ _ _ _ _ (split_download_ok w t k o b F Ho Hd)).
  rewrite (bind_returned _ _ _ _ _ (load_ok w _ b None pdf Hpdf)).
  cbv zeta.
  destruct (Nat.ltb_spec (getPageCount pdf) 2) as [? | _]; [lia |].
  rewrite (bind_returned _ _ _ _ _ (Date_now_ok w _)).
  pose proof (split_loop_ok pdf (clock w) (pages pdf) [] [] 
                ((t ++ [Send (GetObjectCommand (JStr k))]) ++ [PdfLoad b None])
                w F eq_refl) as Hloop.
  cbn [length app] in Hloop. unfold getPageCount at 1.
  rewrite (bind_returned _ _ _ _ _ Hloop).
  unfold ret. f_equal. by rewrite <- !app_assoc.
Qed.
End SplitPages.

(** C2. A split request on a source of D >= 2 pages (its object downloads
    and decodes, no service call fails) is answered with 200 and makes
    exactly D storage writes, under D distinct keys.  The [pages] field of
    the response is an array of D objects whose [pageNumber] fields are 1,
    2, ..., D in this order; the object of index i has the fields
    [pageNumber] i + 1, [downloadUrl] the signer's URL for the key of that
    page and [outputKey] that key, and no other.  The object written for
    page number i + 1 is the serialisation of a document of exactly one
    page, the source page of index i, and the bucket holds it under the key
    of that page at the end. *)
Theorem split_one_document_per_page `{!PdfLib}
    (event : LambdaEvent) (body : JSValue) (k : string) (o : StoredObject)
    (b : Bytes) (pdf : Document) (w : World) :
  parsed_body event = Some body ->
  get_field "fileKey" body = Some (JStr k) ->
  k <> "" ->
  fault_free w ->
  bucket w !! k = Some o ->
  delivered o = Some b ->
  PDF_parse None b = Some pdf ->
  (2 <= getPageCount pdf)%nat ->
  let D := getPageCount pdf in
  let ips := indexed 0 (pages pdf) in
  let outs := split_output (clock w) <$> ips in
  let results := split_result w (clock w) <$> ips in
  exists r w' calls entries,
    Split.handler event w = (Returned r, w') /\
    statusCode r = 200 /\
    body_field "pages" r = Some (JArr (Split.page_json <$> results)) /\
    Split.pageNumber <$> results = (fun i => Z.of_nat i + 1) <$> seq 0 D /\
    body_field "pages" r = Some (JArr entries) /\
    length entries = D /\
    get_field "pageNumber" <$> entries
      = (fun i => Some (JNum (Int (Z.of_nat i + 1)))) <$> seq 0 D /\
    trace w' = trace w ++ calls /\
    writes calls = outs /\
    length outs = D /\
    NoDup outs.*1 /\
    forall i p,
      pages pdf !! i = Some p ->
      let key := Split.page_key (clock w) (Z.of_nat i + 1) in
      entries !! i
        = Some (obj [("pageNumber", JNum (Int (Z.of_nat i + 1)));
                     ("downloadUrl", JStr (signer w (GetObjectCommand (JStr key)) 3600));
                     ("outputKey", JStr key)]) /\
      outs !! i = Some (key, PDF_serialize None (single p)) /\
      pages (single p) = [p] /\
      bucket w' !! key = Some (written (PDF_serialize None (single p))).
Proof.
  intros Hb Hf Hk F Ho Hd Hpdf Hlen D ips outs results.
  pose proof (split_run_ok event body k o b pdf w [] Hb Hf Hk F Ho Hd Hpdf Hlen)
    as Hrun.
  rewrite logs_nil in Hrun. cbv zeta in Hrun.
  eexists _, _, (Send (GetObjectCommand (JStr k)) :: PdfLoad b None
                   :: (ips ≫= split_calls (clock w))),
    (Split.page_json <$> results).
  split; [exact Hrun |].
  split; [reflexivity |]. split; [reflexivity |].
  split.
  { unfold results. rewrite <- list_fmap_compose.
    rewrite (list_fmap_ext _ ((fun i => Z.of_nat i + 1) ∘ fst) ips)
      by (by intros ? [? ?]).
    rewrite (list_fmap_compose fst). unfold ips. by rewrite indexed_fst. }
  split; [reflexivity |].
  split; [unfold results, ips; by rewrite !length_fmap, indexed_length |].
  split.
  { unfold results. rewrite <- !list_fmap_compose.
    rewrite (list_fmap_ext _ ((fun i => Some (JNum (Int (Z.of_nat i + 1)))) ∘ fst) ips)
      by (by intros ? [? ?]).
    rewrite (list_fmap_compose fst). unfold ips. by rewrite indexed_fst. }
  split; [simpl; by rewrite trace_put_all |].
  split.
  { change (writes (Send (GetObjectCommand (JStr k)) :: PdfLoad b None
                      :: (ips ≫= split_calls (clock w))))
      with (writes (ips ≫= split_calls (clock w))).
    apply writes_split_calls. }
  split; [unfold outs, ips; by rewrite length_fmap, indexed_length |].
  split; [apply split_keys_NoDup |].
  intros i p Hp.
  assert (Hout : outs !! i = Some (Split.page_key (clock w) (Z.of_nat i + 1),
                                   PDF_serialize None (single p))).
  { unfold outs, ips. rewrite list_lookup_fmap.
    by rewrite (indexed_lookup _ 0 i p Hp). }
  cbv zeta. split.
  { unfold results, ips. rewrite !list_lookup_fmap.
    by rewrite (indexed_lookup _ 0 i p Hp). }
  split; [exact Hout |]. split; [reflexivity |].
  change (bucket (logs (Send (GetObjectCommand (JStr k)) :: PdfLoad b None
                          :: (ips ≫= split_calls (clock w)))
                       (put_all outs w)))
    with (bucket (put_all outs w)).
  apply bucket_put_all_in; [apply split_keys_NoDup |].
  by eapply list_elem_of_lookup_2.
Qed.

Lemma split_one_document_per_page_witness :
  exists r w' entries,
    @Split.handler Sample.pdf
       (Sample.request [("fileKey", JStr "uploads/c.pdf")]) Sample.world
      = (Returned r, w') /\
    statusCode r = 200 /\
    body_field "pages" r = Some (JArr entries) /\
    get_field "pageNumber" <$> entries
      = [Some (JNum (Int 1)); Some (JNum (Int 2)); Some (JNum (Int 3))] /\
    Split.pageNumber <$>
      (split_result Sample.world 1709123456789
         <$> indexed 0 [{| content := [Byte.x44]; rotation := 0 |};
                        {| content := [Byte.x45]; rotation := 0 |};
                        {| content := [Byte.x46]; rotation := 0 |}])
      = [1; 2; 3] /\
    bucket w' !! "processed/split-1709123456789-page-2.pdf"
      = Some (written [Byte.x45; Byte.x00]).
Proof.
  destruct (@split_one_document_per_page Sample.pdf
              (Sample.request [("fileKey", JStr "uploads/c.pdf")])
              (obj [("fileKey", JStr "uploads/c.pdf")])
              "uploads/c.pdf" (Sample.object Sample.c_pdf) Sample.c_pdf
              {| pages := [{| content := [Byte.x44]; rotation := 0 |};
                           {| content := [Byte.x45]; rotation := 0 |};
                           {| content := [Byte.x46]; rotation := 0 |}] |}
              Sample.world)
    as (r & w' & calls & entries & Hrun & Hstatus & _ & Hnumbers & Hentries & _
        & Hfields & _ & _ & _ & _ & Hpages).
  - reflexivity.
  - reflexivity.
  - discriminate.
  - intros ? ?. reflexivity.
  - reflexivity.
  - reflexivity.
  - reflexivity.
  - unfold getPageCount. cbn [pages length]. lia.
  - exists r, w', entries. split; [exact Hrun |]. split; [exact Hstatus |].
    split; [exact Hentries |]. split; [exact Hfields |].
    split; [exact Hnumbers |].
    exact (proj2 (proj2 (proj2 (Hpages 1%nat _ eq_refl)))).
Defined.

(** ** rotate: the angle of every page *)

Section RotatePages.
Context `{!Runtime, !PdfLib}.

Lemma includes_validAngles (x : JSNum) :
  includes Rotate.validAngles x = true <->
  x = Int 90 \/ x = Int (-90) \/ x = Int 180.
Proof.
  unfold includes, Rotate.validAngles. cbn [existsb].
  rewrite !orb_true_iff, !bool_decide_eq_true. intuition congruence.
Qed.

Lemma validateRotation_true (angle : JSValue) :
  Rotate.validateRotation angle = true <->
  Number angle = Int 90 \/ Number angle = Int (-90) \/ Number angle = Int 180.
Proof. apply includes_validAngles. Qed.

Lemma validateRotation_angle (angle : JSValue) :
  Rotate.validateRotation angle = true ->
  Number angle = Int (to_Z (Number angle)) /\
  (to_Z (Number angle) = 90 \/ to_Z (Number angle) = -90 \/
   to_Z (Number angle) = 180).
Proof.
  intros [E | [E | E]]%validateRotation_true; rewrite E, to_Z_Int; auto.
Qed.

Lemma rotate_pages_angles delta pdf :
  rotation <$> pages (Rotate.rotate_pages delta pdf)
    = (fun p => rotation p + delta) <$> pages pdf /\
  content <$> pages (Rotate.rotate_pages delta pdf) = content <$> pages pdf.
Proof.
  unfold Rotate.rotate_pages, getPages. cbn [pages].
  rewrite <- !list_fmap_compose. split; by apply list_fmap_ext.
Qed.

Lemma rotate_download_ok w t k o b :
  fault_free w -> bucket w !! k = Some o -> delivered o = Some b ->
  Rotate.downloadPdfFromS3 (JStr k) (logs t w)
    = (Returned b, logs (t ++ [Send (GetObjectCommand (JStr k))]) w).
Proof.
  intros F Hk Hb. unfold Rotate.downloadPdfFromS3.
  step send_get_ok. by apply streamToBuffer_ok.
Qed.

Lemma rotate_upload_ok w t k b :
  fault_free w ->
  Rotate.uploadRotatedPdfToS3 b k (logs t w)
    = (Returned (signer w (GetObjectCommand (JStr k)) 3600),
       logs (t ++ upload_calls k b) (store k (written b) w)).
Proof.
  intros F. unfold Rotate.uploadRotatedPdfToS3.
  step send_put_ok.
  erewrite bind_returned;
    [| apply getSignedUrl_ok; by apply fault_free_store].
  cbv beta. unfold ret, upload_calls. by rewrite <- app_assoc.
Qed.

Lemma rotate_run_ok event body k rotation o b pdf w t :
  parsed_body event = Some body ->
  get_field "fileKey" body = Some (JStr k) ->
  get_field "rotation" body = Some rotation ->
  k <> "" ->
  Rotate.validateRotation rotation = true ->
  fault_free w ->
  bucket w !! k = Some o -> delivered o = Some b ->
  PDF_parse None b = Some pdf ->
  let delta := to_Z (Number rotation) in
  let rotated := Rotate.rotate_pages delta pdf in
  let outputKey := "processed/rotated-" +:+ pretty (clock w) +:+ ".pdf" in
  Rotate.handler event (logs t w)
  = (Returned
       {| statusCode := 200;
          headers := Rotate.corsHeaders;
          body_json :=
            obj [("message", JStr ("PDF rotated " +:+ pretty delta
                                   +:+ " degrees successfully"));
                 ("downloadUrl",
                  JStr (signer w (GetObjectCommand (JStr outputKey)) 3600));
                 ("outputKey", JStr outputKey);
                 ("pageCount", JNum (Int (Z.of_nat (length (pages pdf)))));
                 ("rotation", JNum (Int delta))] |},
     logs (t ++ Send (GetObjectCommand (JStr k)) :: PdfLoad b None
             :: PdfSave rotated None
             :: upload_calls outputKey (PDF_serialize None rotated))
          (store outputKey (written (PDF_serialize None rotated)) w)).
Proof.
  intros Hb Hf Hr Hk Hvalid F Ho Hd Hpdf delta rotated outputKey.
  unfold Rotate.handler, JSON_parse, destructure.
  rewrite Hb, bind_of_option_Some, Hf, bind_of_option_Some,
    Hr, bind_of_option_Some.
  cbn [truthy negb]. rewrite bool_decide_eq_false_2 by done. cbn [negb].
  rewrite Hvalid. cbn [negb]. cbv zeta.
  rewrite (bind_returned _ _ _ _ _ (rotate_download_ok w t k o b F Ho Hd)).
  rewrite (bind_returned _ _ _ _ _ (load_ok w _ b None pdf Hpdf)).
  rewrite (bind_returned _ _ _ _ _ (save_ok w _ _ None)).
  rewrite (bind_returned _ _ _ _ _ (Date_now_ok w _)).
  rewrite (bind_returned _ _ _ _ _ (rotate_upload_ok w _ _ _ F)).
  unfold ret, getPages. f_equal. by rewrite <- !app_assoc.
Qed.
End RotatePages.

(** C3. A rotate request whose rotation is valid (its source downloads and
    decodes, no service call fails) is answered with 200, and the document
    that is serialised and stored has the pages of the source, each with
    the angle it had plus the requested angle.  The sum is stored as it is,
    not reduced into 0..359. *)
Theorem rotate_adds_delta_to_every_page `{!Runtime, !PdfLib}
    (event : LambdaEvent) (body angle : JSValue) (k : string)
    (o : StoredObject) (b : Bytes) (pdf : Document) (w : World) :
  parsed_body event = Some body ->
  get_field "fileKey" body = Some (JStr k) ->
  get_field "rotation" body = Some angle ->
  k <> "" ->
  Rotate.validateRotation angle = true ->
  fault_free w ->
  bucket w !! k = Some o ->
  delivered o = Some b ->
  PDF_parse None b = Some pdf ->
  let delta := to_Z (Number angle) in
  let outputKey := "processed/rotated-" +:+ pretty (clock w) +:+ ".pdf" in
  exists r w' rotated,
    Number angle = Int delta /\
    (delta = 90 \/ delta = -90 \/ delta = 180) /\
    Rotate.handler event w = (Returned r, w') /\
    statusCode r = 200 /\
    trace w' = trace w ++ Send (GetObjectCommand (JStr k)) :: PdfLoad b None
                 :: PdfSave rotated None
                 :: upload_calls outputKey (PDF_serialize None rotated) /\
    bucket w' !! outputKey = Some (written (PDF_serialize None rotated)) /\
    rotation <$> pages rotated = (fun p => rotation p + delta) <$> pages pdf /\
    content <$> pages rotated = content <$> pages pdf.
Proof.
  intros Hb Hf Hr Hk Hvalid F Ho Hd Hpdf delta outputKey.
  pose proof (rotate_run_ok event body k angle o b pdf w []
                Hb Hf Hr Hk Hvalid F Ho Hd Hpdf) as Hrun.
  rewrite logs_nil in Hrun. cbv zeta in Hrun.
  destruct (validateRotation_angle angle Hvalid) as [HN Hdelta].
  eexists _, _, (Rotate.rotate_pages delta pdf).
  split; [exact HN |]. split; [exact Hdelta |].
  split; [exact Hrun |]. split; [reflexivity |].
  split; [reflexivity |].
  split; [simpl; apply lookup_insert_eq |].
  apply rotate_pages_angles.
Qed.

Lemma rotate_adds_delta_to_every_page_witness :
  exists r w' rotated,
    @Rotate.handler Sample.runtime Sample.pdf
       (Sample.request [("fileKey", JStr "uploads/a.pdf"); ("rotation", JStr "180")])
       Sample.world
      = (Returned r, w') /\
    statusCode r = 200 /\
    PdfSave rotated None ∈ trace w' /\
    rotation <$> pages rotated = [180; 450].
Proof.
  destruct (@rotate_adds_delta_to_every_page Sample.runtime Sample.pdf
              (Sample.request [("fileKey", JStr "uploads/a.pdf"); ("rotation", JStr "180")])
              (obj [("fileKey", JStr "uploads/a.pdf"); ("rotation", JStr "180")])
              (JStr "180") "uploads/a.pdf" (Sample.object Sample.a_pdf) Sample.a_pdf
              {| pages := [{| content := [Byte.x41]; rotation := 0 |};
                           {| content := [Byte.x42]; rotation := 270 |}] |}
              Sample.world)
    as (r & w' & rotated & _ & _ & Hrun & Hstatus & Htrace & _ & Hangles & _).
  - reflexivity.
  - reflexivity.
  - reflexivity.
  - discriminate.
  - vm_compute. reflexivity.
  - intros ? ?. reflexivity.
  - reflexivity.
  - reflexivity.
  - reflexivity.
  - exists r, w', rotated. split; [exact Hrun |]. split; [exact Hstatus |].
    split; [| exact Hangles].
    rewrite Htrace. apply list_elem_of_In. simpl. tauto.
Defined.

(** A page at 0 degrees rotated by -90 ends at -90, one at 270 rotated by
    180 at 450. *)
Example rotate_page_not_normalised :
  rotation (Rotate.rotate_page (-90) {| content := []; rotation := 0 |}) = -90 /\
  rotation (Rotate.rotate_page 180 {| content := []; rotation := 270 |}) = 450.
Proof. split; reflexivity. Qed.

Lemma rotate_pages_compose (a b : Z) (pdf : Document) :
  Rotate.rotate_pages b (Rotate.rotate_pages a pdf) = Rotate.rotate_pages (a + b) pdf.
Proof.
  unfold Rotate.rotate_pages, getPages. cbn [pages]. f_equal.
  rewrite <- list_fmap_compose. apply list_fmap_ext. intros _ p _.
  unfold compose, Rotate.rotate_page, setRotation, getRotation. cbn [rotation content].
  f_equal. lia.
Qed.

(** C4. For a and b among 90, -90 and 180, rotating the pages of a document
    by a and then by b leaves every page at the angle one rotation by a + b
    gives it (and the two documents are the same). *)
Theorem rotation_composes_additively (a b : Z) (pdf : Document) :
  Int a ∈ Rotate.validAngles ->
  Int b ∈ Rotate.validAngles ->
  getRotation <$> getPages (Rotate.rotate_pages b (Rotate.rotate_pages a pdf))
    = getRotation <$> getPages (Rotate.rotate_pages (a + b) pdf) /\
  getRotation <$> getPages (Rotate.rotate_pages (a + b) pdf)
    = (fun p => getRotation p + (a + b)) <$> getPages pdf /\
  Rotate.rotate_pages b (Rotate.rotate_pages a pdf) = Rotate.rotate_pages (a + b) pdf.
Proof.
  intros _ _. rewrite rotate_pages_compose. split; [reflexivity |]. split; [| reflexivity].
  unfold Rotate.rotate_pages, getPages. cbn [pages].
  rewrite <- list_fmap_compose. by apply list_fmap_ext.
Qed.

Lemma rotation_composes_additively_witness :
  Int 90 ∈ Rotate.validAngles /\
  Int 180 ∈ Rotate.validAngles /\
  getRotation <$> getPages
    (Rotate.rotate_pages 180
       (Rotate.rotate_pages 90
          {| pages := [{| content := [Byte.x41]; rotation := 0 |};
                       {| content := [Byte.x42]; rotation := 270 |}] |}))
    = [270; 540].
Proof.
  assert (H90 : Int 90 ∈ Rotate.validAngles) by (apply list_elem_of_In; simpl; tauto).
  assert (H180 : Int 180 ∈ Rotate.validAngles) by (apply list_elem_of_In; simpl; tauto).
  split; [exact H90 |]. split; [exact H180 |].
  rewrite (proj1 (rotation_composes_additively 90 180
                    {| pages := [{| content := [Byte.x41]; rotation := 0 |};
                                 {| content := [Byte.x42]; rotation := 270 |}] |}
                    H90 H180)).
  reflexivity.
Defined.

(** ** compress: the reported saving *)

(** From the canonical rationals to the rationals, where [lra] decides. *)
Ltac qc2q :=
  unfold Qcle, Qclt, Qcdiv, Qcminus, Qcplus, Qcopp, Qcmult, Qcinv, Q2Qc, Qc_of_Z in *;
  cbn [this] in *; rewrite ?Qred_correct in *;
  change (inject_Z 0) with 0%Q in *; change (inject_Z 1) with 1%Q in *;
  change (inject_Z 100) with 100%Q in *.

Section Savings.
Context `{!Runtime}.

Lemma js_gt_Int a b : js_gt (Int a) (Int b) = bool_decide (b < a).
Proof. unfold js_gt. apply js_lt_Int. Qed.

Lemma is_zero_Int z : is_zero (Qc_of_Z z) = bool_decide (z = 0).
Proof. unfold is_zero. apply bool_decide_ext, Z2Qc_inj_iff. Qed.

Lemma negative_Int z :
  bool_decide (Qc_of_Z z < Qc_of_Z 0)%Qc = bool_decide (z < 0).
Proof. apply bool_decide_ext. symmetry. apply Z2Qc_inj_lt. Qed.

Lemma reported_round x :
  x <> PosInf ->
  exists n, Compress.reported (Math_round x) = Int n /\ 0 <= n /\
            (js_gt (Math_round x) (Int 0) = false -> n = 0) /\
            (js_gt (Math_round x) (Int 0) = true -> Math_round x = Int n).
Proof.
  intros Hx. unfold Compress.reported.
  destruct x as [| | | q]; [| done | |].
  - exists 0. by cbn.
  - exists 0. by cbn.
  - cbn [Math_round]. rewrite js_gt_Int.
    destruct (bool_decide_reflect (0 < Qfloor (q + (1 # 2))%Q)).
    + eexists. repeat split; [lia | done].
    + exists 0. repeat split; done.
Qed.

Lemma mul_100_PosInf y : js_mul y (Int 100) = PosInf -> y = PosInf.
Proof.
  destruct y; unfold js_mul, Int; done.
Qed.

Lemma sub_1_PosInf y : js_sub (Int 1) y = PosInf -> y = NegInf.
Proof. destruct y; unfold js_sub, Int; done. Qed.

Lemma div_size_NegInf c o :
  js_div (Int (Z.of_N c)) (Compress.size_number o) <> NegInf.
Proof.
  destruct o as [n |]; unfold Compress.size_number, js_div, Int; [| done].
  rewrite !is_zero_Int, negative_Int.
  repeat case_bool_decide; try done. lia.
Qed.

Lemma savedPercent_clamped c o :
  exists n, Compress.reported (Compress.savedPercent c o) = Int n /\ 0 <= n /\
            (js_gt (Compress.savedPercent c o) (Int 0) = false -> n = 0) /\
            (js_gt (Compress.savedPercent c o) (Int 0) = true ->
             Compress.savedPercent c o = Int n).
Proof.
  unfold Compress.savedPercent. apply reported_round.
  intros E%mul_100_PosInf%sub_1_PosInf. by apply div_size_NegInf in E.
Qed.

Lemma savedPercent_no_gain c o :
  (forall q, (Qc_of_Z 1 <= q)%Qc -> (Qc_of_Z 1 <= round64 q)%Qc) ->
  (forall q, (q <= Qc_of_Z 0)%Qc -> (round64 q <= Qc_of_Z 0)%Qc) ->
  (forall n, o = Some n -> (n <= c)%N) ->
  Compress.reported (Compress.savedPercent c o) = Int 0.
Proof.
  intros R1 R0 Hle.
  destruct (savedPercent_clamped c o) as (n & -> & _ & Hn & _).
  f_equal. apply Hn. clear Hn.
  unfold Compress.savedPercent.
  destruct o as [n0 |]; [| done].
  specialize (Hle n0 eq_refl).
  unfold Compress.size_number, js_div, Int.
  rewrite !is_zero_Int, negative_Int.
  repeat case_bool_decide; try done; try lia.
  unfold js_sub, js_mul, Math_round.
  change (Fin (Qc_of_Z 0)) with (Int 0). rewrite js_gt_Int.
  apply bool_decide_eq_false. 
  set (q1 := round64 (Qc_of_Z (Z.of_N c) / Qc_of_Z (Z.of_N n0))).
  set (q2 := round64 (Qc_of_Z 1 - q1)).
  set (q3 := round64 (q2 * Qc_of_Z 100)).
  assert (H1 : (Qc_of_Z 1 <= q1)%Qc).
  { apply R1. qc2q. apply Qle_shift_div_l.
    - change 0%Q with (inject_Z 0). rewrite <- Zlt_Qlt. lia.
    - rewrite Qmult_1_l, <- Zle_Qle. lia. }
  assert (H2 : (q2 <= Qc_of_Z 0)%Qc).
  { apply R0. clearbody q1. qc2q. lra. }
  assert (H3 : (q3 <= Qc_of_Z 0)%Qc).
  { apply R0. clearbody q2. qc2q. lra. }
  clearbody q3. 
  assert (Hlt : (Qfloor (q3 + (1 # 2))%Q < 1)%Z); [| lia].
  rewrite Zlt_Qlt. eapply Qle_lt_trans; [apply Qfloor_le |].
  qc2q. lra.
Qed.

Lemma of_option_inv {A} e (o : option A) w a w1 :
  of_option e o w = (Returned a, w1) -> o = Some a /\ w1 = w.
Proof. destruct o; unfold of_option, ret, throw; intros [= ]; by subst. Qed.

Lemma send_get_inv K w o w1 :
  send_get K w = (Returned o, w1) ->
  bucket w !! key_name w K = Some o /\
  w1 = log (Send (GetObjectCommand K)) w.
Proof.
  unfold send_get. destruct (faults w _ _); [done |].
  destruct (bucket w !! key_name w K) eqn:E; [| done].
  by intros [= <- <-].
Qed.

Lemma streamToBuffer_inv o w b w1 :
  streamToBuffer (Body o) w = (Returned b, w1) ->
  delivered o = Some b /\ w1 = w.
Proof.
  unfold streamToBuffer, delivered. destruct (broken (Body o)); [done |].
  by intros [= <- <-].
Qed.
End Savings.

Section CompressRuns.
Context `{!Runtime, !PdfLib}.

Lemma load_inv b opt w d w1 :
  PDFDocument_load b opt w = (Returned d, w1) ->
  PDF_parse opt b = Some d /\ w1 = log (PdfLoad b opt) w.
Proof.
  unfold PDFDocument_load. destruct (PDF_parse opt b); [| done].
  by intros [= <- <-].
Qed.

Lemma compress_success event w r w' :
  Compress.handler event w = (Returned r, w') ->
  statusCode r = 200 ->
  exists (k : string) (o : StoredObject) (buffer : Bytes) (pdf : Document),
    bucket w !! k = Some o /\
    delivered o = Some buffer /\
    PDF_parse (Some true) buffer = Some pdf /\
    body_field "savedPercent" r
      = Some (JNum (Compress.reported
                      (Compress.savedPercent
                         (N.of_nat (length (PDF_serialize (Some true) pdf)))
                         (ContentLength o)))).
Proof.
  unfold Compress.handler. intros Hrun Hstatus.
  apply bind_inv in Hrun as (body & w1 & [_ ->]%of_option_inv & Hrun).
  apply bind_inv in Hrun as (fileKey & w2 & [_ ->]%of_option_inv & Hrun).
  destruct (negb (truthy fileKey)).
  { injection Hrun as <- <-. discriminate Hstatus. }
  apply bind_inv in Hrun as (download & w3 & Hdl & Hrun).
  apply bind_inv in Hrun as (compressedBytes & w4 & Hc & Hrun).
  cbv zeta in Hrun.
  apply bind_inv in Hrun as (now & w5 & _ & Hrun).
  apply bind_inv in Hrun as (url & w6 & _ & Hrun).
  injection Hrun as <- <-.
  unfold Compress.downloadPdfFromS3 in Hdl.
  apply bind_inv in Hdl as (response & w7 & Hget & Hdl).
  apply bind_inv in Hdl as (buffer & w8 & Hbuf & Hdl).
  injection Hdl as <- <-.
  unfold Compress.compressPdf in Hc.
  apply bind_inv in Hc as (pdf & w9 & Hload & Hc).
  apply bind_inv in Hc as (bytes & w10 & Hsave & Hc).
  injection Hc as <- <-. injection Hsave as <- <-.
  apply send_get_inv in Hget as [Hk ->].
  apply streamToBuffer_inv in Hbuf as [Hbuf ->].
  apply load_inv in Hload as [Hload ->].
  exists (key_name w fileKey), response, buffer, pdf. repeat split; done.
Qed.
End CompressRuns.

(** C5. In every 200 response of compress the [savedPercent] field is an
    integer n >= 0.  It is 0 whenever
    [Math.round((1 - compressedSize / originalSize) * 100)] is not positive
    (a negative number, [NaN] or [-Infinity]) and is that rounded value
    when it is positive.  In particular, with an arithmetic that rounds 0
    and below to 0 and below and 1 and above to 1 and above, it is 0
    whenever the compressed size is at least the original size. *)
Theorem compress_savedPercent_never_negative `{!Runtime, !PdfLib}
    (event : LambdaEvent) (w : World) (r : Response) (w' : World) :
  Compress.handler event w = (Returned r, w') ->
  statusCode r = 200 ->
  exists (k : string) (o : StoredObject) (buffer : Bytes) (pdf : Document) (n : Z),
    bucket w !! k = Some o /\
    delivered o = Some buffer /\
    PDF_parse (Some true) buffer = Some pdf /\
    let compressedSize := N.of_nat (length (PDF_serialize (Some true) pdf)) in
    let originalSize := ContentLength o in
    let rounded := Compress.savedPercent compressedSize originalSize in
    body_field "savedPercent" r = Some (JNum (Int n)) /\
    0 <= n /\
    (js_gt rounded (Int 0) = false -> n = 0) /\
    (js_gt rounded (Int 0) = true -> rounded = Int n) /\
    ((forall q, (Qc_of_Z 1 <= q)%Qc -> (Qc_of_Z 1 <= round64 q)%Qc) ->
     (forall q, (q <= Qc_of_Z 0)%Qc -> (round64 q <= Qc_of_Z 0)%Qc) ->
     (forall m, originalSize = Some m -> (m <= compressedSize)%N) ->
     n = 0).
Proof.
  intros Hrun Hstatus.
  destruct (compress_success event w r w' Hrun Hstatus)
    as (k & o & buffer & pdf & Hk & Hbuf & Hpdf & Hfield).
  destruct (savedPercent_clamped
              (N.of_nat (length (PDF_serialize (Some true) pdf))) (ContentLength o))
    as (n & Hn & Hpos & Hzero & Hround).
  exists k, o, buffer, pdf, n.
  split; [exact Hk |]. split; [exact Hbuf |]. split; [exact Hpdf |].
  cbv zeta. rewrite Hfield, Hn.
  split; [reflexivity |]. split; [exact Hpos |].
  split; [exact Hzero |]. split; [exact Hround |].
  intros R1 R0 Hle. apply Int_inj. rewrite <- Hn.
  by apply savedPercent_no_gain.
Qed.

Lemma compress_savedPercent_never_negative_witness :
  exists r w' n,
    @Compress.handler Sample.runtime Sample.pdf
       (Sample.request [("fileKey", JStr "uploads/d.pdf")]) Sample.world
      = (Returned r, w') /\
    statusCode r = 200 /\
    body_field "savedPercent" r = Some (JNum (Int 33)) /\
    body_field "savedPercent" r = Some (JNum (Int n)) /\
    0 <= n.
Proof.
  pose (run := @Compress.handler Sample.runtime Sample.pdf
                 (Sample.request [("fileKey", JStr "uploads/d.pdf")]) Sample.world).
  pose (r := match fst run with Returned r => r | Thrown _ => Compress.no_file end).
  assert (Hrun : run = (Returned r, snd run)) by (vm_compute; reflexivity).
  assert (Hstatus : statusCode r = 200) by (vm_compute; reflexivity).
  destruct (@compress_savedPercent_never_negative Sample.runtime Sample.pdf
              _ _ _ _ Hrun Hstatus)
    as (k & o & buffer & pdf & n & _ & _ & _ & Hfield & Hn & _).
  exists r, (snd run), n.
  split; [exact Hrun |]. split; [exact Hstatus |].
  split; [vm_compute; reflexivity |].
  split; [exact Hfield | exact Hn].
Defined.

(** ** Validation failures *)

Section SplitValidation.
Context `{!PdfLib}.

(** The page count is known only once the source is fetched and decoded:
    the 400 of a short document comes after these two calls, and after
    them only. *)
Lemma split_short_document event body k o b pdf w :
  parsed_body event = Some body ->
  get_field "fileKey" body = Some (JStr k) ->
  k <> "" ->
  faults w (trace w) (Send (GetObjectCommand (JStr k))) = false ->
  bucket w !! k = Some o ->
  delivered o = Some b ->
  PDF_parse None b = Some pdf ->
  (getPageCount pdf < 2)%nat ->
  Split.handler event w
    = (Returned Split.too_short,
       logs [Send (GetObjectCommand (JStr k)); PdfLoad b None] w).
Proof.
  intros Hb Hf Hk Hfault Ho Hd Hpdf Hlen.
  unfold Split.handler, JSON_parse, destructure.
  rewrite Hb, bind_of_option_Some, Hf, bind_of_option_Some.
  cbn [truthy negb]. rewrite bool_decide_eq_false_2 by done. cbn [negb].
  assert (Hget : Split.downloadPdfFromS3 (JStr k) w
                 = (Returned b, logs [Send (GetObjectCommand (JStr k))] w)).
  { unfold Split.downloadPdfFromS3, bind, send_get. cbn [key_name].
    rewrite Hfault, Ho.
    by rewrite (streamToBuffer_ok o b _ Hd). }
  rewrite (bind_returned _ _ _ _ _ Hget).
  rewrite (bind_returned _ _ _ _ _ (load_ok w _ b None pdf Hpdf)).
  cbv zeta.
  destruct (Nat.ltb_spec (getPageCount pdf) 2) as [_ | ?]; [| lia].
  reflexivity.
Qed.
End SplitValidation.

(** C6, as stated, fails for split: the 400 of a one-page source does not
    come before any storage work.  The source has been fetched from the
    bucket and decoded by then. *)
Lemma split_validation_follows_fetch :
  exists w',
    @Split.handler Sample.pdf
       (Sample.request [("fileKey", JStr "uploads/b.pdf")]) Sample.world
      = (Returned Split.too_short, w') /\
    statusCode Split.too_short = 400 /\
    trace Sample.world = [] /\
    trace w' = [Send (GetObjectCommand (JStr "uploads/b.pdf"));
                PdfLoad Sample.b_pdf None] /\
    ~ (trace w' = trace Sample.world).
Proof.
  eexists. split; [vm_compute; reflexivity |].
  split; [reflexivity |]. split; [reflexivity |].
  split; [reflexivity |]. discriminate.
Qed.

(** C6, amended. A merge request with fewer than 2 [fileKeys] gets a 400
    with an explanatory error before any storage or library call: the world
    is left as it was.  A split request whose source has fewer than 2 pages
    gets a 400 with an explanatory error after the source has been fetched
    and decoded, and before anything else: no object is written, no URL is
    signed and no document is created or serialised. *)
Theorem validation_precedes_writes `{!Runtime, !PdfLib} :
  (forall event body (keys : list JSValue) w,
      parsed_body event = Some body ->
      get_field "fileKeys" body = Some (JArr keys) ->
      (length keys < 2)%nat ->
      Merge.handler event w = (Returned Merge.too_few, w)) /\
  (forall event body k o b pdf w,
      parsed_body event = Some body ->
      get_field "fileKey" body = Some (JStr k) ->
      k <> "" ->
      faults w (trace w) (Send (GetObjectCommand (JStr k))) = false ->
      bucket w !! k = Some o ->
      delivered o = Some b ->
      PDF_parse None b = Some pdf ->
      (getPageCount pdf < 2)%nat ->
      exists w',
        Split.handler event w = (Returned Split.too_short, w') /\
        trace w' = trace w ++ [Send (GetObjectCommand (JStr k)); PdfLoad b None] /\
        bucket w' = bucket w) /\
  statusCode Merge.too_few = 400 /\
  body_field "error" Merge.too_few
    = Some (JStr "Please provide at least 2 PDF files to merge") /\
  statusCode Split.too_short = 400 /\
  body_field "error" Split.too_short
    = Some (JStr "PDF must have at least 2 pages to split").
Proof.
  split; [intros; by eapply merge_few_keys |].
  split; [| repeat split; reflexivity].
  intros event body k o b pdf w Hb Hf Hk Hfault Ho Hd Hpdf Hlen.
  eexists. split; [by eapply split_short_document |].
  split; reflexivity.
Qed.

Lemma validation_precedes_writes_witness :
  @Merge.handler Sample.runtime Sample.pdf
     (Sample.request [("fileKeys", JArr [JStr "uploads/a.pdf"])]) Sample.world
    = (Returned Merge.too_few, Sample.world) /\
  exists w',
    @Split.handler Sample.pdf
       (Sample.request [("fileKey", JStr "uploads/b.pdf")]) Sample.world
      = (Returned Split.too_short, w') /\
    trace w' = trace Sample.world
               ++ [Send (GetObjectCommand (JStr "uploads/b.pdf"));
                   PdfLoad Sample.b_pdf None] /\
    bucket w' = bucket Sample.world.
Proof.
  split.
  - apply (proj1 (@validation_precedes_writes Sample.runtime Sample.pdf)
             (Sample.request [("fileKeys", JArr [JStr "uploads/a.pdf"])])
             (obj [("fileKeys", JArr [JStr "uploads/a.pdf"])])
             [JStr "uploads/a.pdf"] Sample.world);
      [reflexivity | reflexivity | simpl; lia].
  - apply (proj1 (proj2 (@validation_precedes_writes Sample.runtime Sample.pdf))
             (Sample.request [("fileKey", JStr "uploads/b.pdf")])
             (obj [("fileKey", JStr "uploads/b.pdf")])
             "uploads/b.pdf" (Sample.object Sample.b_pdf) Sample.b_pdf
             {| pages := [{| content := [Byte.x43]; rotation := 90 |}] |}
             Sample.world);
      [reflexivity | reflexivity | discriminate | reflexivity | reflexivity
      | reflexivity | reflexivity | unfold getPageCount; cbn [pages length]; lia].
Defined.

Section RotateValidation.
Context `{!Runtime, !PdfLib}.



Lemma bind_assoc {A B C} (m : M A) (f : A -> M B) (g : B -> M C) w :
  bind (bind m f) g w = bind m (fun x => bind (f x) g) w.
Proof. unfold bind. by destruct (m w) as [[a | e] w1]. Qed.

Lemma send_get_logged K w :
  snd (send_get K w) = log (Send (GetObjectCommand K)) w.
Proof.
  unfold send_get. destruct (faults w _ _); [done |].
  by destruct (bucket w !! key_name w K).
Qed.



End RotateValidation.



(** * Further properties of the handlers *)

(** ** What a run may touch *)

Lemma confined_ret {A} own (a : A) w : confined own (ret a) w.
Proof. exists []. simpl. rewrite app_nil_r. by repeat split. Qed.

Lemma confined_throw {A} own e w : confined own (@throw A e) w.
Proof. exists []. simpl. rewrite app_nil_r. by repeat split. Qed.

Lemma confined_of_option {A} own e (o : option A) w : confined own (of_option e o) w.
Proof. destruct o; [apply confined_ret | apply confined_throw]. Qed.

(** The continuation runs in a world whose clock reads what it read. *)
Lemma confined_bind {A B} own (m : M A) (k : A -> M B) w :
  confined own m w ->
  (forall a w1, m w = (Returned a, w1) -> clock w1 = clock w ->
                confined own (k a) w1) ->
  confined own (bind m k) w.
Proof.
  intros (t1 & Ht1 & Ha1 & Hc1 & Hf1 & Hs1 & Hb1 & Hd1) Hk.
  unfold confined, bind.
  destruct (m w) as [[a | e] w1]; simpl in *.
  - destruct (Hk a w1 eq_refl Hc1) as (t2 & Ht2 & Ha2 & Hc2 & Hf2 & Hs2 & Hb2 & Hd2).
    exists (t1 ++ t2). rewrite Ht2, Ht1, Hc2, Hc1, Hf2, Hf1, Hs2, Hs1, app_assoc.
    split; [done |]. split; [by apply Forall_app |]. do 3 (split; [done |]).
    split.
    + intros key Hkey. by rewrite Hb2, Hb1.
    + intros key Hkey. by apply Hd2, Hd1.
  - by exists t1.
Qed.

Lemma confined_for_each {A S} own (body : S -> A -> M S) xs :
  (forall s x w, confined own (body s x) w) ->
  forall s w, confined own (for_each body xs s) w.
Proof.
  intros Hbody. induction xs as [| x xs IH]; intros s w; simpl.
  - apply confined_ret.
  - apply confined_bind; [apply Hbody | intros; apply IH].
Qed.

(** A call that changes nothing but the trace. *)
Lemma confined_logged {A} own (m : M A) c w :
  allowed own c -> snd (m w) = log c w -> confined own m w.
Proof.
  intros Hc Hm. exists [c]. rewrite Hm. simpl.
  split; [done |]. split; [by constructor | done].
Qed.

Lemma confined_send_get own K w : confined own (send_get K) w.
Proof. eapply confined_logged; [| apply send_get_logged]. done. Qed.

Lemma confined_streamToBuffer own s w : confined own (streamToBuffer s) w.
Proof.
  unfold streamToBuffer. destruct (broken s);
    [apply confined_throw | apply confined_ret].
Qed.

Lemma confined_Date_now own w : confined own Date_now w.
Proof. exists []. simpl. rewrite app_nil_r. by repeat split. Qed.

Lemma confined_copyPages own src indices w : confined own (copyPages src indices) w.
Proof. apply confined_of_option. Qed.

Lemma confined_load `{!PdfLib} own b opt w : confined own (PDFDocument_load b opt) w.
Proof.
  apply (confined_logged _ _ (PdfLoad b opt)); [done |].
  unfold PDFDocument_load. by destruct (PDF_parse opt b).
Qed.

Lemma confined_create `{!PdfLib} own w : confined own PDFDocument_create w.
Proof. by apply (confined_logged _ _ PdfCreate). Qed.

Lemma confined_save `{!PdfLib} own d opt w : confined own (save d opt) w.
Proof. by apply (confined_logged _ _ (PdfSave d opt)). Qed.

Lemma confined_send_put (own : string -> Prop) k b w :
  own k -> confined own (send_put k b "application/pdf") w.
Proof.
  intros Hk. exists [Send (PutObjectCommand k b "application/pdf")].
  unfold send_put. destruct (faults w _ _); simpl.
  - split; [done |]. split; [by constructor | done].
  - split; [done |]. split; [by constructor |]. do 3 (split; [done |]).
    split.
    + intros k' Hk'. apply lookup_insert_ne. congruence.
    + intros k' Hk'. destruct (decide (k = k')) as [-> | Hne].
      * rewrite lookup_insert_eq. eauto.
      * by rewrite lookup_insert_ne.
Qed.

Lemma confined_getSignedUrl (own : string -> Prop) k w :
  own k -> confined own (getSignedUrl (GetObjectCommand (JStr k)) 3600) w.
Proof.
  intros Hk.
  apply (confined_logged _ _ (Presign (GetObjectCommand (JStr k)) 3600)); [done |].
  unfold getSignedUrl. by destruct (faults w _ _).
Qed.

(** [Date.now()] returns the reading of the clock. *)
Lemma Date_now_inv w a w1 : Date_now w = (Returned a, w1) -> a = clock w /\ w1 = w.
Proof. by intros [= <- <-]. Qed.

(** Walks through a handler: every awaited step is confined, and the key of
    the upload is one the run owns. *)
Ltac confine own_it :=
  repeat first
    [ apply confined_ret
    | apply confined_throw
    | apply confined_of_option
    | apply confined_send_get
    | apply confined_streamToBuffer
    | apply confined_Date_now
    | apply confined_copyPages
    | apply confined_load
    | apply confined_create
    | apply confined_save
    | apply confined_send_put; solve [own_it]
    | apply confined_getSignedUrl; solve [own_it]
    | apply confined_for_each; intros ? ? ?
    | apply confined_bind;
      [| let a := fresh "a" in
         let w1 := fresh "w" in
         let Hrun := fresh "Hrun" in
         let Hclock := fresh "Hclock" in
         intros a w1 Hrun Hclock;
         try (apply Date_now_inv in Hrun as [-> ->]) ]
    | match goal with
      | |- confined _ (if ?c then _ else _) _ => destruct c
      end
    | progress cbv beta zeta ].

Section Confinement.
Context `{!Runtime, !PdfLib}.

Lemma confined_merge_one own acc K w : confined own (Merge.merge_one acc K) w.
Proof.
  unfold Merge.merge_one, Merge.downloadPdfFromS3. confine fail.
Qed.

Lemma confined_handler op event w0 : forall w,
  clock w = clock w0 ->
  confined (own_key op (clock w0)) (handler_of op event) w.
Proof.
  destruct op; intros w Hc; cbn [handler_of].
  - unfold Merge.handler, JSON_parse, destructure, Merge.uploadPdfToS3.
    confine ltac:(simpl; congruence).
  - unfold Split.handler, JSON_parse, destructure, Split.downloadPdfFromS3.
    confine ltac:(idtac; match goal with
                  | |- own_key splitting _ (Split.page_key _ ?n) =>
                      exists n; split; [lia | f_equal; congruence]
                  end).
  - unfold Compress.handler, JSON_parse, destructure, Compress.compressPdf,
      Compress.downloadPdfFromS3, Compress.uploadCompressedPdfToS3.
    confine ltac:(simpl; congruence).
  - unfold Rotate.handler, JSON_parse, destructure, Rotate.downloadPdfFromS3,
      Rotate.uploadRotatedPdfToS3.
    confine ltac:(simpl; congruence).
Qed.
End Confinement.

Lemma own_key_output op ts k : own_key op ts k -> output_key k = true.
Proof. destruct op; simpl; [intros -> | intros (n & _ & ->) | intros -> ..]; reflexivity. Qed.
(** X1. No run of any handler, whatever the request and whatever the
    service refuses, changes an object other than those under the keys of
    its operation for the reading of the clock ([processed/merged-<now>.pdf]
    and the like).  So every object outside [processed/], the uploaded
    sources among them, is left as it was; no object is removed; and the
    clock, the fault oracle and the signer are untouched. *)
Theorem handlers_write_own_keys_only `{!Runtime, !PdfLib}
    (op : Operation) (event : LambdaEvent) (w : World) :
  let w' := snd (handler_of op event w) in
  (forall k, ~ own_key op (clock w) k -> bucket w' !! k = bucket w !! k) /\
  (forall k, output_key k = false -> bucket w' !! k = bucket w !! k) /\
  (forall k, is_Some (bucket w !! k) -> is_Some (bucket w' !! k)) /\
  clock w' = clock w /\ faults w' = faults w /\ signer w' = signer w.
Proof.
  destruct (confined_handler op event w w eq_refl)
    as (t & _ & _ & Hc & Hf & Hs & Hb & Hd).
  cbv zeta. split; [exact Hb |]. split; [| done].
  intros k Hk. apply Hb. intros Hown%own_key_output. congruence.
Qed.

Lemma handlers_write_own_keys_only_witness :
  output_key "uploads/a.pdf" = false /\
  bucket (snd (@handler_of Sample.runtime Sample.pdf merging
                 (Sample.request [("fileKeys", JArr [JStr "uploads/a.pdf"; JStr "uploads/b.pdf"])])
                 Sample.world)) !! "uploads/a.pdf"
    = Some (Sample.object Sample.a_pdf).
Proof.
  split; [reflexivity |].
  rewrite (proj1 (proj2 (@handlers_write_own_keys_only Sample.runtime Sample.pdf
                           merging
                           (Sample.request [("fileKeys", JArr [JStr "uploads/a.pdf"; JStr "uploads/b.pdf"])])
                           Sample.world)) "uploads/a.pdf" eq_refl).
  reflexivity.
Defined.

(** X2. Every call a handler makes is an allowed one: a fetch, a library
    call, a PutObject of content type [application/pdf] under a key of its
    operation for the reading of the clock, or the signing of a GetObject of
    such a key for 3600 seconds. *)
Theorem handlers_make_allowed_calls_only `{!Runtime, !PdfLib}
    (op : Operation) (event : LambdaEvent) (w : World) :
  exists t,
    trace (snd (handler_of op event w)) = trace w ++ t /\
    Forall (allowed (own_key op (clock w))) t.
Proof.
  destruct (confined_handler op event w w eq_refl) as (t & Ht & Ha & _).
  by exists t.
Qed.

(** ** Requests that are refused or malformed *)

Lemma get_field_total name name' body v :
  get_field name body = Some v -> exists v', get_field name' body = Some v'.
Proof. destruct body; simpl; intros [= ]; eauto. Qed.

Section Refusals.
Context `{!Runtime, !PdfLib}.

Lemma split_no_file event body fileKey w :
  parsed_body event = Some body ->
  get_field "fileKey" body = Some fileKey ->
  truthy fileKey = false ->
  Split.handler event w = (Returned Split.no_file, w).
Proof.
  intros Hb Hf Hfalsy. unfold Split.handler, JSON_parse, destructure.
  by rewrite Hb, bind_of_option_Some, Hf, bind_of_option_Some, Hfalsy.
Qed.

Lemma compress_no_file event body fileKey w :
  parsed_body event = Some body ->
  get_field "fileKey" body = Some fileKey ->
  truthy fileKey = false ->
  Compress.handler event w = (Returned Compress.no_file, w).
Proof.
  intros Hb Hf Hfalsy. unfold Compress.handler, JSON_parse, destructure.
  by rewrite Hb, bind_of_option_Some, Hf, bind_of_option_Some, Hfalsy.
Qed.

Lemma rotate_no_file event body fileKey w :
  parsed_body event = Some body ->
  get_field "fileKey" body = Some fileKey ->
  truthy fileKey = false ->
  Rotate.handler event w = (Returned Rotate.no_file, w).
Proof.
  intros Hb Hf Hfalsy.
  destruct (get_field_total "fileKey" "rotation" body fileKey Hf) as [angle Hr].
  unfold Rotate.handler, JSON_parse, destructure.
  by rewrite Hb, bind_of_option_Some, Hf, bind_of_option_Some,
    Hr, bind_of_option_Some, Hfalsy.
Qed.

Lemma handler_unparsed op event w :
  parsed_body event = None -> handler_of op event w = (Thrown SyntaxError, w).
Proof.
  intros Hb.
  destruct op; cbn [handler_of];
    unfold Merge.handler, Split.handler, Compress.handler, Rotate.handler,
      JSON_parse;
    by rewrite Hb.
Qed.

Lemma handler_null op event body w :
  parsed_body event = Some body ->
  body = JNull \/ body = JUndefined ->
  handler_of op event w = (Thrown TypeError, w).
Proof.
  intros Hb Hnull.
  destruct op; cbn [handler_of];
    unfold Merge.handler, Split.handler, Compress.handler, Rotate.handler,
      JSON_parse, destructure;
    rewrite Hb, bind_of_option_Some; by destruct Hnull as [-> | ->].
Qed.

End Refusals.

(** X3. A split, compress or rotate request whose [fileKey] is missing or
    falsy (undefined, null, the empty string, 0, false) gets the 400 response
    of its handler, with the handler's own message, and the world is left as
    it was.  For rotate this holds whatever the rotation is: the file key is
    checked first. *)
Theorem missing_fileKey_is_refused `{!Runtime, !PdfLib}
    (event : LambdaEvent) (body fileKey : JSValue) (w : World) :
  parsed_body event = Some body ->
  get_field "fileKey" body = Some fileKey ->
  truthy fileKey = false ->
  Split.handler event w = (Returned Split.no_file, w) /\
  Compress.handler event w = (Returned Compress.no_file, w) /\
  Rotate.handler event w = (Returned Rotate.no_file, w) /\
  statusCode Split.no_file = 400 /\
  statusCode Compress.no_file = 400 /\
  statusCode Rotate.no_file = 400 /\
  body_field "error" Split.no_file = Some (JStr "Please provide a PDF file to split") /\
  body_field "error" Compress.no_file
    = Some (JStr "Please provide a PDF file to compress") /\
  body_field "error" Rotate.no_file = Some (JStr "Please provide a PDF file to rotate").
Proof.
  intros Hb Hf Hfalsy.
  split; [by eapply split_no_file |].
  split; [by eapply compress_no_file |].
  split; [by eapply rotate_no_file |].
  repeat split; reflexivity.
Qed.

Lemma missing_fileKey_is_refused_witness :
  truthy (JStr "") = false /\
  @Rotate.handler Sample.runtime Sample.pdf
     (Sample.request [("fileKey", JStr ""); ("rotation", JNum (Int 90))]) Sample.world
    = (Returned Rotate.no_file, Sample.world).
Proof.
  split; [reflexivity |].
  apply (@missing_fileKey_is_refused Sample.runtime Sample.pdf
           (Sample.request [("fileKey", JStr ""); ("rotation", JNum (Int 90))])
           (obj [("fileKey", JStr ""); ("rotation", JNum (Int 90))])
           (JStr "") Sample.world);
    reflexivity.
Defined.

(** X4. A request whose body does not parse makes every handler throw a
    SyntaxError, and one whose body is the JSON [null] a TypeError (the
    destructuring of [null]): no response is built and no call is made. *)
Theorem body_without_fields_throws `{!Runtime, !PdfLib}
    (op : Operation) (event : LambdaEvent) (w : World) :
  (parsed_body event = None ->
   handler_of op event w = (Thrown SyntaxError, w)) /\
  (parsed_body event = Some JNull ->
   handler_of op event w = (Thrown TypeError, w)).
Proof.
  split; intros Hb.
  - by apply handler_unparsed.
  - eapply handler_null; eauto.
Qed.

Lemma body_without_fields_throws_witness :
  @handler_of Sample.runtime Sample.pdf compressing
     {| parsed_body := Some JNull |} Sample.world
    = (Thrown TypeError, Sample.world).
Proof.
  apply (proj2 (@body_without_fields_throws Sample.runtime Sample.pdf
                  compressing {| parsed_body := Some JNull |} Sample.world)).
  reflexivity.
Defined.



(** ** Reading a run backwards *)

Lemma logs_logs t1 t2 w : logs t2 (logs t1 w) = logs (t1 ++ t2) w.
Proof. unfold logs; simpl. by rewrite <- app_assoc. Qed.

Lemma log_is_logs c w : log c w = logs [c] w.
Proof. reflexivity. Qed.

Lemma store_logs k o t w : store k o (logs t w) = logs t (store k o w).
Proof. reflexivity. Qed.

(** Two descriptions of one world: the same writes, the same calls. *)
Ltac same_world :=
  repeat (rewrite logs_logs || rewrite store_logs || rewrite log_is_logs);
  try reflexivity;
  f_equal; simpl; rewrite <- ?app_assoc; reflexivity.

Section Inversion.
Context `{!PdfLib}.

Lemma create_inv w d w1 :
  PDFDocument_create w = (Returned d, w1) ->
  d = {| pages := [] |} /\ w1 = logs [PdfCreate] w.
Proof. by intros [= <- <-]. Qed.

Lemma save_inv d opt w b w1 :
  save d opt w = (Returned b, w1) ->
  b = PDF_serialize opt d /\ w1 = logs [PdfSave d opt] w.
Proof. by intros [= <- <-]. Qed.

Lemma send_put_inv k b w u w1 :
  send_put k b "application/pdf" w = (Returned u, w1) ->
  faults w (trace w) (Send (PutObjectCommand k b "application/pdf")) = false /\
  w1 = logs [Send (PutObjectCommand k b "application/pdf")] (store k (written b) w).
Proof.
  unfold send_put. destruct (faults w _ _); [done |]. by intros [= <- <-].
Qed.

Lemma getSignedUrl_inv c e w u w1 :
  getSignedUrl c e w = (Returned u, w1) ->
  faults w (trace w) (Presign c e) = false /\
  u = signer w c e /\ w1 = logs [Presign c e] w.
Proof.
  unfold getSignedUrl. destruct (faults w _ _); [done |]. by intros [= <- <-].
Qed.

Lemma copyPages_one_inv pdf i w l w1 :
  copyPages pdf [i] w = (Returned l, w1) ->
  exists p, pages pdf !! i = Some p /\ l = [p] /\ w1 = w.
Proof.
  unfold copyPages. cbn [mapM]. destruct (pages pdf !! i) as [p |]; [| done].
  intros [= <- <-]. eauto.
Qed.

(** The download of every handler but compress. *)
Lemma download_inv K w b w1 :
  (let* response := send_get K in streamToBuffer (Body response)) w
    = (Returned b, w1) ->
  exists o, bucket w !! key_name w K = Some o /\ delivered o = Some b /\
            w1 = logs [Send (GetObjectCommand K)] w.
Proof.
  intros Hrun.
  apply bind_inv in Hrun as (o & w2 & [Hk ->]%send_get_inv & Hrun).
  apply streamToBuffer_inv in Hrun as [Hb ->]. by exists o.
Qed.

(** The upload of merge, compress and rotate. *)
Lemma upload_inv b k w u w1 :
  (let* _ := send_put k b "application/pdf" in
   let* signedUrl := getSignedUrl (GetObjectCommand (JStr k)) 3600 in
   ret signedUrl) w = (Returned u, w1) ->
  u = signer w (GetObjectCommand (JStr k)) 3600 /\
  w1 = logs (upload_calls k b) (store k (written b) w).
Proof.
  intros Hrun.
  apply bind_inv in Hrun as (? & w2 & [_ ->]%send_put_inv & Hrun).
  apply bind_inv in Hrun as (url & w3 & (_ & -> & ->)%getSignedUrl_inv & Hrun).
  injection Hrun as <- <-. split; [reflexivity |].
  by rewrite logs_logs.
Qed.

Lemma split_upload_inv b n ts w r w1 :
  Split.uploadPageToS3 b n ts w = (Returned r, w1) ->
  r = {| Split.pageNumber := n;
         Split.downloadUrl := signer w (GetObjectCommand (JStr (Split.page_key ts n))) 3600;
         Split.outputKey := Split.page_key ts n |} /\
  w1 = logs (upload_calls (Split.page_key ts n) b)
            (store (Split.page_key ts n) (written b) w).
Proof.
  unfold Split.uploadPageToS3. intros Hrun.
  apply bind_inv in Hrun as (? & w2 & [_ ->]%send_put_inv & Hrun).
  apply bind_inv in Hrun as (url & w3 & (_ & -> & ->)%getSignedUrl_inv & Hrun).
  injection Hrun as <- <-. split; [reflexivity |].
  by rewrite logs_logs.
Qed.
End Inversion.

(** What passes the guard of merge and can be iterated. *)
Lemma merge_guard_passed `{!Runtime} fileKeys items :
  truthy fileKeys = true ->
  js_lt (Number (length_of fileKeys)) (Int 2) = false ->
  iterate fileKeys = Some items ->
  fileKeys = JArr items /\ (2 <= length items)%nat \/
  exists text, fileKeys = JStr text /\ items = JStr <$> code_points text /\
               (2 <= utf16_length text)%nat.
Proof.
  destruct fileKeys; try done; intros _ Hlen [= <-];
    cbn [length_of Number] in Hlen; rewrite js_lt_Int in Hlen;
    apply bool_decide_eq_false in Hlen.
  - right. eexists. split; [reflexivity |]. split; [reflexivity | lia].
  - left. split; [reflexivity | lia].
Qed.

Section MergeBackwards.
Context `{!Runtime, !PdfLib}.

Lemma merge_one_inv acc K w d w1 :
  Merge.merge_one acc K w = (Returned d, w1) ->
  exists s, fetched_as w None K s /\
            d = {| pages := pages acc ++ pages (src_doc s) |} /\
            w1 = logs (fetch_as None K s) w.
Proof.
  unfold Merge.merge_one, Merge.downloadPdfFromS3. intros Hrun.
  apply bind_inv in Hrun as (b & w2 & Hdl & Hrun).
  apply bind_inv in Hdl as (o & w3 & [Hk ->]%send_get_inv & Hdl).
  apply bind_inv in Hdl as (b' & w4 & [Hb ->]%streamToBuffer_inv & Hdl).
  injection Hdl as <- <-.
  apply bind_inv in Hrun as (pdf & w5 & [Hpdf ->]%load_inv & Hrun).
  cbv zeta in Hrun. rewrite (bind_returned _ _ _ _ _ (copyPages_all _ _)) in Hrun.
  injection Hrun as <- <-.
  exists {| src_key := key_name w K; src_bytes := b'; src_doc := pdf |}.
  split; [split; [reflexivity | by exists o] |].
  split; [apply foldl_addPage |].
  by rewrite !log_is_logs, logs_logs.
Qed.

Lemma merge_loop_inv items : forall acc w d w1,
  for_each Merge.merge_one items acc w = (Returned d, w1) ->
  exists srcs, Forall2 (fetched_as w None) items srcs /\
               d = {| pages := pages acc ++ concat (pages ∘ src_doc <$> srcs) |} /\
               w1 = logs (concat (zip_with (fetch_as None) items srcs)) w.
Proof.
  induction items as [| K items IH]; intros acc w d w1 Hrun.
  - injection Hrun as <- <-. exists []. split; [constructor |]. simpl.
    rewrite app_nil_r, logs_nil. by destruct acc.
  - cbn [for_each] in Hrun.
    apply bind_inv in Hrun as (d1 & w2 & (s & Hs & -> & ->)%merge_one_inv & Hrun).
    apply IH in Hrun as (srcs & Hall & -> & ->).
    exists (s :: srcs). split; [constructor; [exact Hs | exact Hall] |].
    simpl. by rewrite <- app_assoc, logs_logs.
Qed.

Lemma merge_success event w r w' :
  Merge.handler event w = (Returned r, w') ->
  statusCode r = 200 ->
  exists body fileKeys items srcs,
    parsed_body event = Some body /\
    get_field "fileKeys" body = Some fileKeys /\
    truthy fileKeys = true /\
    js_lt (Number (length_of fileKeys)) (Int 2) = false /\
    iterate fileKeys = Some items /\
    Forall2 (fetched_as w None) items srcs /\
    let merged := {| pages := concat (pages ∘ src_doc <$> srcs) |} in
    let outputKey := "processed/merged-" +:+ pretty (clock w) +:+ ".pdf" in
    let mergedBytes := PDF_serialize None merged in
    w' = logs (PdfCreate :: concat (zip_with (fetch_as None) items srcs)
                 ++ PdfSave merged None :: upload_calls outputKey mergedBytes)
              (store outputKey (written mergedBytes) w) /\
    body_field "outputKey" r = Some (JStr outputKey) /\
    body_field "downloadUrl" r
      = Some (JStr (signer w (GetObjectCommand (JStr outputKey)) 3600)).
Proof.
  unfold Merge.handler, JSON_parse, destructure. intros Hrun Hstatus.
  apply bind_inv in Hrun as (body & w1 & [Hb ->]%of_option_inv & Hrun).
  apply bind_inv in Hrun as (fileKeys & w2 & [Hf ->]%of_option_inv & Hrun).
  destruct (negb (truthy fileKeys) || js_lt (Number (length_of fileKeys)) (Int 2))
    eqn:Hguard.
  { injection Hrun as <- <-. discriminate Hstatus. }
  apply bind_inv in Hrun as (d0 & w3 & [-> ->]%create_inv & Hrun).
  apply bind_inv in Hrun as (items & w4 & [Hiter ->]%of_option_inv & Hrun).
  apply bind_inv in Hrun as (d & w5 & (srcs & Hall & -> & ->)%merge_loop_inv & Hrun).
  apply bind_inv in Hrun as (bytes & w6 & [-> ->]%save_inv & Hrun).
  apply bind_inv in Hrun as (now & w7 & [-> ->]%Date_now_inv & Hrun).
  apply bind_inv in Hrun as (url & w8 & [-> ->]%upload_inv & Hrun).
  injection Hrun as <- <-.
  apply orb_false_iff in Hguard as [Htruthy%negb_false_iff Hlen].
  exists body, fileKeys, items, srcs.
  split; [exact Hb |]. split; [exact Hf |]. split; [exact Htruthy |].
  split; [exact Hlen |]. split; [exact Hiter |].
  split; [exact Hall |].
  cbv zeta. split; [| split; reflexivity].
  cbn [pages app]. same_world.
Qed.
End MergeBackwards.

Lemma clock_put_all outs w : clock (put_all outs w) = clock w.
Proof.
  revert w. induction outs as [| kb outs IH]; intros w; [done |].
  unfold put_all in *. simpl. by rewrite IH.
Qed.

Section RunsBackwards.
Context `{!Runtime, !PdfLib}.

Lemma rotate_success event w r w' :
  Rotate.handler event w = (Returned r, w') ->
  statusCode r = 200 ->
  exists body fileKey s angle,
    parsed_body event = Some body /\
    get_field "fileKey" body = Some fileKey /\
    get_field "rotation" body = Some angle /\
    Rotate.validateRotation angle = true /\
    fetched_as w None fileKey s /\
    let delta := to_Z (Number angle) in
    let rotated := Rotate.rotate_pages delta (src_doc s) in
    let outputKey := "processed/rotated-" +:+ pretty (clock w) +:+ ".pdf" in
    let bytes := PDF_serialize None rotated in
    w' = logs (fetch_as None fileKey s
                 ++ PdfSave rotated None :: upload_calls outputKey bytes)
              (store outputKey (written bytes) w) /\
    body_field "outputKey" r = Some (JStr outputKey) /\
    body_field "downloadUrl" r
      = Some (JStr (signer w (GetObjectCommand (JStr outputKey)) 3600)) /\
    body_field "pageCount" r = Some (JNum (Int (Z.of_nat (getPageCount (src_doc s))))) /\
    body_field "rotation" r = Some (JNum (Int delta)).
Proof.
  unfold Rotate.handler, JSON_parse, destructure. intros Hrun Hstatus.
  apply bind_inv in Hrun as (body & w1 & [Hb ->]%of_option_inv & Hrun).
  apply bind_inv in Hrun as (fileKey & w2 & [Hf ->]%of_option_inv & Hrun).
  apply bind_inv in Hrun as (angle & w3 & [Hr ->]%of_option_inv & Hrun).
  destruct (negb (truthy fileKey)).
  { injection Hrun as <- <-. discriminate Hstatus. }
  destruct (Rotate.validateRotation angle) eqn:Hvalid; cbn [negb] in Hrun.
  2: { injection Hrun as <- <-. discriminate Hstatus. }
  cbv zeta in Hrun.
  apply bind_inv in Hrun
    as (b & w4 & (o & Hk & Hd & ->)%download_inv & Hrun).
  apply bind_inv in Hrun as (pdf & w5 & [Hpdf ->]%load_inv & Hrun).
  apply bind_inv in Hrun as (bytes & w6 & [-> ->]%save_inv & Hrun).
  apply bind_inv in Hrun as (now & w7 & [-> ->]%Date_now_inv & Hrun).
  apply bind_inv in Hrun as (url & w8 & [-> ->]%upload_inv & Hrun).
  injection Hrun as <- <-.
  exists body, fileKey,
    {| src_key := key_name w fileKey; src_bytes := b; src_doc := pdf |}, angle.
  split; [exact Hb |]. split; [exact Hf |]. split; [exact Hr |].
  split; [exact Hvalid |]. split; [split; [reflexivity | by exists o] |].
  cbv zeta. split; [| repeat split; reflexivity].
  cbn [src_doc fetch_as src_key src_bytes]. same_world.
Qed.

Lemma compress_returned event w r w' :
  Compress.handler event w = (Returned r, w') ->
  statusCode r = 200 ->
  exists body fileKey s o,
    parsed_body event = Some body /\
    get_field "fileKey" body = Some fileKey /\
    key_name w fileKey = src_key s /\
    bucket w !! src_key s = Some o /\
    delivered o = Some (src_bytes s) /\
    PDF_parse (Some true) (src_bytes s) = Some (src_doc s) /\
    let bytes := PDF_serialize (Some true) (src_doc s) in
    let compressedSize := N.of_nat (length bytes) in
    let outputKey := "processed/compressed-" +:+ pretty (clock w) +:+ ".pdf" in
    w' = logs (fetch_as (Some true) fileKey s
                 ++ PdfSave (src_doc s) (Some true) :: upload_calls outputKey bytes)
              (store outputKey (written bytes) w) /\
    body_field "outputKey" r = Some (JStr outputKey) /\
    body_field "downloadUrl" r
      = Some (JStr (signer w (GetObjectCommand (JStr outputKey)) 3600)) /\
    body_field "originalSize" r = Some (JStr (Compress.formatBytes (ContentLength o))) /\
    body_field "compressedSize" r
      = Some (JStr (Compress.formatBytes (Some compressedSize))) /\
    body_field "savedPercent" r
      = Some (JNum (Compress.reported
                      (Compress.savedPercent compressedSize (ContentLength o)))).
Proof.
  unfold Compress.handler, JSON_parse, destructure. intros Hrun Hstatus.
  apply bind_inv in Hrun as (body & w1 & [Hb ->]%of_option_inv & Hrun).
  apply bind_inv in Hrun as (fileKey & w2 & [Hf ->]%of_option_inv & Hrun).
  destruct (negb (truthy fileKey)).
  { injection Hrun as <- <-. discriminate Hstatus. }
  apply bind_inv in Hrun as (download & w3 & Hdl & Hrun).
  unfold Compress.downloadPdfFromS3 in Hdl.
  apply bind_inv in Hdl as (o & w4 & [Hk ->]%send_get_inv & Hdl).
  apply bind_inv in Hdl as (b & w5 & [Hd ->]%streamToBuffer_inv & Hdl).
  injection Hdl as <- <-.
  apply bind_inv in Hrun as (bytes & w6 & Hc & Hrun).
  unfold Compress.compressPdf in Hc.
  apply bind_inv in Hc as (pdf & w7 & [Hpdf ->]%load_inv & Hc).
  apply bind_inv in Hc as (bytes' & w8 & [-> ->]%save_inv & Hc).
  injection Hc as <- <-.
  cbv zeta in Hrun.
  apply bind_inv in Hrun as (now & w9 & [-> ->]%Date_now_inv & Hrun).
  apply bind_inv in Hrun as (url & w10 & [-> ->]%upload_inv & Hrun).
  injection Hrun as <- <-.
  exists body, fileKey,
    {| src_key := key_name w fileKey; src_bytes := b; src_doc := pdf |}, o.
  split; [exact Hb |]. split; [exact Hf |]. split; [reflexivity |].
  split; [exact Hk |]. split; [exact Hd |]. split; [exact Hpdf |].
  cbv zeta. split; [| repeat split; reflexivity].
  cbn [src_doc fetch_as src_key src_bytes Compress.buffer]. same_world.
Qed.

Lemma split_one_inv pdf ts acc i t w res w1 :
  Split.split_one pdf ts acc i (logs t w) = (Returned res, w1) ->
  exists p, pages pdf !! i = Some p /\
            res = acc ++ [split_result w ts (i, p)] /\
            w1 = logs (t ++ split_calls ts (i, p))
                      (put_all [split_output ts (i, p)] w).
Proof.
  unfold Split.split_one. intros Hrun.
  apply bind_inv in Hrun as (d0 & w2 & [-> ->]%create_inv & Hrun).
  apply bind_inv in Hrun as (l & w3 & (p & Hp & -> & ->)%copyPages_one_inv & Hrun).
  cbn [head] in Hrun. rewrite bind_of_option_Some in Hrun.
  apply bind_inv in Hrun as (bytes & w4 & [-> ->]%save_inv & Hrun).
  apply bind_inv in Hrun as (res1 & w5 & [-> ->]%split_upload_inv & Hrun).
  injection Hrun as <- <-.
  exists p. split; [exact Hp |]. split; [reflexivity |].
  unfold split_calls, split_output, split_key, put_all. cbn [foldl fst snd].
  change (addPage {| pages := [] |} p) with (single p). same_world.
Qed.

Lemma split_loop_inv pdf ts ps : forall pre acc t w res w1,
  pages pdf = pre ++ ps ->
  for_each (Split.split_one pdf ts) (seq (length pre) (length ps)) acc (logs t w)
    = (Returned res, w1) ->
  res = acc ++ (split_result w ts <$> indexed (length pre) ps) /\
  w1 = logs (t ++ (indexed (length pre) ps ≫= split_calls ts))
            (put_all (split_output ts <$> indexed (length pre) ps) w).
Proof.
  induction ps as [| p ps IH]; intros pre acc t w res w1 Hpages Hrun.
  - injection Hrun as <- <-. simpl. by rewrite !app_nil_r.
  - cbn [length seq for_each] in Hrun.
    apply bind_inv in Hrun as (res1 & w2 & (p' & Hp & -> & ->)%split_one_inv & Hrun).
    assert (p' = p) as ->.
    { rewrite Hpages, list_lookup_middle in Hp by done. congruence. }
    specialize (IH (pre ++ [p]) (acc ++ [split_result w ts (length pre, p)])
                   (t ++ split_calls ts (length pre, p))
                   (put_all [split_output ts (length pre, p)] w) res w1).
    rewrite length_app, Nat.add_1_r in IH.
    destruct IH as [-> ->]; [by rewrite <- app_assoc | exact Hrun |].
    cbn [indexed fmap list_fmap mbind list_bind]. split.
    + by rewrite <- app_assoc.
    + by rewrite <- app_assoc.
Qed.

Lemma split_success event w r w' :
  Split.handler event w = (Returned r, w') ->
  statusCode r = 200 ->
  exists body fileKey s,
    parsed_body event = Some body /\
    get_field "fileKey" body = Some fileKey /\
    fetched_as w None fileKey s /\
    (2 <= getPageCount (src_doc s))%nat /\
    let ips := indexed 0 (pages (src_doc s)) in
    w' = logs (fetch_as None fileKey s ++ (ips ≫= split_calls (clock w)))
              (put_all (split_output (clock w) <$> ips) w) /\
    body_field "pageCount" r
      = Some (JNum (Int (Z.of_nat (getPageCount (src_doc s))))) /\
    body_field "pages" r
      = Some (JArr (Split.page_json <$> (split_result w (clock w) <$> ips))).
Proof.
  unfold Split.handler, JSON_parse, destructure. intros Hrun Hstatus.
  apply bind_inv in Hrun as (body & w1 & [Hb ->]%of_option_inv & Hrun).
  apply bind_inv in Hrun as (fileKey & w2 & [Hf ->]%of_option_inv & Hrun).
  destruct (negb (truthy fileKey)).
  { injection Hrun as <- <-. discriminate Hstatus. }
  apply bind_inv in Hrun
    as (b & w4 & (o & Hk & Hd & ->)%download_inv & Hrun).
  apply bind_inv in Hrun as (pdf & w5 & [Hpdf ->]%load_inv & Hrun).
  cbv zeta in Hrun.
  destruct (Nat.ltb_spec (getPageCount pdf) 2) as [? | Hlen].
  { injection Hrun as <- <-. discriminate Hstatus. }
  apply bind_inv in Hrun as (now & w6 & [-> ->]%Date_now_inv & Hrun).
  apply bind_inv in Hrun as (res & w7 & Hloop & Hrun).
  injection Hrun as <- <-.
  rewrite log_is_logs, logs_logs in Hloop.
  apply (split_loop_inv pdf _ (pages pdf) []) in Hloop as [-> ->]; [| done].
  exists body, fileKey,
    {| src_key := key_name w fileKey; src_bytes := b; src_doc := pdf |}.
  split; [exact Hb |]. split; [exact Hf |].
  split; [split; [reflexivity | by exists o] |].
  split; [exact Hlen |].
  cbv zeta. split; [| split; reflexivity].
  cbn [src_doc fetch_as src_key src_bytes length]. same_world.
Qed.

(** A refusal comes before any write: the world is as it was or, when split
    refuses a short document, as it was but for the fetch and the decoding
    of that document. *)
Lemma refused_run op event w r w' :
  handler_of op event w = (Returned r, w') ->
  statusCode r = 400 ->
  w' = w \/
  op = splitting /\
  exists body fileKey s,
    parsed_body event = Some body /\
    get_field "fileKey" body = Some fileKey /\
    fetched_as w None fileKey s /\ (getPageCount (src_doc s) < 2)%nat /\
    w' = logs (fetch_as None fileKey s) w.
Proof.
  intros Hrun Hstatus. destruct op; cbn [handler_of] in Hrun.
  - unfold Merge.handler, JSON_parse, destructure in Hrun.
    apply bind_inv in Hrun as (body & w1 & [Hb ->]%of_option_inv & Hrun).
    apply bind_inv in Hrun as (fileKeys & w2 & [Hf ->]%of_option_inv & Hrun).
    destruct (negb (truthy fileKeys) || js_lt (Number (length_of fileKeys)) (Int 2)).
    { injection Hrun as <- <-. by left. }
    invert_run Hrun. discriminate Hstatus.
  - unfold Split.handler, JSON_parse, destructure in Hrun.
    apply bind_inv in Hrun as (body & w1 & [Hb ->]%of_option_inv & Hrun).
    apply bind_inv in Hrun as (fileKey & w2 & [Hf ->]%of_option_inv & Hrun).
    destruct (negb (truthy fileKey)).
    { injection Hrun as <- <-. by left. }
    apply bind_inv in Hrun
      as (b & w4 & (o & Hk & Hd & ->)%download_inv & Hrun).
    apply bind_inv in Hrun as (pdf & w5 & [Hpdf ->]%load_inv & Hrun).
    cbv zeta in Hrun.
    destruct (Nat.ltb_spec (getPageCount pdf) 2) as [Hlen | ?].
    + injection Hrun as <- <-. right. split; [reflexivity |].
      exists body, fileKey,
        {| src_key := key_name w fileKey; src_bytes := b; src_doc := pdf |}.
      split; [exact Hb |]. split; [exact Hf |].
      split; [split; [reflexivity | by exists o] |].
      split; [exact Hlen |]. same_world.
    + invert_run Hrun. discriminate Hstatus.
  - unfold Compress.handler, JSON_parse, destructure in Hrun.
    apply bind_inv in Hrun as (body & w1 & [Hb ->]%of_option_inv & Hrun).
    apply bind_inv in Hrun as (fileKey & w2 & [Hf ->]%of_option_inv & Hrun).
    destruct (negb (truthy fileKey)).
    { injection Hrun as <- <-. by left. }
    invert_run Hrun. discriminate Hstatus.
  - unfold Rotate.handler, JSON_parse, destructure in Hrun.
    apply bind_inv in Hrun as (body & w1 & [Hb ->]%of_option_inv & Hrun).
    apply bind_inv in Hrun as (fileKey & w2 & [Hf ->]%of_option_inv & Hrun).
    apply bind_inv in Hrun as (angle & w3 & [Hr ->]%of_option_inv & Hrun).
    destruct (negb (truthy fileKey)).
    { injection Hrun as <- <-. by left. }
    destruct (negb (Rotate.validateRotation angle)).
    { injection Hrun as <- <-. by left. }
    invert_run Hrun. discriminate Hstatus.
Qed.
End RunsBackwards.

(** X6. A 400 response of any handler comes before any write: the bucket
    is as it was.  The world itself is as it was, except when split refuses
    a document of fewer than 2 pages, which it has fetched, under the
    [fileKey] of the request, and decoded by then. *)
Theorem refusal_writes_nothing `{!Runtime, !PdfLib}
    (op : Operation) (event : LambdaEvent) (w : World) (r : Response) (w' : World) :
  handler_of op event w = (Returned r, w') ->
  statusCode r = 400 ->
  bucket w' = bucket w /\
  (w' = w \/
   op = splitting /\
   exists body fileKey s,
     parsed_body event = Some body /\
     get_field "fileKey" body = Some fileKey /\
     key_name w fileKey = src_key s /\
     fetched w None s /\ (getPageCount (src_doc s) < 2)%nat /\
     w' = logs (fetch_as None fileKey s) w).
Proof.
  intros Hrun Hstatus.
  destruct (refused_run op event w r w' Hrun Hstatus)
    as [-> | (-> & body & K & s & Hb & Hf & [Hk Hs] & Hlen & ->)].
  - split; [reflexivity | by left].
  - split; [reflexivity |]. right. split; [reflexivity |]. by exists body, K, s.
Qed.

Lemma refusal_writes_nothing_witness :
  exists w',
    @handler_of Sample.runtime Sample.pdf splitting
       (Sample.request [("fileKey", JStr "uploads/b.pdf")]) Sample.world
      = (Returned Split.too_short, w') /\
    bucket w' = bucket Sample.world.
Proof.
  eexists. split; [vm_compute; reflexivity |].
  eapply (@refusal_writes_nothing Sample.runtime Sample.pdf splitting
            (Sample.request [("fileKey", JStr "uploads/b.pdf")]) Sample.world
            Split.too_short).
  - vm_compute; reflexivity.
  - reflexivity.
Defined.

(** X7. Whatever the service refuses, a 200 response of merge is truthful.
    [fileKeys] is an array of at least 2 items, or a string of at least 2
    UTF-16 code units, whose items are then its code points; every item
    names an object that downloaded and decoded, a string by itself and any
    other value by the name the service gives it; the calls of the run are
    the creation of the output document, the fetch of each item as the
    request gives it and the decoding of its object, in order, one
    serialisation and the upload; the bucket differs from the one before in
    the output key alone, which holds the serialisation of the concatenated
    pages; and the response names that key and the URL the signer issues for
    it. *)
Theorem merge_success_is_truthful `{!Runtime, !PdfLib}
    (event : LambdaEvent) (w : World) (r : Response) (w' : World) :
  Merge.handler event w = (Returned r, w') ->
  statusCode r = 200 ->
  exists body fileKeys items srcs,
    parsed_body event = Some body /\
    get_field "fileKeys" body = Some fileKeys /\
    (fileKeys = JArr items /\ (2 <= length items)%nat \/
     exists text, fileKeys = JStr text /\ items = JStr <$> code_points text /\
                  (2 <= utf16_length text)%nat) /\
    Forall2 (fun K s => key_name w K = src_key s /\ fetched w None s) items srcs /\
    let merged := {| pages := concat (pages ∘ src_doc <$> srcs) |} in
    let outputKey := "processed/merged-" +:+ pretty (clock w) +:+ ".pdf" in
    let mergedBytes := PDF_serialize None merged in
    trace w' = trace w ++ PdfCreate :: concat (zip_with (fetch_as None) items srcs)
                 ++ PdfSave merged None :: upload_calls outputKey mergedBytes /\
    bucket w' = <[outputKey := written mergedBytes]> (bucket w) /\
    body_field "outputKey" r = Some (JStr outputKey) /\
    body_field "downloadUrl" r
      = Some (JStr (signer w (GetObjectCommand (JStr outputKey)) 3600)).
Proof.
  intros Hrun Hstatus.
  destruct (merge_success event w r w' Hrun Hstatus)
    as (body & fileKeys & items & srcs & Hb & Hf & Htruthy & Hlen & Hiter & Hall
        & -> & Hkey & Hurl).
  exists body, fileKeys, items, srcs.
  split; [exact Hb |]. split; [exact Hf |].
  split; [by apply merge_guard_passed |].
  split; [exact Hall |]. done.
Qed.

Lemma merge_success_is_truthful_witness :
  exists r w' srcs,
    @Merge.handler Sample.runtime Sample.pdf
       (Sample.request [("fileKeys", JArr [JStr "uploads/a.pdf"; JNum (Int 123)])])
       Worlds.numbered_world
      = (Returned r, w') /\
    statusCode r = 200 /\
    src_key <$> srcs = ["uploads/a.pdf"; "123"] /\
    Forall (@fetched Sample.pdf Worlds.numbered_world None) srcs /\
    bucket w'
      = <["processed/merged-1709123456789.pdf" :=
            written (@PDF_serialize Sample.pdf None
                       {| pages := concat (pages ∘ src_doc <$> srcs) |})]>
          (bucket Worlds.numbered_world).
Proof.
  pose (run := @Merge.handler Sample.runtime Sample.pdf
                 (Sample.request [("fileKeys", JArr [JStr "uploads/a.pdf"; JNum (Int 123)])])
                 Worlds.numbered_world).
  pose (r := match fst run with Returned r => r | Thrown _ => Merge.too_few end).
  assert (Hrun : run = (Returned r, snd run)) by (vm_compute; reflexivity).
  assert (Hstatus : statusCode r = 200) by (vm_compute; reflexivity).
  destruct (@merge_success_is_truthful Sample.runtime Sample.pdf _ _ _ _ Hrun Hstatus)
    as (body & fileKeys & items & srcs & Hb & Hf & Hshape & Hall & _ & Hbucket & _).
  injection Hb as <-. injection Hf as <-.
  destruct Hshape as [[[= <-] _] | (text & [=] & _)].
  exists r, (snd run), srcs.
  split; [exact Hrun |]. split; [exact Hstatus |].
  split; [| split; [| exact Hbucket]].
  - inversion Hall as [| K1 s1 items1 srcs1 [Hk1 _] Hall1]; subst.
    inversion Hall1 as [| K2 s2 items2 srcs2 [Hk2 _] Hall2]; subst.
    inversion Hall2; subst. cbn [fmap list_fmap]. by rewrite <- Hk1, <- Hk2.
  - clear -Hall. induction Hall as [| K s0 items srcs [_ Hs] _ IH];
      constructor; [exact Hs | exact IH].
Defined.

(** X8. Whatever the service refuses, a 200 response of rotate is
    truthful.  The rotation read as a number is 90, -90 or 180; the file key
    names an object that downloaded and decoded, a string by itself and any
    other value by the name the service gives it; the run fetched the key as
    the request gives it; the bucket differs from the one before in the
    output key alone, which holds the serialisation of the source with the
    angle added to every page; and the response reports that key, the
    signer's URL for it, the page count of the source and the angle. *)
Theorem rotate_success_is_truthful `{!Runtime, !PdfLib}
    (event : LambdaEvent) (w : World) (r : Response) (w' : World) :
  Rotate.handler event w = (Returned r, w') ->
  statusCode r = 200 ->
  exists body fileKey s angle delta,
    parsed_body event = Some body /\
    get_field "fileKey" body = Some fileKey /\
    get_field "rotation" body = Some angle /\
    Number angle = Int delta /\
    (delta = 90 \/ delta = -90 \/ delta = 180) /\
    key_name w fileKey = src_key s /\
    fetched w None s /\
    let rotated := Rotate.rotate_pages delta (src_doc s) in
    let outputKey := "processed/rotated-" +:+ pretty (clock w) +:+ ".pdf" in
    let bytes := PDF_serialize None rotated in
    rotation <$> pages rotated = (fun p => rotation p + delta) <$> pages (src_doc s) /\
    trace w' = trace w ++ fetch_as None fileKey s
                 ++ PdfSave rotated None :: upload_calls outputKey bytes /\
    bucket w' = <[outputKey := written bytes]> (bucket w) /\
    body_field "outputKey" r = Some (JStr outputKey) /\
    body_field "downloadUrl" r
      = Some (JStr (signer w (GetObjectCommand (JStr outputKey)) 3600)) /\
    body_field "pageCount" r = Some (JNum (Int (Z.of_nat (getPageCount (src_doc s))))) /\
    body_field "rotation" r = Some (JNum (Int delta)).
Proof.
  intros Hrun Hstatus.
  destruct (rotate_success event w r w' Hrun Hstatus)
    as (body & K & s & angle & Hb & Hf & Hr & Hvalid & [Hk Hs] & -> & Hkey & Hurl
        & Hcount & Hrot).
  destruct (validateRotation_angle angle Hvalid) as [Hnum Hdelta].
  exists body, K, s, angle, (to_Z (Number angle)).
  do 7 (split; [done |]). cbv zeta.
  split; [apply rotate_pages_angles |]. by repeat split.
Qed.

Lemma rotate_success_is_truthful_witness :
  exists r w',
    @Rotate.handler Sample.runtime Sample.pdf
       (Sample.request [("fileKey", JNum (Int 123)); ("rotation", JStr "-90")])
       Worlds.numbered_world
      = (Returned r, w') /\
    statusCode r = 200 /\
    body_field "rotation" r = Some (JNum (Int (-90))) /\
    exists s delta,
      src_key s = "123" /\
      @fetched Sample.pdf Worlds.numbered_world None s /\
      body_field "rotation" r = Some (JNum (Int delta)) /\
      bucket w'
        = <["processed/rotated-1709123456789.pdf" :=
              written (@PDF_serialize Sample.pdf None
                         (Rotate.rotate_pages delta (src_doc s)))]>
            (bucket Worlds.numbered_world).
Proof.
  pose (run := @Rotate.handler Sample.runtime Sample.pdf
                 (Sample.request [("fileKey", JNum (Int 123)); ("rotation", JStr "-90")])
                 Worlds.numbered_world).
  pose (r := match fst run with Returned r => r | Thrown _ => Rotate.no_file end).
  assert (Hrun : run = (Returned r, snd run)) by (vm_compute; reflexivity).
  assert (Hstatus : statusCode r = 200) by (vm_compute; reflexivity).
  destruct (@rotate_success_is_truthful Sample.runtime Sample.pdf _ _ _ _ Hrun Hstatus)
    as (body & K & s & angle & delta & Hb & Hf & _ & _ & _ & Hk & Hs & _ & _ & Hbucket
        & _ & _ & _ & Hrot).
  injection Hb as <-. injection Hf as <-.
  exists r, (snd run).
  split; [exact Hrun |]. split; [exact Hstatus |].
  split; [vm_compute; reflexivity |].
  exists s, delta. split; [by rewrite <- Hk |].
  split; [exact Hs |]. split; [exact Hrot | exact Hbucket].
Defined.

(** X9. Whatever the service refuses, a 200 response of compress is
    truthful.  The file key names an object that downloaded and decoded
    (encryption ignored), a string by itself and any other value by the name
    the service gives it; the run fetched the key as the request gives it;
    the bucket differs from the one before in the output key alone, which
    holds that document saved with object streams; and the response reports
    that key, the signer's URL for it, the declared size of the source and
    the length of the stored bytes. *)
Theorem compress_success_is_truthful `{!Runtime, !PdfLib}
    (event : LambdaEvent) (w : World) (r : Response) (w' : World) :
  Compress.handler event w = (Returned r, w') ->
  statusCode r = 200 ->
  exists body fileKey s o,
    parsed_body event = Some body /\
    get_field "fileKey" body = Some fileKey /\
    key_name w fileKey = src_key s /\
    bucket w !! src_key s = Some o /\
    delivered o = Some (src_bytes s) /\
    PDF_parse (Some true) (src_bytes s) = Some (src_doc s) /\
    let bytes := PDF_serialize (Some true) (src_doc s) in
    let compressedSize := N.of_nat (length bytes) in
    let outputKey := "processed/compressed-" +:+ pretty (clock w) +:+ ".pdf" in
    trace w' = trace w ++ fetch_as (Some true) fileKey s
                 ++ PdfSave (src_doc s) (Some true) :: upload_calls outputKey bytes /\
    bucket w' = <[outputKey := written bytes]> (bucket w) /\
    body_field "outputKey" r = Some (JStr outputKey) /\
    body_field "downloadUrl" r
      = Some (JStr (signer w (GetObjectCommand (JStr outputKey)) 3600)) /\
    body_field "originalSize" r = Some (JStr (Compress.formatBytes (ContentLength o))) /\
    body_field "compressedSize" r
      = Some (JStr (Compress.formatBytes (Some compressedSize))).
Proof.
  intros Hrun Hstatus.
  destruct (compress_returned event w r w' Hrun Hstatus)
    as (body & K & s & o & Hb & Hf & Hname & Hk & Hd & Hpdf & -> & Hkey & Hurl & Ho
        & Hc & _).
  exists body, K, s, o. do 6 (split; [done |]). cbv zeta. by repeat split.
Qed.

Lemma compress_success_is_truthful_witness :
  exists r w' s,
    @Compress.handler Sample.runtime Sample.pdf
       (Sample.request [("fileKey", JStr "uploads/d.pdf")]) Sample.world
      = (Returned r, w') /\
    statusCode r = 200 /\
    src_key s = "uploads/d.pdf" /\
    @PDF_parse Sample.pdf (Some true) (src_bytes s) = Some (src_doc s) /\
    bucket w'
      = <["processed/compressed-1709123456789.pdf" :=
            written (@PDF_serialize Sample.pdf (Some true) (src_doc s))]>
          (bucket Sample.world).
Proof.
  pose (run := @Compress.handler Sample.runtime Sample.pdf
                 (Sample.request [("fileKey", JStr "uploads/d.pdf")]) Sample.world).
  pose (r := match fst run with Returned r => r | Thrown _ => Compress.no_file end).
  assert (Hrun : run = (Returned r, snd run)) by (vm_compute; reflexivity).
  assert (Hstatus : statusCode r = 200) by (vm_compute; reflexivity).
  destruct (@compress_success_is_truthful Sample.runtime Sample.pdf _ _ _ _ Hrun Hstatus)
    as (body & K & s & o & Hb & Hf & Hname & _ & _ & Hpdf & _ & Hbucket & _).
  injection Hb as <-. injection Hf as <-.
  exists r, (snd run), s.
  split; [exact Hrun |]. split; [exact Hstatus |].
  split; [by rewrite <- Hname |].
  split; [exact Hpdf | exact Hbucket].
Defined.

(** X10. Whatever the service refuses, a 200 response of split is
    truthful.  The file key names an object that downloaded and decoded to
    D >= 2 pages, a string by itself and any other value by the name the
    service gives it; [pageCount] is D and [pages] is an array of D objects,
    the one of index i with the fields [pageNumber] i + 1, [downloadUrl] the
    signer's URL for the key of that page and [outputKey] that key, and no
    other field; the bucket holds under that key the serialisation of the
    one-page document made of the source page of index i, and every key that
    is not one of these D is as it was. *)
Theorem split_success_is_truthful `{!PdfLib}
    (event : LambdaEvent) (w : World) (r : Response) (w' : World) :
  Split.handler event w = (Returned r, w') ->
  statusCode r = 200 ->
  exists body fileKey s entries,
    parsed_body event = Some body /\
    get_field "fileKey" body = Some fileKey /\
    key_name w fileKey = src_key s /\
    fetched w None s /\
    (2 <= getPageCount (src_doc s))%nat /\
    let ips := indexed 0 (pages (src_doc s)) in
    trace w' = trace w ++ fetch_as None fileKey s ++ (ips ≫= split_calls (clock w)) /\
    writes (ips ≫= split_calls (clock w)) = split_output (clock w) <$> ips /\
    body_field "pageCount" r
      = Some (JNum (Int (Z.of_nat (getPageCount (src_doc s))))) /\
    body_field "pages" r = Some (JArr entries) /\
    length entries = getPageCount (src_doc s) /\
    (forall i p,
        pages (src_doc s) !! i = Some p ->
        let key := Split.page_key (clock w) (Z.of_nat i + 1) in
        entries !! i
          = Some (obj [("pageNumber", JNum (Int (Z.of_nat i + 1)));
                       ("downloadUrl", JStr (signer w (GetObjectCommand (JStr key)) 3600));
                       ("outputKey", JStr key)]) /\
        bucket w' !! key = Some (written (PDF_serialize None (single p)))) /\
    (forall k, (forall i, (i < getPageCount (src_doc s))%nat ->
                          k <> Split.page_key (clock w) (Z.of_nat i + 1)) ->
               bucket w' !! k = bucket w !! k).
Proof.
  intros Hrun Hstatus.
  destruct (split_success event w r w' Hrun Hstatus)
    as (body & K & s & Hb & Hf & [Hk Hs] & Hlen & -> & Hcount & Hpages).
  exists body, K, s,
    (Split.page_json <$> (split_result w (clock w) <$> indexed 0 (pages (src_doc s)))).
  do 5 (split; [done |]). cbv zeta.
  split; [simpl; by rewrite trace_put_all |].
  split; [apply writes_split_calls |].
  split; [exact Hcount |]. split; [exact Hpages |].
  split; [by rewrite !length_fmap, indexed_length |].
  split.
  - intros i p Hp. split.
    + rewrite !list_lookup_fmap, (indexed_lookup _ 0 i p Hp). reflexivity.
    + cbn [bucket logs].
      apply bucket_put_all_in; [apply split_keys_NoDup |].
      apply list_elem_of_lookup_2 with i.
      rewrite list_lookup_fmap, (indexed_lookup _ 0 i p Hp). reflexivity.
  - intros k Hk'. cbn [bucket logs]. apply bucket_put_all_notin.
    rewrite <- list_fmap_compose.
    intros ([i p] & -> & Hin)%list_elem_of_fmap.
    apply list_elem_of_lookup in Hin as [j Hj].
    assert (Hlt : (j < length (pages (src_doc s)))%nat).
    { apply lookup_lt_Some in Hj. by rewrite indexed_length in Hj. }
    destruct (lookup_lt_is_Some_2 _ _ Hlt) as [p' Hp'].
    rewrite (indexed_lookup _ 0 j p' Hp') in Hj. injection Hj as <- <-.
    by apply (Hk' j).
Qed.

Lemma split_success_is_truthful_witness :
  exists r w' entries,
    @Split.handler Sample.pdf
       (Sample.request [("fileKey", JStr "uploads/c.pdf")]) Sample.world
      = (Returned r, w') /\
    statusCode r = 200 /\
    body_field "pageCount" r = Some (JNum (Int 3)) /\
    body_field "pages" r = Some (JArr entries) /\
    length entries = 3%nat /\
    exists s,
      src_key s = "uploads/c.pdf" /\
      @fetched Sample.pdf Sample.world None s /\
      body_field "pageCount" r
        = Some (JNum (Int (Z.of_nat (getPageCount (src_doc s))))).
Proof.
  pose (run := @Split.handler Sample.pdf
                 (Sample.request [("fileKey", JStr "uploads/c.pdf")]) Sample.world).
  pose (r := match fst run with Returned r => r | Thrown _ => Split.no_file end).
  assert (Hrun : run = (Returned r, snd run)) by (vm_compute; reflexivity).
  assert (Hstatus : statusCode r = 200) by (vm_compute; reflexivity).
  destruct (@split_success_is_truthful Sample.pdf _ _ _ _ Hrun Hstatus)
    as (body & K & s & entries & Hb & Hf & Hk & Hs & _ & _ & _ & Hcount & Hpages
        & Hlen & _).
  injection Hb as <-. injection Hf as <-.
  assert (Hthree : body_field "pageCount" r = Some (JNum (Int 3)))
    by (vm_compute; reflexivity).
  exists r, (snd run), entries.
  split; [exact Hrun |]. split; [exact Hstatus |].
  split; [exact Hthree |]. split; [exact Hpages |].
  split.
  { rewrite Hlen. rewrite Hcount in Hthree. injection Hthree as Hthree. lia. }
  exists s. split; [by rewrite <- Hk |]. split; [exact Hs | exact Hcount].
Defined.

(** ** Sources that cannot be used *)

(** A run that owns no key leaves the bucket as it was. *)
Lemma read_only_run {A} (m : M A) w o w1 :
  confined (fun _ => False) m w -> m w = (o, w1) -> bucket w1 = bucket w.
Proof.
  intros (t & _ & _ & _ & _ & _ & Hb & _) Hrun. rewrite Hrun in Hb.
  apply map_eq. intros k. apply Hb. tauto.
Qed.

Section Unusable.
Context `{!Runtime, !PdfLib}.

Lemma merge_loop_unusable items K acc w :
  K ∈ items -> ~ usable w None K ->
  exists e w1, for_each Merge.merge_one items acc w = (Thrown e, w1) /\
               bucket w1 = bucket w.
Proof.
  intros Hin Hunusable.
  destruct (for_each Merge.merge_one items acc w) as [[d | e] w1] eqn:Hrun.
  - apply merge_loop_inv in Hrun as (srcs & Hall & _).
    apply list_elem_of_lookup in Hin as [i Hi].
    destruct (Forall2_lookup_l _ _ _ _ _ Hall Hi) as (s & _ & Hs).
    destruct Hunusable. by exists s.
  - exists e, w1. split; [reflexivity |].
    eapply read_only_run; [| exact Hrun].
    apply confined_for_each. intros. apply confined_merge_one.
Qed.

Lemma merge_unusable event body keys K w :
  parsed_body event = Some body ->
  get_field "fileKeys" body = Some (JArr keys) ->
  (2 <= length keys)%nat ->
  K ∈ keys ->
  ~ usable w None K ->
  exists e w', Merge.handler event w = (Thrown e, w') /\ bucket w' = bucket w.
Proof.
  intros Hb Hf Hlen Hin Hunusable.
  unfold Merge.handler, JSON_parse, destructure.
  rewrite Hb, bind_of_option_Some, Hf, bind_of_option_Some.
  cbn [truthy negb orb length_of Number iterate].
  rewrite js_lt_Int, bool_decide_eq_false_2 by lia.
  unfold bind at 1. cbn [PDFDocument_create]. rewrite bind_of_option_Some.
  destruct (merge_loop_unusable keys K {| pages := [] |} (log PdfCreate w) Hin Hunusable)
    as (e & w1 & Hloop & Hbucket).
  exists e, w1. split; [| exact Hbucket].
  by rewrite (bind_thrown _ _ _ _ _ Hloop).
Qed.

(** The fetch and the decoding of a key that is not usable do not both
    return. *)
Lemma fetch_unusable {B} K opt (rest : Document -> M B) w :
  ~ usable w opt K ->
  exists e w',
    (let* pdfBuffer := (let* response := send_get K in streamToBuffer (Body response)) in
     let* pdf := PDFDocument_load pdfBuffer opt in
     rest pdf) w = (Thrown e, w') /\
    bucket w' = bucket w.
Proof.
  intros Hunusable. unfold bind at 1.
  destruct ((let* response := send_get K in streamToBuffer (Body response)) w)
    as [[b | e] w1] eqn:Hdl.
  - apply download_inv in Hdl as (o & Hk & Hd & ->).
    unfold bind at 1.
    destruct (PDFDocument_load b opt (logs [Send (GetObjectCommand K)] w))
      as [[pdf | e] w2] eqn:Hload.
    + apply load_inv in Hload as [Hpdf _]. destruct Hunusable.
      exists {| src_key := key_name w K; src_bytes := b; src_doc := pdf |}.
      split; [reflexivity |]. by exists o.
    + exists e, w2. split; [reflexivity |].
      apply (read_only_run _ _ _ _ (confined_load _ _ _ _)) in Hload. exact Hload.
  - exists e, w1. split; [reflexivity |].
    eapply read_only_run; [| exact Hdl]. confine fail.
Qed.

Lemma split_unusable event body K w :
  parsed_body event = Some body ->
  get_field "fileKey" body = Some K ->
  truthy K = true ->
  ~ usable w None K ->
  exists e w', Split.handler event w = (Thrown e, w') /\ bucket w' = bucket w.
Proof.
  intros Hb Hf Htruthy Hunusable.
  unfold Split.handler, JSON_parse, destructure, Split.downloadPdfFromS3.
  rewrite Hb, bind_of_option_Some, Hf, bind_of_option_Some, Htruthy.
  cbn [negb]. by apply fetch_unusable.
Qed.

Lemma rotate_unusable event body K angle w :
  parsed_body event = Some body ->
  get_field "fileKey" body = Some K ->
  get_field "rotation" body = Some angle ->
  truthy K = true ->
  Rotate.validateRotation angle = true ->
  ~ usable w None K ->
  exists e w', Rotate.handler event w = (Thrown e, w') /\ bucket w' = bucket w.
Proof.
  intros Hb Hf Hr Htruthy Hvalid Hunusable.
  unfold Rotate.handler, JSON_parse, destructure, Rotate.downloadPdfFromS3.
  rewrite Hb, bind_of_option_Some, Hf, bind_of_option_Some,
    Hr, bind_of_option_Some, Htruthy, Hvalid.
  cbn [negb]. cbv zeta. by apply fetch_unusable.
Qed.

Lemma compress_unusable event body K w :
  parsed_body event = Some body ->
  get_field "fileKey" body = Some K ->
  truthy K = true ->
  ~ usable w (Some true) K ->
  exists e w', Compress.handler event w = (Thrown e, w') /\ bucket w' = bucket w.
Proof.
  intros Hb Hf Htruthy Hunusable.
  unfold Compress.handler, JSON_parse, destructure.
  rewrite Hb, bind_of_option_Some, Hf, bind_of_option_Some, Htruthy.
  cbn [negb]. unfold bind at 1.
  destruct (Compress.downloadPdfFromS3 K w) as [[dl | e] w1] eqn:Hdl.
  - unfold Compress.downloadPdfFromS3 in Hdl.
    apply bind_inv in Hdl as (o & w2 & [Hk ->]%send_get_inv & Hdl).
    apply bind_inv in Hdl as (b & w3 & [Hd ->]%streamToBuffer_inv & Hdl).
    injection Hdl as <- <-. cbn [Compress.buffer Compress.originalSize].
    unfold bind at 1.
    destruct (Compress.compressPdf b (log (Send (GetObjectCommand K)) w))
      as [[bytes | e] w4] eqn:Hc.
    + unfold Compress.compressPdf in Hc.
      apply bind_inv in Hc as (pdf & w5 & [Hpdf _]%load_inv & _).
      destruct Hunusable.
      exists {| src_key := key_name w K; src_bytes := b; src_doc := pdf |}.
      split; [reflexivity |]. by exists o.
    + exists e, w4. split; [reflexivity |].
      eapply read_only_run in Hc; [exact Hc |].
      unfold Compress.compressPdf. confine fail.
  - exists e, w1. split; [reflexivity |].
    eapply read_only_run; [| exact Hdl].
    unfold Compress.downloadPdfFromS3. confine fail.
Qed.
End Unusable.

(** X11. merge is all or nothing on its sources.  When one key of a list
    of at least 2 names no object that downloads and decodes, the run ends in
    an exception and the bucket is as it was, wherever the key stands in the
    list and whatever the service does. *)
Theorem merge_aborts_on_unusable_source `{!Runtime, !PdfLib}
    (event : LambdaEvent) (body : JSValue) (keys : list JSValue) (K : JSValue)
    (w : World) :
  parsed_body event = Some body ->
  get_field "fileKeys" body = Some (JArr keys) ->
  (2 <= length keys)%nat ->
  K ∈ keys ->
  ~ usable w None K ->
  exists e w', Merge.handler event w = (Thrown e, w') /\ bucket w' = bucket w.
Proof. apply merge_unusable. Qed.

Lemma merge_aborts_on_unusable_source_witness :
  exists e w',
    @Merge.handler Sample.runtime Sample.pdf
       (Sample.request [("fileKeys", JArr [JStr "uploads/a.pdf"; JStr "uploads/missing.pdf"])])
       Sample.world
      = (Thrown e, w') /\
    bucket w' = bucket Sample.world.
Proof.
  apply (@merge_aborts_on_unusable_source Sample.runtime Sample.pdf
           (Sample.request [("fileKeys", JArr [JStr "uploads/a.pdf"; JStr "uploads/missing.pdf"])])
           (obj [("fileKeys", JArr [JStr "uploads/a.pdf"; JStr "uploads/missing.pdf"])])
           [JStr "uploads/a.pdf"; JStr "uploads/missing.pdf"]
           (JStr "uploads/missing.pdf") Sample.world).
  - reflexivity.
  - reflexivity.
  - simpl. lia.
  - apply list_elem_of_In. simpl. tauto.
  - intros (s & [= Hkey] & o & Ho & _). rewrite <- Hkey in Ho. discriminate Ho.
Defined.

(** X12. split, compress and rotate (with a valid rotation) on a truthy
    [fileKey] that names no object that downloads and decodes (a key the
    bucket does not hold, an object whose stream breaks or whose bytes are
    no document) end in an exception, with the bucket as it was, whatever
    the service does. *)
Theorem unusable_source_aborts `{!Runtime, !PdfLib}
    (event : LambdaEvent) (body K : JSValue) (w : World) :
  parsed_body event = Some body ->
  get_field "fileKey" body = Some K ->
  truthy K = true ->
  (~ usable w None K ->
   exists e w', Split.handler event w = (Thrown e, w') /\ bucket w' = bucket w) /\
  (~ usable w (Some true) K ->
   exists e w', Compress.handler event w = (Thrown e, w') /\ bucket w' = bucket w) /\
  (forall angle,
      get_field "rotation" body = Some angle ->
      Rotate.validateRotation angle = true ->
      ~ usable w None K ->
      exists e w', Rotate.handler event w = (Thrown e, w') /\ bucket w' = bucket w).
Proof.
  intros Hb Hf Htruthy.
  split; [intros; by eapply split_unusable |].
  split; [intros; by eapply compress_unusable |].
  intros; by eapply rotate_unusable.
Qed.

Lemma unusable_source_aborts_witness :
  (exists e w',
     @Split.handler Sample.pdf
        (Sample.request [("fileKey", JStr "uploads/missing.pdf")]) Sample.world
       = (Thrown e, w') /\
     bucket w' = bucket Sample.world) /\
  (exists e w',
     @Compress.handler Sample.runtime Sample.pdf
        (Sample.request [("fileKey", JNum (Int 7))]) Sample.world
       = (Thrown e, w') /\
     bucket w' = bucket Sample.world).
Proof.
  split.
  - apply (proj1 (@unusable_source_aborts Sample.runtime Sample.pdf
                    (Sample.request [("fileKey", JStr "uploads/missing.pdf")])
                    (obj [("fileKey", JStr "uploads/missing.pdf")])
                    (JStr "uploads/missing.pdf") Sample.world
                    eq_refl eq_refl eq_refl)).
    intros (s & [Hkey (o & Ho & _)]). rewrite <- Hkey in Ho. discriminate Ho.
  - assert (Htruthy : truthy (JNum (Int 7)) = true) by (vm_compute; reflexivity).
    apply (proj1 (proj2 (@unusable_source_aborts Sample.runtime Sample.pdf
                           (Sample.request [("fileKey", JNum (Int 7))])
                           (obj [("fileKey", JNum (Int 7))])
                           (JNum (Int 7)) Sample.world
                           eq_refl eq_refl Htruthy))).
    intros (s & [Hkey (o & Ho & _)]). rewrite <- Hkey in Ho.
    vm_compute in Ho. discriminate Ho.
Defined.

(** ** Runs behind a service that refuses some calls *)

Lemma refuses_store P k o w : refuses P w -> refuses P (store k o w).
Proof. intros R ? ?. apply R. Qed.

Lemma refuses_put_all P outs w : refuses P w -> refuses P (put_all outs w).
Proof.
  revert w. induction outs as [| kb outs IH]; intros w R; [done |].
  apply IH. by apply refuses_store.
Qed.

Section Oracle.
Context `{!Runtime, !PdfLib}.
Variable P : Call -> bool.
Hypothesis fetches_accepted : forall K, P (Send (GetObjectCommand K)) = false.

Lemma send_get_at w t k o :
  refuses P w -> bucket w !! k = Some o ->
  send_get (JStr k) (logs t w)
    = (Returned o, logs (t ++ [Send (GetObjectCommand (JStr k))]) w).
Proof.
  intros R Hk. unfold send_get. simpl. rewrite R, fetches_accepted, Hk.
  by rewrite log_logs.
Qed.

(** The download of every handler but compress. *)
Lemma download_at w t k o b :
  refuses P w -> bucket w !! k = Some o -> delivered o = Some b ->
  (let* response := send_get (JStr k) in streamToBuffer (Body response)) (logs t w)
    = (Returned b, logs (t ++ [Send (GetObjectCommand (JStr k))]) w).
Proof.
  intros R Hk Hb. step send_get_at. by apply streamToBuffer_ok.
Qed.

(** The upload of merge, compress and rotate: what the service does with the
    write and then with the signing decides how it ends. *)
Lemma upload_at w t k b :
  refuses P w ->
  let put := Send (PutObjectCommand k b "application/pdf") in
  let sign := Presign (GetObjectCommand (JStr k)) 3600 in
  (let* _ := send_put k b "application/pdf" in
   let* signedUrl := getSignedUrl (GetObjectCommand (JStr k)) 3600 in
   ret signedUrl) (logs t w)
  = if P put then (Thrown ServiceError, logs (t ++ [put]) w)
    else if P sign
         then (Thrown ServiceError, logs (t ++ [put; sign]) (store k (written b) w))
         else (Returned (signer w (GetObjectCommand (JStr k)) 3600),
               logs (t ++ [put; sign]) (store k (written b) w)).
Proof.
  intros R put sign. unfold bind at 1. unfold send_put. cbn [faults logs].
  rewrite R. fold put. destruct (P put).
  - by rewrite log_logs.
  - unfold bind, getSignedUrl. simpl. rewrite R. fold sign.
    destruct (P sign); unfold ret; f_equal; unfold log, logs, store; simpl;
      f_equal; by rewrite <- !app_assoc.
Qed.

Lemma merge_one_at w t acc s :
  refuses P w -> fetched w None s ->
  Merge.merge_one acc (JStr (src_key s)) (logs t w)
    = (Returned {| pages := pages acc ++ pages (src_doc s) |},
       logs (t ++ fetch_calls None s) w).
Proof.
  intros R (o & Hk & Hb & Hd). unfold Merge.merge_one.
  assert (Hdl : Merge.downloadPdfFromS3 (JStr (src_key s)) (logs t w)
                = (Returned (src_bytes s),
                   logs (t ++ [Send (GetObjectCommand (JStr (src_key s)))]) w)).
  { unfold Merge.downloadPdfFromS3. step send_get_at. step streamToBuffer_ok.
    reflexivity. }
  rewrite (bind_returned _ _ _ _ _ Hdl). step load_ok.
  rewrite (bind_returned _ _ _ _ _ (copyPages_all _ _)).
  rewrite foldl_addPage. unfold ret, fetch_calls. by rewrite <- app_assoc.
Qed.

Lemma merge_loop_at w srcs : forall t acc,
  refuses P w -> Forall (fetched w None) srcs ->
  for_each Merge.merge_one (JStr ∘ src_key <$> srcs) acc (logs t w)
    = (Returned {| pages := pages acc ++ concat (pages ∘ src_doc <$> srcs) |},
       logs (t ++ (srcs ≫= fetch_calls None)) w).
Proof.
  induction srcs as [| s srcs IH]; intros t acc R Hall.
  - simpl. unfold ret. rewrite !app_nil_r. by destruct acc.
  - apply Forall_cons in Hall as [Hs Hall].
    cbn [fmap list_fmap for_each compose].
    rewrite (bind_returned _ _ _ _ _ (merge_one_at w t acc s R Hs)).
    rewrite (IH _ _ R Hall). simpl. by rewrite <- !app_assoc.
Qed.

(** merge, up to its upload. *)
Lemma merge_reaches_upload event body srcs w t :
  parsed_body event = Some body ->
  get_field "fileKeys" body = Some (JArr (JStr ∘ src_key <$> srcs)) ->
  (2 <= length srcs)%nat ->
  refuses P w ->
  Forall (fetched w None) srcs ->
  let merged := {| pages := concat (pages ∘ src_doc <$> srcs) |} in
  let outputKey := "processed/merged-" +:+ pretty (clock w) +:+ ".pdf" in
  Merge.handler event (logs t w)
  = (let* downloadUrl := Merge.uploadPdfToS3 (PDF_serialize None merged) outputKey in
     ret {| statusCode := 200;
            headers := Merge.corsHeaders;
            body_json := obj [("message", JStr "PDFs merged successfully");
                              ("downloadUrl", JStr downloadUrl);
                              ("outputKey", JStr outputKey)] |})
      (logs (t ++ PdfCreate :: (srcs ≫= fetch_calls None) ++ [PdfSave merged None]) w).
Proof.
  intros Hb Hf Hlen R Hall merged outputKey.
  unfold Merge.handler, JSON_parse, destructure.
  rewrite Hb, bind_of_option_Some, Hf, bind_of_option_Some.
  cbn [truthy negb orb length_of Number iterate].
  rewrite js_lt_Int, bool_decide_eq_false_2 by (rewrite length_fmap; lia).
  rewrite (bind_returned _ _ _ _ _ (create_ok w t)).
  rewrite bind_of_option_Some.
  rewrite (bind_returned _ _ _ _ _ (merge_loop_at w srcs _ _ R Hall)).
  cbn [pages app].
  rewrite (bind_returned _ _ _ _ _ (save_ok w _ _ None)).
  rewrite (bind_returned _ _ _ _ _ (Date_now_ok w _)).
  by rewrite <- !app_assoc.
Qed.

(** rotate, up to its upload. *)
Lemma rotate_reaches_upload event body s angle w t :
  parsed_body event = Some body ->
  get_field "fileKey" body = Some (JStr (src_key s)) ->
  get_field "rotation" body = Some angle ->
  src_key s <> "" ->
  Rotate.validateRotation angle = true ->
  refuses P w ->
  fetched w None s ->
  let delta := to_Z (Number angle) in
  let rotated := Rotate.rotate_pages delta (src_doc s) in
  let outputKey := "processed/rotated-" +:+ pretty (clock w) +:+ ".pdf" in
  Rotate.handler event (logs t w)
  = (let* downloadUrl := Rotate.uploadRotatedPdfToS3 (PDF_serialize None rotated) outputKey in
     ret {| statusCode := 200;
            headers := Rotate.corsHeaders;
            body_json :=
              obj [("message", JStr ("PDF rotated " +:+ pretty delta
                                     +:+ " degrees successfully"));
                   ("downloadUrl", JStr downloadUrl);
                   ("outputKey", JStr outputKey);
                   ("pageCount", JNum (Int (Z.of_nat (length (pages (src_doc s))))));
                   ("rotation", JNum (Int delta))] |})
      (logs (t ++ fetch_calls None s ++ [PdfSave rotated None]) w).
Proof.
  intros Hb Hf Hr Hk Hvalid R (o & Ho & Hd & Hpdf) delta rotated outputKey.
  unfold Rotate.handler, JSON_parse, destructure, Rotate.downloadPdfFromS3.
  rewrite Hb, bind_of_option_Some, Hf, bind_of_option_Some,
    Hr, bind_of_option_Some.
  cbn [truthy negb]. rewrite bool_decide_eq_false_2 by done. cbn [negb].
  rewrite Hvalid. cbn [negb]. cbv zeta.
  rewrite (bind_returned _ _ _ _ _ (download_at w t _ o _ R Ho Hd)).
  rewrite (bind_returned _ _ _ _ _ (load_ok w _ _ None _ Hpdf)).
  rewrite (bind_returned _ _ _ _ _ (save_ok w _ _ None)).
  rewrite (bind_returned _ _ _ _ _ (Date_now_ok w _)).
  unfold fetch_calls, getPages. by rewrite <- !app_assoc.
Qed.

(** compress, up to its upload. *)
Lemma compress_reaches_upload event body s o w t :
  parsed_body event = Some body ->
  get_field "fileKey" body = Some (JStr (src_key s)) ->
  src_key s <> "" ->
  refuses P w ->
  bucket w !! src_key s = Some o ->
  delivered o = Some (src_bytes s) ->
  PDF_parse (Some true) (src_bytes s) = Some (src_doc s) ->
  let bytes := PDF_serialize (Some true) (src_doc s) in
  let compressedSize := N.of_nat (length bytes) in
  let outputKey := "processed/compressed-" +:+ pretty (clock w) +:+ ".pdf" in
  Compress.handler event (logs t w)
  = (let* downloadUrl := Compress.uploadCompressedPdfToS3 bytes outputKey in
     ret {| statusCode := 200;
            headers := Compress.corsHeaders;
            body_json :=
              obj [("message", JStr "PDF compressed successfully");
                   ("downloadUrl", JStr downloadUrl);
                   ("outputKey", JStr outputKey);
                   ("originalSize", JStr (Compress.formatBytes (ContentLength o)));
                   ("compressedSize", JStr (Compress.formatBytes (Some compressedSize)));
                   ("savedPercent",
                    JNum (Compress.reported
                            (Compress.savedPercent compressedSize (ContentLength o))))] |})
      (logs (t ++ fetch_calls (Some true) s ++ [PdfSave (src_doc s) (Some true)]) w).
Proof.
  intros Hb Hf Hk R Ho Hd Hpdf bytes compressedSize outputKey.
  unfold Compress.handler, JSON_parse, destructure.
  rewrite Hb, bind_of_option_Some, Hf, bind_of_option_Some.
  cbn [truthy negb]. rewrite bool_decide_eq_false_2 by done. cbn [negb].
  assert (Hdl : Compress.downloadPdfFromS3 (JStr (src_key s)) (logs t w)
                = (Returned {| Compress.buffer := src_bytes s;
                               Compress.originalSize := ContentLength o |},
                   logs (t ++ [Send (GetObjectCommand (JStr (src_key s)))]) w)).
  { unfold Compress.downloadPdfFromS3. step send_get_at. step streamToBuffer_ok.
    reflexivity. }
  rewrite (bind_returned _ _ _ _ _ Hdl). cbn [Compress.buffer Compress.originalSize].
  assert (Hc : Compress.compressPdf (src_bytes s)
                 (logs (t ++ [Send (GetObjectCommand (JStr (src_key s)))]) w)
               = (Returned bytes,
                  logs (t ++ fetch_calls (Some true) s
                          ++ [PdfSave (src_doc s) (Some true)]) w)).
  { unfold Compress.compressPdf. step load_ok.
    rewrite (bind_returned _ _ _ _ _ (save_ok w _ _ (Some true))).
    unfold ret, fetch_calls. by rewrite <- !app_assoc. }
  rewrite (bind_returned _ _ _ _ _ Hc). cbv zeta.
  by rewrite (bind_returned _ _ _ _ _ (Date_now_ok w _)).
Qed.
End Oracle.

Lemma bind_ext {A B} (m : M A) (k1 k2 : A -> M B) w :
  (forall a w1, k1 a w1 = k2 a w1) -> bind m k1 w = bind m k2 w.
Proof.
  intros Hk. unfold bind. destruct (m w) as [[a | e] w1]; [apply Hk | done].
Qed.

Lemma for_each_app {A S} (body : S -> A -> M S) xs ys s w :
  for_each body (xs ++ ys) s w
  = (let* s' := for_each body xs s in for_each body ys s') w.
Proof.
  revert s w. induction xs as [| x xs IH]; intros s w; [done |].
  cbn [app for_each]. rewrite bind_assoc. apply bind_ext. intros; apply IH.
Qed.

Section SplitOracle.
Context `{!PdfLib}.
Variable P : Call -> bool.

Lemma split_one_at pdf ts acc i p w t :
  refuses P w -> pages pdf !! i = Some p -> page_accepted P ts (i, p) ->
  Split.split_one pdf ts acc i (logs t w)
    = (Returned (acc ++ [split_result w ts (i, p)]),
       logs (t ++ split_calls ts (i, p)) (put_all [split_output ts (i, p)] w)).
Proof.
  intros R Hp [Hput Hsign]. unfold Split.split_one.
  rewrite (bind_returned _ _ _ _ _ (create_ok w t)).
  rewrite (bind_returned _ _ _ _ _ (copyPages_one pdf i p _ Hp)).
  cbn [head]. rewrite bind_of_option_Some.
  change (addPage {| pages := [] |} p) with (single p).
  rewrite (bind_returned _ _ _ _ _ (save_ok w _ _ None)).
  unfold Split.uploadPageToS3. rewrite bind_assoc.
  unfold bind at 1. unfold send_put. cbn [faults logs]. rewrite R.
  cbn [fst snd] in Hput, Hsign. unfold split_key in Hput, Hsign. rewrite Hput.
  unfold bind, getSignedUrl. simpl. rewrite R, Hsign.
  unfold ret, split_calls, split_result, split_output, split_key, put_all, upload_calls.
  simpl. f_equal. unfold log, logs, store. simpl. f_equal.
  by rewrite <- !app_assoc.
Qed.

Lemma split_one_refused pdf ts acc i p w t :
  refuses P w -> pages pdf !! i = Some p ->
  P (Send (PutObjectCommand (split_key ts i) (PDF_serialize None (single p))
             "application/pdf")) = true ->
  Split.split_one pdf ts acc i (logs t w)
    = (Thrown ServiceError, logs (t ++ refused_split_calls ts (i, p)) w).
Proof.
  intros R Hp Hput. unfold Split.split_one.
  rewrite (bind_returned _ _ _ _ _ (create_ok w t)).
  rewrite (bind_returned _ _ _ _ _ (copyPages_one pdf i p _ Hp)).
  cbn [head]. rewrite bind_of_option_Some.
  change (addPage {| pages := [] |} p) with (single p).
  rewrite (bind_returned _ _ _ _ _ (save_ok w _ _ None)).
  unfold Split.uploadPageToS3. rewrite bind_assoc.
  unfold bind at 1. unfold send_put. cbn [faults logs]. rewrite R.
  unfold split_key in Hput. rewrite Hput.
  unfold refused_split_calls, split_key. simpl. f_equal.
  unfold log, logs. simpl. f_equal. by rewrite <- !app_assoc.
Qed.

Lemma split_loop_at pdf ts ps : forall pre post acc t w,
  refuses P w -> pages pdf = pre ++ ps ++ post ->
  Forall (page_accepted P ts) (indexed (length pre) ps) ->
  for_each (Split.split_one pdf ts) (seq (length pre) (length ps)) acc (logs t w)
    = (Returned (acc ++ (split_result w ts <$> indexed (length pre) ps)),
       logs (t ++ (indexed (length pre) ps ≫= split_calls ts))
            (put_all (split_output ts <$> indexed (length pre) ps) w)).
Proof.
  induction ps as [| p ps IH]; intros pre post acc t w R Hpages Hall.
  - simpl. unfold ret. by rewrite !app_nil_r.
  - assert (Hp : pages pdf !! length pre = Some p)
      by (rewrite Hpages; apply list_lookup_middle; done).
    cbn [indexed] in Hall. apply Forall_cons in Hall as [Hacc Hall].
    cbn [length seq for_each].
    rewrite (bind_returned _ _ _ _ _ (split_one_at pdf ts acc _ p w t R Hp Hacc)).
    specialize (IH (pre ++ [p]) post (acc ++ [split_result w ts (length pre, p)])
                   (t ++ split_calls ts (length pre, p))
                   (put_all [split_output ts (length pre, p)] w)).
    rewrite length_app, Nat.add_1_r in IH.
    rewrite IH; [| by apply refuses_put_all | by rewrite <- app_assoc | done].
    cbn [indexed fmap list_fmap mbind list_bind]. f_equal.
    + f_equal. by rewrite <- app_assoc.
    + by rewrite <- app_assoc.
Qed.

(** split when the write of one page is refused: the pages before it are
    stored, the run ends there. *)
Lemma split_run_refused event body s done p rest w :
  parsed_body event = Some body ->
  get_field "fileKey" body = Some (JStr (src_key s)) ->
  src_key s <> "" ->
  (forall K, P (Send (GetObjectCommand K)) = false) ->
  refuses P w ->
  fetched w None s ->
  pages (src_doc s) = done ++ p :: rest ->
  (2 <= length (pages (src_doc s)))%nat ->
  Forall (page_accepted P (clock w)) (indexed 0 done) ->
  P (Send (PutObjectCommand (split_key (clock w) (length done))
             (PDF_serialize None (single p)) "application/pdf")) = true ->
  Split.handler event w
    = (Thrown ServiceError,
       logs (fetch_calls None s ++ (indexed 0 done ≫= split_calls (clock w))
               ++ refused_split_calls (clock w) (length done, p))
            (put_all (split_output (clock w) <$> indexed 0 done) w)).
Proof.
  intros Hb Hf Hk Hfetch R (o & Ho & Hd & Hpdf) Hpages Hlen Hall Hput.
  rewrite <- (logs_nil w) at 1.
  unfold Split.handler, JSON_parse, destructure, Split.downloadPdfFromS3.
  rewrite Hb, bind_of_option_Some, Hf, bind_of_option_Some.
  cbn [truthy negb]. rewrite bool_decide_eq_false_2 by done. cbn [negb].
  rewrite (bind_returned _ _ _ _ _ (download_at P Hfetch w [] _ o _ R Ho Hd)).
  rewrite (bind_returned _ _ _ _ _ (load_ok w _ _ None _ Hpdf)).
  cbv zeta. unfold getPageCount.
  destruct (Nat.ltb_spec (length (pages (src_doc s))) 2) as [? | _]; [lia |].
  rewrite (bind_returned _ _ _ _ _ (Date_now_ok w _)).
  assert (Hp : pages (src_doc s) !! length done = Some p)
    by (rewrite Hpages; apply list_lookup_middle; done).
  pose proof (split_loop_at (src_doc s) (clock w) done [] (p :: rest) []
                (([] ++ [Send (GetObjectCommand (JStr (src_key s)))])
                   ++ [PdfLoad (src_bytes s) None])
                w R Hpages Hall) as Hloop.
  cbn [length] in Hloop.
  erewrite bind_thrown; [reflexivity |].
  rewrite Hpages at 1. rewrite length_app, seq_app, for_each_app.
  rewrite (bind_returned _ _ _ _ _ Hloop).
  cbn [length seq for_each]. rewrite Nat.add_0_l.
  erewrite bind_thrown;
    [| apply split_one_refused; [by apply refuses_put_all | exact Hp | exact Hput]].
  reflexivity.
Qed.
End SplitOracle.

Lemma signing_only_accepts_fetches K : is_signing (Send (GetObjectCommand K)) = false.
Proof. reflexivity. Qed.

Lemma write_under_accepts_fetches k K : is_write_under k (Send (GetObjectCommand K)) = false.
Proof. reflexivity. Qed.

Lemma nothing_refused_accepts_fetches K : (fun _ : Call => false) (Send (GetObjectCommand K)) = false.
Proof. reflexivity. Qed.

Lemma indexed_elem {A} (l : list A) i j x :
  (j, x) ∈ indexed i l -> (i <= j < i + length l)%nat.
Proof.
  intros Hin. apply (list_elem_of_fmap_2 fst) in Hin.
  rewrite indexed_fst in Hin. apply elem_of_seq in Hin. simpl in Hin. lia.
Qed.

Lemma pages_before_accepted `{!PdfLib} ts (done : list Page) :
  Forall (page_accepted (is_write_under (split_key ts (length done))) ts)
         (indexed 0 done).
Proof.
  apply Forall_forall. intros [i q] Hin%indexed_elem. split; [| reflexivity].
  cbn [fst snd is_write_under]. apply bool_decide_eq_false.
  intros E%split_key_inj. lia.
Qed.

Lemma last_upload (l1 l2 : list Call) a b : last (l1 ++ l2 ++ [a; b]) = Some b.
Proof. change [a; b] with ([a] ++ [b]). by rewrite !app_assoc, last_snoc. Qed.

(** X13. When the signer refuses, and the storage service does not, merge,
    compress and rotate on usable sources throw a ServiceError after the
    write.  The output stays in the bucket under the output key, the refused
    signing is the last call, and no response names the object. *)
Theorem unsigned_output_remains `{!Runtime, !PdfLib}
    (event : LambdaEvent) (body : JSValue) (w : World) :
  parsed_body event = Some body ->
  refuses is_signing w ->
  (forall srcs,
      get_field "fileKeys" body = Some (JArr (JStr ∘ src_key <$> srcs)) ->
      (2 <= length srcs)%nat ->
      Forall (fetched w None) srcs ->
      let bytes := PDF_serialize None {| pages := concat (pages ∘ src_doc <$> srcs) |} in
      let outputKey := "processed/merged-" +:+ pretty (clock w) +:+ ".pdf" in
      exists w',
        Merge.handler event w = (Thrown ServiceError, w') /\
        bucket w' = <[outputKey := written bytes]> (bucket w) /\
        last (trace w') = Some (Presign (GetObjectCommand (JStr outputKey)) 3600)) /\
  (forall s o,
      get_field "fileKey" body = Some (JStr (src_key s)) ->
      src_key s <> "" ->
      bucket w !! src_key s = Some o ->
      delivered o = Some (src_bytes s) ->
      PDF_parse (Some true) (src_bytes s) = Some (src_doc s) ->
      let bytes := PDF_serialize (Some true) (src_doc s) in
      let outputKey := "processed/compressed-" +:+ pretty (clock w) +:+ ".pdf" in
      exists w',
        Compress.handler event w = (Thrown ServiceError, w') /\
        bucket w' = <[outputKey := written bytes]> (bucket w) /\
        last (trace w') = Some (Presign (GetObjectCommand (JStr outputKey)) 3600)) /\
  (forall s angle,
      get_field "fileKey" body = Some (JStr (src_key s)) ->
      get_field "rotation" body = Some angle ->
      src_key s <> "" ->
      Rotate.validateRotation angle = true ->
      fetched w None s ->
      let bytes := PDF_serialize None
                     (Rotate.rotate_pages (to_Z (Number angle)) (src_doc s)) in
      let outputKey := "processed/rotated-" +:+ pretty (clock w) +:+ ".pdf" in
      exists w',
        Rotate.handler event w = (Thrown ServiceError, w') /\
        bucket w' = <[outputKey := written bytes]> (bucket w) /\
        last (trace w') = Some (Presign (GetObjectCommand (JStr outputKey)) 3600)).
Proof.
  intros Hb R. split; [| split].
  - intros srcs Hf Hlen Hall bytes outputKey.
    pose proof (merge_reaches_upload is_signing signing_only_accepts_fetches
                  event body srcs w [] Hb Hf Hlen R Hall) as Hrun.
    rewrite logs_nil in Hrun. cbv zeta in Hrun. rewrite Hrun.
    erewrite bind_thrown;
      [| unfold Merge.uploadPdfToS3; rewrite (upload_at is_signing); [reflexivity | exact R]].
    eexists. split; [reflexivity |]. split; [reflexivity |].
    apply last_upload.
  - intros s o Hf Hk Ho Hd Hpdf bytes outputKey.
    pose proof (compress_reaches_upload is_signing signing_only_accepts_fetches
                  event body s o w [] Hb Hf Hk R Ho Hd Hpdf) as Hrun.
    rewrite logs_nil in Hrun. cbv zeta in Hrun. rewrite Hrun.
    erewrite bind_thrown;
      [| unfold Compress.uploadCompressedPdfToS3; rewrite (upload_at is_signing); [reflexivity | exact R]].
    eexists. split; [reflexivity |]. split; [reflexivity |].
    apply last_upload.
  - intros s angle Hf Hr Hk Hvalid Hs bytes outputKey.
    pose proof (rotate_reaches_upload is_signing signing_only_accepts_fetches
                  event body s angle w [] Hb Hf Hr Hk Hvalid R Hs) as Hrun.
    rewrite logs_nil in Hrun. cbv zeta in Hrun. rewrite Hrun.
    erewrite bind_thrown;
      [| unfold Rotate.uploadRotatedPdfToS3; rewrite (upload_at is_signing); [reflexivity | exact R]].
    eexists. split; [reflexivity |]. split; [reflexivity |].
    apply last_upload.
Qed.

Lemma unsigned_output_remains_witness :
  refuses is_signing Worlds.unsigned_world /\
  exists w',
    @Merge.handler Sample.runtime Sample.pdf
       (Sample.request [("fileKeys", JArr [JStr "uploads/a.pdf"; JStr "uploads/b.pdf"])])
       Worlds.unsigned_world
      = (Thrown ServiceError, w') /\
    bucket w' !! "processed/merged-1709123456789.pdf"
      = Some (written [Byte.x41; Byte.x00; Byte.x42; Byte.x03; Byte.x43; Byte.x01]).
Proof.
  assert (R : refuses is_signing Worlds.unsigned_world) by (intros ? ?; reflexivity).
  split; [exact R |].
  destruct (proj1 (@unsigned_output_remains Sample.runtime Sample.pdf
                     (Sample.request [("fileKeys", JArr [JStr "uploads/a.pdf"; JStr "uploads/b.pdf"])])
                     (obj [("fileKeys", JArr [JStr "uploads/a.pdf"; JStr "uploads/b.pdf"])])
                     Worlds.unsigned_world eq_refl R)
              [ {| src_key := "uploads/a.pdf"; src_bytes := Sample.a_pdf;
                   src_doc := {| pages := [{| content := [Byte.x41]; rotation := 0 |};
                                           {| content := [Byte.x42]; rotation := 270 |}] |} |};
                {| src_key := "uploads/b.pdf"; src_bytes := Sample.b_pdf;
                   src_doc := {| pages := [{| content := [Byte.x43]; rotation := 90 |}] |} |} ])
    as (w' & Hrun & Hbucket & _).
  - reflexivity.
  - simpl. lia.
  - repeat constructor.
    + exists (Sample.object Sample.a_pdf). repeat split; reflexivity.
    + exists (Sample.object Sample.b_pdf). repeat split; reflexivity.
  - exists w'. split; [exact Hrun |]. rewrite Hbucket. apply lookup_insert_eq.
Defined.

(** X14. split is not atomic.  When the write of the page of index j is
    refused, every other call being accepted, the run throws a ServiceError
    there: the j pages before it have been written and signed and stay in
    the bucket, each under its key, and every other key is as it was. *)
Theorem split_keeps_pages_written_before_refusal `{!PdfLib}
    (event : LambdaEvent) (body : JSValue) (s : Source)
    (done : list Page) (p : Page) (rest : list Page) (w : World) :
  parsed_body event = Some body ->
  get_field "fileKey" body = Some (JStr (src_key s)) ->
  src_key s <> "" ->
  fetched w None s ->
  pages (src_doc s) = done ++ p :: rest ->
  (2 <= length (pages (src_doc s)))%nat ->
  refuses (is_write_under (split_key (clock w) (length done))) w ->
  exists w',
    Split.handler event w = (Thrown ServiceError, w') /\
    trace w' = trace w ++ fetch_calls None s
                 ++ (indexed 0 done ≫= split_calls (clock w))
                 ++ refused_split_calls (clock w) (length done, p) /\
    (forall i q,
        done !! i = Some q ->
        bucket w' !! split_key (clock w) i
          = Some (written (PDF_serialize None (single q)))) /\
    (forall k,
        (forall i, (i < length done)%nat -> k <> split_key (clock w) i) ->
        bucket w' !! k = bucket w !! k).
Proof.
  intros Hb Hf Hk Hs Hpages Hlen R.
  pose proof (split_run_refused _ event body s done p rest w Hb Hf Hk
                (write_under_accepts_fetches _) R Hs Hpages Hlen
                (pages_before_accepted _ _)) as Hrun.
  rewrite Hrun.
  2: { cbn [is_write_under]. by apply bool_decide_eq_true. }
  eexists. split; [reflexivity |].
  split; [cbn [trace logs]; by rewrite trace_put_all |].
  cbn [bucket logs]. split.
  - intros i q Hq. apply bucket_put_all_in; [apply split_keys_NoDup |].
    apply list_elem_of_lookup_2 with i.
    rewrite list_lookup_fmap, (indexed_lookup _ 0 i q Hq). reflexivity.
  - intros k Hne. apply bucket_put_all_notin.
    rewrite <- list_fmap_compose.
    intros ([i q] & -> & [_ Hi]%indexed_elem)%list_elem_of_fmap.
    by apply (Hne i).
Qed.

Lemma split_keeps_pages_written_before_refusal_witness :
  refuses (is_write_under (split_key (clock Worlds.third_page_refused) 2))
          Worlds.third_page_refused /\
  exists w',
    @Split.handler Sample.pdf
       (Sample.request [("fileKey", JStr "uploads/c.pdf")]) Worlds.third_page_refused
      = (Thrown ServiceError, w') /\
    bucket w' !! "processed/split-1709123456789-page-2.pdf"
      = Some (written [Byte.x45; Byte.x00]) /\
    bucket w' !! "processed/split-1709123456789-page-3.pdf" = None.
Proof.
  assert (R : refuses (is_write_under (split_key (clock Worlds.third_page_refused) 2))
                      Worlds.third_page_refused) by (intros ? ?; reflexivity).
  split; [exact R |].
  destruct (@split_keeps_pages_written_before_refusal Sample.pdf
              (Sample.request [("fileKey", JStr "uploads/c.pdf")])
              (obj [("fileKey", JStr "uploads/c.pdf")])
              {| src_key := "uploads/c.pdf"; src_bytes := Sample.c_pdf;
                 src_doc := {| pages := [{| content := [Byte.x44]; rotation := 0 |};
                                         {| content := [Byte.x45]; rotation := 0 |};
                                         {| content := [Byte.x46]; rotation := 0 |}] |} |}
              [{| content := [Byte.x44]; rotation := 0 |};
               {| content := [Byte.x45]; rotation := 0 |}]
              {| content := [Byte.x46]; rotation := 0 |} []
              Worlds.third_page_refused)
    as (w' & Hrun & _ & Hdone & Hother).
  - reflexivity.
  - reflexivity.
  - discriminate.
  - exists (Sample.object Sample.c_pdf). repeat split; reflexivity.
  - reflexivity.
  - simpl. lia.
  - exact R.
  - exists w'. split; [exact Hrun |]. split.
    + exact (Hdone 1%nat _ eq_refl).
    + rewrite (Hother "processed/split-1709123456789-page-3.pdf"); [reflexivity |].
      intros i Hi. destruct i as [| [| i]]; [discriminate | discriminate |].
      simpl in Hi. lia.
Defined.

(** X15. A compress request on a source that downloads and decodes
    (encryption ignored), no call failing, is answered with 200.  The object
    stored under [processed/compressed-<now>.pdf] is the source document
    saved with object streams; the response reports the declared size of
    the source and the length of the stored bytes, each through
    [formatBytes], and the clamped percentage computed from the two. *)
Theorem compress_stores_reserialised_document `{!Runtime, !PdfLib}
    (event : LambdaEvent) (body : JSValue) (s : Source) (o : StoredObject) (w : World) :
  parsed_body event = Some body ->
  get_field "fileKey" body = Some (JStr (src_key s)) ->
  src_key s <> "" ->
  fault_free w ->
  bucket w !! src_key s = Some o ->
  delivered o = Some (src_bytes s) ->
  PDF_parse (Some true) (src_bytes s) = Some (src_doc s) ->
  let bytes := PDF_serialize (Some true) (src_doc s) in
  let compressedSize := N.of_nat (length bytes) in
  let outputKey := "processed/compressed-" +:+ pretty (clock w) +:+ ".pdf" in
  exists r w',
    Compress.handler event w = (Returned r, w') /\
    statusCode r = 200 /\
    trace w' = trace w ++ fetch_calls (Some true) s
                 ++ PdfSave (src_doc s) (Some true) :: upload_calls outputKey bytes /\
    bucket w' = <[outputKey := written bytes]> (bucket w) /\
    body_field "message" r = Some (JStr "PDF compressed successfully") /\
    body_field "outputKey" r = Some (JStr outputKey) /\
    body_field "downloadUrl" r
      = Some (JStr (signer w (GetObjectCommand (JStr outputKey)) 3600)) /\
    body_field "originalSize" r = Some (JStr (Compress.formatBytes (ContentLength o))) /\
    body_field "compressedSize" r
      = Some (JStr (Compress.formatBytes (Some compressedSize))) /\
    body_field "savedPercent" r
      = Some (JNum (Compress.reported
                      (Compress.savedPercent compressedSize (ContentLength o)))).
Proof.
  intros Hb Hf Hk F Ho Hd Hpdf bytes compressedSize outputKey.
  pose proof (compress_reaches_upload (fun _ => false) nothing_refused_accepts_fetches
                event body s o w [] Hb Hf Hk F Ho Hd Hpdf) as Hrun.
  rewrite logs_nil in Hrun. cbv zeta in Hrun. rewrite Hrun.
  erewrite bind_returned;
    [| unfold Compress.uploadCompressedPdfToS3;
       rewrite (upload_at (fun _ => false)); [reflexivity | exact F]].
  eexists _, _. split; [reflexivity |]. split; [reflexivity |].
  split; [cbn [trace logs store app]; by rewrite <- !app_assoc |].
  repeat split; reflexivity.
Qed.

Lemma compress_stores_reserialised_document_witness :
  exists r w',
    @Compress.handler Sample.runtime Sample.pdf
       (Sample.request [("fileKey", JStr "uploads/d.pdf")]) Sample.world
      = (Returned r, w') /\
    statusCode r = 200 /\
    bucket w' = <["processed/compressed-1709123456789.pdf" := written [Byte.x47; Byte.x00]]>
                  (bucket Sample.world) /\
    body_field "originalSize" r = Some (JStr "3 B") /\
    body_field "compressedSize" r = Some (JStr "2 B").
Proof.
  destruct (@compress_stores_reserialised_document Sample.runtime Sample.pdf
              (Sample.request [("fileKey", JStr "uploads/d.pdf")])
              (obj [("fileKey", JStr "uploads/d.pdf")])
              {| src_key := "uploads/d.pdf"; src_bytes := Sample.d_pdf;
                 src_doc := {| pages := [{| content := [Byte.x47]; rotation := 0 |}] |} |}
              (Sample.object Sample.d_pdf) Sample.world)
    as (r & w' & Hrun & Hstatus & _ & Hbucket & _ & _ & _ & Horig & Hcomp & _).
  - reflexivity.
  - reflexivity.
  - discriminate.
  - intros ? ?. reflexivity.
  - reflexivity.
  - reflexivity.
  - reflexivity.
  - exists r, w'. split; [exact Hrun |]. split; [exact Hstatus |].
    split; [exact Hbucket |]. split; [exact Horig | exact Hcomp].
Defined.

(** ** Output keys *)

Lemma pretty_N_char_digit x : is_digit (pretty_N_char x) = true.
Proof. unfold pretty_N_char. by repeat case_match. Qed.

Lemma pretty_N_go_digits x : forall s,
  all_digits s = true -> all_digits (pretty_N_go x s) = true.
Proof.
  induction (N.lt_wf_0 x) as [x _ IH]; intros s Hs.
  assert (x = 0 \/ 0 < x)%N as [-> | Hpos] by lia.
  - by rewrite pretty_N_go_0.
  - rewrite pretty_N_go_step by done. apply IH.
    + by apply N.div_lt.
    + cbn [all_digits]. by rewrite pretty_N_char_digit.
Qed.

Lemma pretty_N_go_nonempty x s : s <> "" -> pretty_N_go x s <> "".
Proof.
  revert s. induction (N.lt_wf_0 x) as [x _ IH]; intros s Hs.
  assert (x = 0 \/ 0 < x)%N as [-> | Hpos] by lia.
  - by rewrite pretty_N_go_0.
  - rewrite pretty_N_go_step by done. apply IH; [by apply N.div_lt | done].
Qed.

Lemma pretty_positive_digits (p : positive) :
  all_digits (pretty p) = true /\ pretty p <> "".
Proof.
  unfold pretty, pretty_positive, pretty, pretty_N.
  destruct (decide (N.pos p = 0%N)) as [? | _]; [done |].
  split; [by apply pretty_N_go_digits |].
  rewrite pretty_N_go_step by done. by apply pretty_N_go_nonempty.
Qed.

(** A decimal numeral is digits, after a sign when it is negative. *)
Lemma pretty_Z_digits (z : Z) :
  exists d, all_digits d = true /\ d <> "" /\
            (pretty z = d \/ pretty z = "-" +:+ d).
Proof.
  destruct z as [| p | p].
  - exists "0". by auto.
  - exists (pretty p). destruct (pretty_positive_digits p). auto.
  - exists (pretty p). destruct (pretty_positive_digits p). auto.
Qed.

Lemma digits_then_dash d1 d2 t1 t2 :
  all_digits d1 = true -> all_digits d2 = true ->
  d1 +:+ String "-" t1 = d2 +:+ String "-" t2 -> d1 = d2 /\ t1 = t2.
Proof.
  revert d2. induction d1 as [| c d1 IH]; intros [| c2 d2] H1 H2 E;
    cbn [all_digits] in *; simpl in E.
  - by injection E.
  - injection E as <- _. by apply andb_true_iff in H2 as [? _].
  - injection E as -> _. by apply andb_true_iff in H1 as [? _].
  - injection E as -> E.
    apply andb_true_iff in H1 as [_ H1]. apply andb_true_iff in H2 as [_ H2].
    destruct (IH d2 H1 H2 E) as [-> ->]. done.
Qed.

(** Where a numeral ends and a dash begins can be read in one way only. *)
Lemma numeral_then_dash (a b : Z) t1 t2 :
  pretty a +:+ String "-" t1 = pretty b +:+ String "-" t2 -> a = b /\ t1 = t2.
Proof.
  destruct (pretty_Z_digits a) as (da & Hda & Hna & Ea).
  destruct (pretty_Z_digits b) as (db & Hdb & Hnb & Eb).
  intros E.
  assert (pretty a = pretty b /\ t1 = t2) as [Hp Ht];
    [| split; [by apply pretty_Z_inj | done]].
  destruct Ea as [Ea | Ea], Eb as [Eb | Eb]; rewrite Ea, Eb in E |- *.
  - destruct (digits_then_dash _ _ _ _ Hda Hdb E) as [-> ->]. done.
  - destruct da as [| c da]; [done |]. simpl in E. injection E as -> _.
    cbn [all_digits] in Hda. by apply andb_true_iff in Hda as [? _].
  - destruct db as [| c db]; [done |]. simpl in E. injection E as <- _.
    cbn [all_digits] in Hdb. by apply andb_true_iff in Hdb as [? _].
  - simpl in E. injection E as E.
    destruct (digits_then_dash _ _ _ _ Hda Hdb E) as [-> ->]. done.
Qed.

Lemma page_key_inj_both ts1 n1 ts2 n2 :
  Split.page_key ts1 n1 = Split.page_key ts2 n2 -> ts1 = ts2 /\ n1 = n2.
Proof.
  unfold Split.page_key. intros E.
  apply String.app_inj in E.
  change ("-page-" +:+ pretty n1 +:+ ".pdf")
    with (String "-" ("page-" +:+ pretty n1 +:+ ".pdf")) in E.
  change ("-page-" +:+ pretty n2 +:+ ".pdf")
    with (String "-" ("page-" +:+ pretty n2 +:+ ".pdf")) in E.
  apply numeral_then_dash in E as [-> E]. split; [done |].
  apply String.app_inj in E. apply string_app_inj_r in E.
  by apply pretty_Z_inj in E.
Qed.

Lemma stamped_key_inj (prefix : string) (ts1 ts2 : Z) :
  prefix +:+ pretty ts1 +:+ ".pdf" = prefix +:+ pretty ts2 +:+ ".pdf" -> ts1 = ts2.
Proof.
  intros E. apply String.app_inj in E. apply string_app_inj_r in E.
  by apply pretty_Z_inj in E.
Qed.

Lemma own_key_writer op1 ts1 op2 ts2 k :
  own_key op1 ts1 k -> own_key op2 ts2 k -> op1 = op2 /\ ts1 = ts2.
Proof.
  destruct op1, op2; cbn [own_key]; intros H1 H2;
    try destruct H1 as (n1 & _ & H1); try destruct H2 as (n2 & _ & H2);
    rewrite H1 in H2;
    try (unfold Split.page_key in H2; simpl in H2; discriminate H2);
    (split; [reflexivity |]).
  - by eapply stamped_key_inj.
  - by apply page_key_inj_both in H2 as [-> _].
  - by eapply stamped_key_inj.
  - by eapply stamped_key_inj.
Qed.

(** X16. An output key tells which operation wrote it and at which reading
    of the clock.  Keys of different operations never coincide, keys of one
    operation at different readings never coincide, and a split key
    determines its page number.  Every output key starts with
    [processed/]. *)
Theorem output_key_determines_its_writer
    (op1 op2 : Operation) (ts1 ts2 : Z) (k : string) :
  own_key op1 ts1 k -> own_key op2 ts2 k ->
  op1 = op2 /\ ts1 = ts2 /\ output_key k = true /\
  (forall n1 n2, k = Split.page_key ts1 n1 -> k = Split.page_key ts2 n2 -> n1 = n2).
Proof.
  intros H1 H2. destruct (own_key_writer _ _ _ _ _ H1 H2) as [-> ->].
  split; [done |]. split; [done |]. split; [by eapply own_key_output |].
  intros n1 n2 -> E. by apply page_key_inj_both in E as [_ ->].
Qed.

Lemma output_key_determines_its_writer_witness :
  own_key splitting 1709123456789 "processed/split-1709123456789-page-2.pdf" /\
  forall op ts,
    own_key op ts "processed/split-1709123456789-page-2.pdf" ->
    op = splitting /\ ts = 1709123456789.
Proof.
  assert (Hown : own_key splitting 1709123456789
                   "processed/split-1709123456789-page-2.pdf").
  { exists 2. split; [lia | reflexivity]. }
  split; [exact Hown |].
  intros op ts Hop.
  destruct (output_key_determines_its_writer op splitting ts 1709123456789 _ Hop Hown)
    as (-> & -> & _). done.
Defined.

(** ** Two runs at one clock reading *)

Section Collisions.
Context `{!Runtime, !PdfLib}.

Lemma writes_fetch_all opt items : forall srcs,
  writes (concat (zip_with (fetch_as opt) items srcs)) = [].
Proof.
  induction items as [| K items IH]; intros [| s srcs]; try done.
  cbn [zip_with concat fetch_as app]. apply IH.
Qed.

(** A 200 of merge, compress or rotate: one object written, under the key of
    the operation for the reading of the clock; it is the last serialisation
    of the run, and what comes before it writes nothing. *)
Lemma single_output op event w r w' :
  op <> splitting ->
  handler_of op event w = (Returned r, w') ->
  statusCode r = 200 ->
  exists t d opt,
    let k := match op with
             | merging => "processed/merged-" +:+ pretty (clock w) +:+ ".pdf"
             | compressing => "processed/compressed-" +:+ pretty (clock w) +:+ ".pdf"
             | _ => "processed/rotated-" +:+ pretty (clock w) +:+ ".pdf"
             end in
    let b := PDF_serialize opt d in
    writes t = [] /\
    w' = logs (t ++ PdfSave d opt :: upload_calls k b) (store k (written b) w) /\
    body_field "outputKey" r = Some (JStr k) /\
    body_field "downloadUrl" r = Some (JStr (signer w (GetObjectCommand (JStr k)) 3600)).
Proof.
  intros Hop Hrun Hstatus. destruct op; [| done | |]; cbn [handler_of] in Hrun.
  - destruct (merge_success event w r w' Hrun Hstatus)
      as (_ & _ & items & srcs & _ & _ & _ & _ & _ & _ & Hw & Hkey & Hurl).
    exists (PdfCreate :: concat (zip_with (fetch_as None) items srcs)),
      {| pages := concat (pages ∘ src_doc <$> srcs) |}, None.
    split; [apply (writes_fetch_all None items srcs) |]. by repeat split.
  - destruct (compress_returned event w r w' Hrun Hstatus)
      as (_ & K & s & o & _ & _ & _ & _ & _ & _ & Hw & Hkey & Hurl & _).
    exists (fetch_as (Some true) K s), (src_doc s), (Some true).
    split; [reflexivity |]. by repeat split.
  - destruct (rotate_success event w r w' Hrun Hstatus)
      as (_ & K & s & angle & _ & _ & _ & _ & _ & Hw & Hkey & Hurl & _).
    exists (fetch_as None K s),
      (Rotate.rotate_pages (to_Z (Number angle)) (src_doc s)), None.
    split; [reflexivity |]. by repeat split.
Qed.
End Collisions.

(** The call before an upload. *)
Lemma saved_before_upload (t1 t2 : list Call) d opt k b :
  last (removelast (removelast (t1 ++ t2 ++ PdfSave d opt :: upload_calls k b)))
    = Some (PdfSave d opt).
Proof.
  unfold upload_calls.
  replace (t1 ++ t2 ++ [PdfSave d opt; Send (PutObjectCommand k b "application/pdf");
                        Presign (GetObjectCommand (JStr k)) 3600])
    with (((t1 ++ t2 ++ [PdfSave d opt]) ++ [Send (PutObjectCommand k b "application/pdf")])
            ++ [Presign (GetObjectCommand (JStr k)) 3600])
    by (by rewrite <- !app_assoc).
  rewrite !removelast_last, !app_assoc. apply last_snoc.
Qed.

(** X17. The time stamp in the key does not keep apart two runs that read
    the same clock value.  When merge (or compress, or rotate) answers 200
    twice at one reading of the clock, both responses name the same key and
    the same URL.  Each run ends with the serialisation of a document and
    the upload of those bytes under that key, and writes nothing before; the
    bucket after the second run has one object under the key, the bytes the
    second run serialised and wrote: the first output is overwritten. *)
Theorem same_clock_outputs_collide `{!Runtime, !PdfLib}
    (op : Operation) (event1 event2 : LambdaEvent)
    (w : World) (r1 : Response) (w1 : World) (r2 : Response) (w2 : World) :
  op <> splitting ->
  handler_of op event1 w = (Returned r1, w1) ->
  statusCode r1 = 200 ->
  handler_of op event2 w1 = (Returned r2, w2) ->
  statusCode r2 = 200 ->
  exists k t1 d1 opt1 t2 d2 opt2,
    let b1 := PDF_serialize opt1 d1 in
    let b2 := PDF_serialize opt2 d2 in
    own_key op (clock w) k /\
    body_field "outputKey" r1 = Some (JStr k) /\
    body_field "outputKey" r2 = Some (JStr k) /\
    body_field "downloadUrl" r1 = body_field "downloadUrl" r2 /\
    trace w1 = trace w ++ t1 ++ PdfSave d1 opt1 :: upload_calls k b1 /\
    trace w2 = trace w1 ++ t2 ++ PdfSave d2 opt2 :: upload_calls k b2 /\
    writes t1 = [] /\
    writes t2 = [] /\
    bucket w1 = <[k := written b1]> (bucket w) /\
    bucket w2 = <[k := written b2]> (bucket w) /\
    bucket w2 !! k = Some (written b2).
Proof.
  intros Hop Hrun1 Hstatus1 Hrun2 Hstatus2.
  destruct (single_output op event1 w r1 w1 Hop Hrun1 Hstatus1)
    as (t1 & d1 & opt1 & Hq1 & Hw1 & Hkey1 & Hurl1).
  destruct (single_output op event2 w1 r2 w2 Hop Hrun2 Hstatus2)
    as (t2 & d2 & opt2 & Hq2 & Hw2 & Hkey2 & Hurl2).
  cbv zeta in *. rewrite Hw1 in Hw2, Hkey2, Hurl2. cbn [clock logs store signer] in *.
  eexists _, t1, d1, opt1, t2, d2, opt2. split; [| split; [exact Hkey1 |]].
  { by destruct op. }
  split; [exact Hkey2 |]. split; [by rewrite Hurl1, Hurl2 |].
  subst w1 w2. cbn [bucket trace logs store].
  split; [reflexivity |]. split; [reflexivity |].
  split; [exact Hq1 |]. split; [exact Hq2 |].
  split; [reflexivity |].
  split; [apply insert_insert_eq | apply lookup_insert_eq].
Qed.

Lemma same_clock_outputs_collide_witness :
  exists r1 w1 r2 w2 d2,
    @handler_of Sample.runtime Sample.pdf merging
       (Sample.request [("fileKeys", JArr [JStr "uploads/a.pdf"; JStr "uploads/b.pdf"])])
       Sample.world
      = (Returned r1, w1) /\
    @handler_of Sample.runtime Sample.pdf merging
       (Sample.request [("fileKeys", JArr [JStr "uploads/b.pdf"; JStr "uploads/c.pdf"])])
       w1
      = (Returned r2, w2) /\
    body_field "outputKey" r1 = Some (JStr "processed/merged-1709123456789.pdf") /\
    body_field "outputKey" r2 = Some (JStr "processed/merged-1709123456789.pdf") /\
    length (pages d2) = 4%nat /\
    bucket w2
      = <["processed/merged-1709123456789.pdf" :=
            written (@PDF_serialize Sample.pdf None d2)]> (bucket Sample.world).
Proof.
  pose (run1 := @handler_of Sample.runtime Sample.pdf merging
                  (Sample.request [("fileKeys", JArr [JStr "uploads/a.pdf"; JStr "uploads/b.pdf"])])
                  Sample.world).
  pose (r1 := match fst run1 with Returned r => r | Thrown _ => Merge.too_few end).
  pose (run2 := @handler_of Sample.runtime Sample.pdf merging
                  (Sample.request [("fileKeys", JArr [JStr "uploads/b.pdf"; JStr "uploads/c.pdf"])])
                  (snd run1)).
  pose (r2 := match fst run2 with Returned r => r | Thrown _ => Merge.too_few end).
  assert (Hrun1 : run1 = (Returned r1, snd run1)) by (vm_compute; reflexivity).
  assert (Hrun2 : run2 = (Returned r2, snd run2)) by (vm_compute; reflexivity).
  assert (Hstatus1 : statusCode r1 = 200) by (vm_compute; reflexivity).
  assert (Hstatus2 : statusCode r2 = 200) by (vm_compute; reflexivity).
  assert (Hop : merging <> splitting) by discriminate.
  destruct (@same_clock_outputs_collide Sample.runtime Sample.pdf merging _ _ _ _ _ _ _
              Hop Hrun1 Hstatus1 Hrun2 Hstatus2)
    as (k & t1 & d1 & opt1 & t2 & d2 & opt2 & Hown & Hkey1 & Hkey2 & _ & _ & Htrace
        & _ & _ & _ & Hbucket & _).
  cbn [own_key] in Hown. change (clock Sample.world) with 1709123456789 in Hown.
  rewrite Hown in Hkey1, Hkey2, Hbucket, Htrace.
  assert (Hsaved : last (removelast (removelast (trace (snd run2))))
                   = Some (PdfSave d2 opt2)).
  { rewrite Htrace. apply saved_before_upload. }
  vm_compute in Hsaved. injection Hsaved as <- <-.
  exists r1, (snd run1), r2, (snd run2). eexists.
  split; [exact Hrun1 |]. split; [exact Hrun2 |].
  split; [exact Hkey1 |]. split; [exact Hkey2 |].
  split; [| exact Hbucket]. reflexivity.
Defined.

(** ** One handler after another *)

Lemma delivered_written b : delivered (written b) = Some b.
Proof. unfold delivered, written. cbn. by rewrite app_nil_r. Qed.

Lemma indexed_snd {A} (l : list A) i : (indexed i l).*2 = l.
Proof. revert i. induction l as [| x l IH]; intros i; simpl; [done | by rewrite IH]. Qed.

Lemma concat_singletons {A} (l : list A) : concat ((fun x => [x]) <$> l) = l.
Proof.
  induction l as [| x l IH]; [done |].
  rewrite fmap_cons. cbn [concat app]. by rewrite IH.
Qed.

Lemma rotate_pages_0 pdf : Rotate.rotate_pages 0 pdf = pdf.
Proof.
  destruct pdf as [ps]. unfold Rotate.rotate_pages, getPages. cbn [pages]. f_equal.
  rewrite <- (list_fmap_id ps) at 2. apply list_fmap_ext. intros _ [c r] _.
  unfold Rotate.rotate_page, setRotation, getRotation. cbn. f_equal. lia.
Qed.

Section Compositions.
Context `{!Runtime, !PdfLib}.

Lemma split_sources_fetched ts (ps : list Page) w :
  Forall (fun p => PDF_parse None (PDF_serialize None (single p)) = Some (single p)) ps ->
  Forall (fetched (put_all (split_output ts <$> indexed 0 ps) w) None)
         (split_source ts <$> indexed 0 ps).
Proof.
  intros Hcodec. apply Forall_fmap, Forall_forall. intros [i p] Hin.
  exists (written (PDF_serialize None (single p))). cbn [split_source src_key src_bytes src_doc fst snd].
  split; [| split; [apply delivered_written |]].
  - apply bucket_put_all_in; [apply split_keys_NoDup |].
    by apply (list_elem_of_fmap_2 (split_output ts)) in Hin.
  - apply (list_elem_of_fmap_2 snd) in Hin. rewrite indexed_snd in Hin.
    by eapply Forall_forall in Hcodec.
Qed.

Lemma split_sources_keys ts (ps : list Page) :
  JStr ∘ src_key <$> (split_source ts <$> indexed 0 ps)
    = JStr ∘ split_key ts <$> seq 0 (length ps).
Proof.
  rewrite <- list_fmap_compose, <- (indexed_fst ps 0), <- list_fmap_compose.
  by apply list_fmap_ext.
Qed.

Lemma split_sources_pages ts (ps : list Page) :
  concat (pages ∘ src_doc <$> (split_source ts <$> indexed 0 ps)) = ps.
Proof.
  rewrite <- list_fmap_compose.
  rewrite (list_fmap_ext _ ((fun p => [p]) ∘ snd) (indexed 0 ps))
    by (by intros ? [? ?]).
  by rewrite (list_fmap_compose snd), indexed_snd, concat_singletons.
Qed.
End Compositions.

(** X18. Splitting and merging back.  Take a source of D >= 2 pages, each
    of which survives being saved alone and loaded again.  Split it, then
    merge the D keys split has written, in the order of the pages: both runs
    are answered with 200 (no call failing), and the object merge stores is
    the serialisation of the source document, page for page. *)
Theorem merging_the_split_pages_restores_the_document `{!Runtime, !PdfLib}
    (event1 event2 : LambdaEvent) (body1 body2 : JSValue) (s : Source) (w : World) :
  fault_free w ->
  fetched w None s ->
  (2 <= getPageCount (src_doc s))%nat ->
  Forall (fun p => PDF_parse None (PDF_serialize None (single p)) = Some (single p))
         (pages (src_doc s)) ->
  parsed_body event1 = Some body1 ->
  get_field "fileKey" body1 = Some (JStr (src_key s)) ->
  src_key s <> "" ->
  parsed_body event2 = Some body2 ->
  get_field "fileKeys" body2
    = Some (JArr (JStr ∘ split_key (clock w) <$> seq 0 (getPageCount (src_doc s)))) ->
  exists r1 w1 r2 w2,
    Split.handler event1 w = (Returned r1, w1) /\
    statusCode r1 = 200 /\
    Merge.handler event2 w1 = (Returned r2, w2) /\
    statusCode r2 = 200 /\
    body_field "outputKey" r2
      = Some (JStr ("processed/merged-" +:+ pretty (clock w) +:+ ".pdf")) /\
    bucket w2 !! ("processed/merged-" +:+ pretty (clock w) +:+ ".pdf")
      = Some (written (PDF_serialize None (src_doc s))).
Proof.
  intros F (o & Ho & Hd & Hpdf) Hlen Hcodec Hb1 Hf1 Hk Hb2 Hf2.
  pose proof (split_run_ok event1 body1 (src_key s) o (src_bytes s) (src_doc s) w []
                Hb1 Hf1 Hk F Ho Hd Hpdf Hlen) as Hrun1.
  rewrite logs_nil in Hrun1. cbv zeta in Hrun1.
  set (ips := indexed 0 (pages (src_doc s))) in *.
  set (w0 := put_all (split_output (clock w) <$> ips) w) in *.
  assert (Hlen2 : (2 <= length (split_source (clock w) <$> ips))%nat).
  { unfold ips. by rewrite length_fmap, indexed_length. }
  assert (Hf2' : get_field "fileKeys" body2
                 = Some (JArr (JStr ∘ src_key <$> (split_source (clock w) <$> ips)))).
  { unfold ips. by rewrite split_sources_keys. }
  pose proof (merge_run_ok event2 body2 (split_source (clock w) <$> ips) w0
                ([] ++ Send (GetObjectCommand (JStr (src_key s)))
                    :: PdfLoad (src_bytes s) None :: ips ≫= split_calls (clock w))
                Hb2 Hf2' Hlen2 (fault_free_put_all _ _ F)
                (split_sources_fetched _ _ _ Hcodec)) as Hrun2.
  cbv zeta in Hrun2. unfold ips in Hrun2. rewrite split_sources_pages in Hrun2.
  eexists _, _, _, _. split; [exact Hrun1 |]. split; [reflexivity |].
  split; [exact Hrun2 |]. split; [reflexivity |].
  assert (Hclock : clock w0 = clock w) by apply clock_put_all.
  rewrite Hclock. split; [reflexivity |]. cbn [bucket logs store].
  rewrite lookup_insert_eq. by destruct (src_doc s).
Qed.

Lemma merging_the_split_pages_restores_the_document_witness :
  exists r1 w1 r2 w2,
    @Split.handler Sample.pdf
       (Sample.request [("fileKey", JStr "uploads/c.pdf")]) Sample.world
      = (Returned r1, w1) /\
    @Merge.handler Sample.runtime Sample.pdf
       (Sample.request
          [("fileKeys", JArr [JStr "processed/split-1709123456789-page-1.pdf";
                              JStr "processed/split-1709123456789-page-2.pdf";
                              JStr "processed/split-1709123456789-page-3.pdf"])])
       w1
      = (Returned r2, w2) /\
    bucket w2 !! "processed/merged-1709123456789.pdf" = Some (written Sample.c_pdf).
Proof.
  destruct (@merging_the_split_pages_restores_the_document Sample.runtime Sample.pdf
              (Sample.request [("fileKey", JStr "uploads/c.pdf")])
              (Sample.request
                 [("fileKeys", JArr [JStr "processed/split-1709123456789-page-1.pdf";
                                     JStr "processed/split-1709123456789-page-2.pdf";
                                     JStr "processed/split-1709123456789-page-3.pdf"])])
              (obj [("fileKey", JStr "uploads/c.pdf")])
              (obj [("fileKeys", JArr [JStr "processed/split-1709123456789-page-1.pdf";
                                       JStr "processed/split-1709123456789-page-2.pdf";
                                       JStr "processed/split-1709123456789-page-3.pdf"])])
              {| src_key := "uploads/c.pdf"; src_bytes := Sample.c_pdf;
                 src_doc := {| pages := [{| content := [Byte.x44]; rotation := 0 |};
                                         {| content := [Byte.x45]; rotation := 0 |};
                                         {| content := [Byte.x46]; rotation := 0 |}] |} |}
              Sample.world)
    as (r1 & w1 & r2 & w2 & Hrun1 & _ & Hrun2 & _ & _ & Hbucket).
  - intros ? ?. reflexivity.
  - exists (Sample.object Sample.c_pdf). repeat split; reflexivity.
  - unfold getPageCount. cbn [src_doc pages length]. lia.
  - repeat constructor.
  - reflexivity.
  - reflexivity.
  - discriminate.
  - reflexivity.
  - reflexivity.
  - exists r1, w1, r2, w2. split; [exact Hrun1 |]. split; [exact Hrun2 | exact Hbucket].
Defined.

(** X19. Rotating what rotate has stored.  When the rotated document
    survives being saved and loaded again, a second rotate request on the
    output key of the first (at the same reading of the clock, no call
    failing) stores the source with the sum of the two angles added to every
    page, under that same key; when the angles cancel (90 and -90) it stores
    the serialisation of the source document itself. *)
Theorem rotating_twice_adds_both_angles `{!Runtime, !PdfLib}
    (event1 event2 : LambdaEvent) (body1 body2 angle1 angle2 : JSValue)
    (s : Source) (w : World) :
  let delta1 := to_Z (Number angle1) in
  let delta2 := to_Z (Number angle2) in
  let outputKey := "processed/rotated-" +:+ pretty (clock w) +:+ ".pdf" in
  let once := Rotate.rotate_pages delta1 (src_doc s) in
  fault_free w ->
  fetched w None s ->
  PDF_parse None (PDF_serialize None once) = Some once ->
  parsed_body event1 = Some body1 ->
  get_field "fileKey" body1 = Some (JStr (src_key s)) ->
  get_field "rotation" body1 = Some angle1 ->
  src_key s <> "" ->
  Rotate.validateRotation angle1 = true ->
  parsed_body event2 = Some body2 ->
  get_field "fileKey" body2 = Some (JStr outputKey) ->
  get_field "rotation" body2 = Some angle2 ->
  Rotate.validateRotation angle2 = true ->
  exists r1 w1 r2 w2,
    Rotate.handler event1 w = (Returned r1, w1) /\
    statusCode r1 = 200 /\
    bucket w1 !! outputKey = Some (written (PDF_serialize None once)) /\
    Rotate.handler event2 w1 = (Returned r2, w2) /\
    statusCode r2 = 200 /\
    bucket w2 !! outputKey
      = Some (written (PDF_serialize None
                         (Rotate.rotate_pages (delta1 + delta2) (src_doc s)))) /\
    (delta1 + delta2 = 0 ->
     bucket w2 !! outputKey = Some (written (PDF_serialize None (src_doc s)))).
Proof.
  intros delta1 delta2 outputKey once F (o & Ho & Hd & Hpdf) Hcodec
    Hb1 Hf1 Hr1 Hk Hvalid1 Hb2 Hf2 Hr2 Hvalid2.
  pose proof (rotate_run_ok event1 body1 (src_key s) angle1 o (src_bytes s) (src_doc s)
                w [] Hb1 Hf1 Hr1 Hk Hvalid1 F Ho Hd Hpdf) as Hrun1.
  rewrite logs_nil in Hrun1. cbv zeta in Hrun1.
  fold delta1 outputKey once in Hrun1.
  set (w0 := store outputKey (written (PDF_serialize None once)) w) in *.
  assert (Hkey : outputKey <> "") by done.
  assert (Ho2 : bucket w0 !! outputKey = Some (written (PDF_serialize None once)))
    by apply lookup_insert_eq.
  pose proof (rotate_run_ok event2 body2 outputKey angle2 _ _ once w0
                ([] ++ Send (GetObjectCommand (JStr (src_key s)))
                    :: PdfLoad (src_bytes s) None :: PdfSave once None
                    :: upload_calls outputKey (PDF_serialize None once))
                Hb2 Hf2 Hr2 Hkey Hvalid2 (fault_free_store _ _ _ F) Ho2
                (delivered_written _) Hcodec) as Hrun2.
  cbv zeta in Hrun2. fold delta2 in Hrun2.
  unfold once in Hrun2. rewrite !rotate_pages_compose in Hrun2.
  eexists _, _, _, _. split; [exact Hrun1 |]. split; [reflexivity |].
  split; [exact Ho2 |]. split; [exact Hrun2 |]. split; [reflexivity |].
  cbn [bucket logs store clock w0]. split.
  - apply lookup_insert_eq.
  - intros ->. rewrite rotate_pages_0. apply lookup_insert_eq.
Qed.

Lemma rotating_twice_adds_both_angles_witness :
  exists r1 w1 r2 w2,
    @Rotate.handler Sample.runtime Sample.pdf
       (Sample.request [("fileKey", JStr "uploads/a.pdf"); ("rotation", JNum (Int 90))])
       Sample.world
      = (Returned r1, w1) /\
    @Rotate.handler Sample.runtime Sample.pdf
       (Sample.request [("fileKey", JStr "processed/rotated-1709123456789.pdf");
                        ("rotation", JNum (Int (-90)))])
       w1
      = (Returned r2, w2) /\
    bucket w2 !! "processed/rotated-1709123456789.pdf" = Some (written Sample.a_pdf).
Proof.
  destruct (@rotating_twice_adds_both_angles Sample.runtime Sample.pdf
              (Sample.request [("fileKey", JStr "uploads/a.pdf"); ("rotation", JNum (Int 90))])
              (Sample.request [("fileKey", JStr "processed/rotated-1709123456789.pdf");
                               ("rotation", JNum (Int (-90)))])
              (obj [("fileKey", JStr "uploads/a.pdf"); ("rotation", JNum (Int 90))])
              (obj [("fileKey", JStr "processed/rotated-1709123456789.pdf");
                    ("rotation", JNum (Int (-90)))])
              (JNum (Int 90)) (JNum (Int (-90)))
              {| src_key := "uploads/a.pdf"; src_bytes := Sample.a_pdf;
                 src_doc := {| pages := [{| content := [Byte.x41]; rotation := 0 |};
                                         {| content := [Byte.x42]; rotation := 270 |}] |} |}
              Sample.world)
    as (r1 & w1 & r2 & w2 & Hrun1 & _ & _ & Hrun2 & _ & _ & Hback).
  - intros ? ?. reflexivity.
  - exists (Sample.object Sample.a_pdf). repeat split; reflexivity.
  - vm_compute. reflexivity.
  - reflexivity.
  - reflexivity.
  - reflexivity.
  - discriminate.
  - vm_compute. reflexivity.
  - reflexivity.
  - reflexivity.
  - reflexivity.
  - vm_compute. reflexivity.
  - exists r1, w1, r2, w2. split; [exact Hrun1 |]. split; [exact Hrun2 |].
    apply Hback. vm_compute. reflexivity.
Defined.

(** ** compress: the sizes it reports *)

Section Sizes.
Context `{!Runtime}.

Lemma savedPercent_at_most_100 c o :
  (forall q, (Qc_of_Z 0 <= q)%Qc -> (Qc_of_Z 0 <= round64 q)%Qc) ->
  (forall q, (q <= Qc_of_Z 1)%Qc -> (round64 q <= Qc_of_Z 1)%Qc) ->
  (forall q, (q <= Qc_of_Z 100)%Qc -> (round64 q <= Qc_of_Z 100)%Qc) ->
  exists n, Compress.reported (Compress.savedPercent c o) = Int n /\ 0 <= n <= 100.
Proof.
  intros R0 R1 R100.
  destruct (savedPercent_clamped c o) as (n & Hn & Hpos & Hzero & Hround).
  exists n. split; [exact Hn |]. split; [exact Hpos |].
  destruct (js_gt (Compress.savedPercent c o) (Int 0)) eqn:Hgt.
  2: { rewrite Hzero by done. lia. }
  specialize (Hround eq_refl). clear Hzero Hn Hgt.
  unfold Compress.savedPercent in Hround.
  destruct o as [n0 |]; [| done].
  unfold Compress.size_number, js_div, Int in Hround.
  rewrite !is_zero_Int, negative_Int in Hround.
  repeat case_bool_decide; try done.
  unfold js_sub, js_mul, Math_round in Hround.
  apply Int_inj in Hround. subst n.
  set (q1 := round64 (Qc_of_Z (Z.of_N c) / Qc_of_Z (Z.of_N n0))).
  set (q2 := round64 (Qc_of_Z 1 - q1)).
  set (q3 := round64 (q2 * Qc_of_Z 100)).
  assert (H1 : (Qc_of_Z 0 <= q1)%Qc).
  { apply R0. qc2q. apply Qle_shift_div_l.
    - change 0%Q with (inject_Z 0). rewrite <- Zlt_Qlt. lia.
    - rewrite Qmult_0_l. change 0%Q with (inject_Z 0). rewrite <- Zle_Qle. lia. }
  assert (H2 : (q2 <= Qc_of_Z 1)%Qc).
  { apply R1. clearbody q1. qc2q. lra. }
  assert (H3 : (q3 <= Qc_of_Z 100)%Qc).
  { apply R100. clearbody q2. qc2q. lra. }
  clearbody q3.
  assert (Hlt : (Qfloor (q3 + (1 # 2))%Q < 101)%Z); [| lia].
  rewrite Zlt_Qlt. eapply Qle_lt_trans; [apply Qfloor_le |].
  qc2q. change (inject_Z 101) with 101%Q. lra.
Qed.

End Sizes.

(** X20. With an arithmetic whose rounding keeps what is at least 0 at
    least 0, what is at most 1 at most 1 and what is at most 100 at most 100,
    the percentage compress reports is an integer between 0 and 100, in the
    function and in the [savedPercent] field of every 200 response. *)
Theorem compress_savedPercent_at_most_100 `{!Runtime, !PdfLib} :
  (forall q, (Qc_of_Z 0 <= q)%Qc -> (Qc_of_Z 0 <= round64 q)%Qc) ->
  (forall q, (q <= Qc_of_Z 1)%Qc -> (round64 q <= Qc_of_Z 1)%Qc) ->
  (forall q, (q <= Qc_of_Z 100)%Qc -> (round64 q <= Qc_of_Z 100)%Qc) ->
  (forall c o,
      exists n, Compress.reported (Compress.savedPercent c o) = Int n /\ 0 <= n <= 100) /\
  (forall event w r w',
      Compress.handler event w = (Returned r, w') ->
      statusCode r = 200 ->
      exists n, body_field "savedPercent" r = Some (JNum (Int n)) /\ 0 <= n <= 100).
Proof.
  intros R0 R1 R100. split.
  - intros c o. by apply savedPercent_at_most_100.
  - intros event w r w' Hrun Hstatus.
    destruct (compress_returned event w r w' Hrun Hstatus)
      as (_ & _ & s & o & _ & _ & _ & _ & _ & _ & _ & _ & _ & _ & _ & Hfield).
    cbv zeta in Hfield.
    destruct (savedPercent_at_most_100
                (N.of_nat (length (PDF_serialize (Some true) (src_doc s))))
                (ContentLength o) R0 R1 R100) as (n & Hn & Hbounds).
    exists n. by rewrite Hfield, Hn.
Qed.

Lemma compress_savedPercent_at_most_100_witness :
  exists n,
    Compress.reported (@Compress.savedPercent Sample.runtime 2%N (Some 3%N))
      = Int n /\ 0 <= n <= 100.
Proof.
  apply (proj1 (@compress_savedPercent_at_most_100 Sample.runtime Sample.pdf
                  (fun q Hq => Hq) (fun q Hq => Hq) (fun q Hq => Hq))).
Defined.

(** X21. An object stored without a declared size ([ContentLength]
    undefined) is compressed all the same, no call failing: the response is a
    200 whose [originalSize] is [(NaN).toFixed(1) + " MB"] and whose
    [savedPercent] is 0. *)
Theorem compress_without_declared_size `{!Runtime, !PdfLib}
    (event : LambdaEvent) (body : JSValue) (s : Source) (o : StoredObject) (w : World) :
  parsed_body event = Some body ->
  get_field "fileKey" body = Some (JStr (src_key s)) ->
  src_key s <> "" ->
  fault_free w ->
  bucket w !! src_key s = Some o ->
  ContentLength o = None ->
  delivered o = Some (src_bytes s) ->
  PDF_parse (Some true) (src_bytes s) = Some (src_doc s) ->
  exists r w',
    Compress.handler event w = (Returned r, w') /\
    statusCode r = 200 /\
    body_field "originalSize" r = Some (JStr (toFixed NaN 1 +:+ " MB")) /\
    body_field "savedPercent" r = Some (JNum (Int 0)).
Proof.
  intros Hb Hf Hk F Ho Hsize Hd Hpdf.
  pose proof (compress_reaches_upload (fun _ => false) nothing_refused_accepts_fetches
                event body s o w [] Hb Hf Hk F Ho Hd Hpdf) as Hrun.
  rewrite logs_nil in Hrun. cbv zeta in Hrun. rewrite Hrun, Hsize.
  erewrite bind_returned;
    [| unfold Compress.uploadCompressedPdfToS3;
       rewrite (upload_at (fun _ => false)); [reflexivity | exact F]].
  eexists _, _. split; [reflexivity |]. repeat split; reflexivity.
Qed.

Lemma compress_without_declared_size_witness :
  exists r w',
    @Compress.handler Sample.runtime Sample.pdf
       (Sample.request [("fileKey", JStr "uploads/e.pdf")]) Worlds.unsized_world
      = (Returned r, w') /\
    statusCode r = 200 /\
    body_field "originalSize" r = Some (JStr "? MB") /\
    body_field "savedPercent" r = Some (JNum (Int 0)).
Proof.
  apply (@compress_without_declared_size Sample.runtime Sample.pdf
           (Sample.request [("fileKey", JStr "uploads/e.pdf")])
           (obj [("fileKey", JStr "uploads/e.pdf")])
           {| src_key := "uploads/e.pdf"; src_bytes := Sample.a_pdf;
              src_doc := {| pages := [{| content := [Byte.x41]; rotation := 0 |};
                                      {| content := [Byte.x42]; rotation := 270 |}] |} |}
           {| Body := {| chunks := [Sample.a_pdf]; broken := false |};
              ContentLength := None |}
           Worlds.unsized_world).
  - reflexivity.
  - reflexivity.
  - discriminate.
  - intros ? ?. reflexivity.
  - reflexivity.
  - reflexivity.
  - reflexivity.
  - reflexivity.
Defined.

(** ** merge: a [fileKeys] that is one string *)

(** A string has at least as many UTF-16 code units as code points. *)
Lemma code_points_utf16_length s : (length (code_points s) <= utf16_length s)%nat.
Proof.
  unfold utf16_length. induction (code_points s) as [| item items IH]; [done |].
  cbn [sum_list_with length].
  assert (1 <= code_units item)%nat; [| lia].
  unfold code_units. destruct item as [| c ?]; [done |]. case_match; lia.
Qed.

Section StringKeys.
Context `{!Runtime, !PdfLib}.

Lemma merge_string_fileKeys event1 event2 body1 body2 (s : string) w :
  parsed_body event1 = Some body1 ->
  get_field "fileKeys" body1 = Some (JStr s) ->
  parsed_body event2 = Some body2 ->
  get_field "fileKeys" body2 = Some (JArr (JStr <$> code_points s)) ->
  (2 <= length (code_points s))%nat ->
  Merge.handler event1 w = Merge.handler event2 w.
Proof.
  intros Hb1 Hf1 Hb2 Hf2 Hlen. unfold Merge.handler, JSON_parse, destructure.
  rewrite Hb1, Hb2, !bind_of_option_Some, Hf1, Hf2, !bind_of_option_Some.
  cbn [truthy length_of Number iterate negb orb].
  pose proof (code_points_utf16_length s) as Hunits.
  rewrite length_fmap, !js_lt_Int, !bool_decide_eq_false_2; [reflexivity | lia.. |].
  intros ->. cbn in Hlen. lia.
Qed.

Lemma merge_short_string event body (s : string) w :
  parsed_body event = Some body ->
  get_field "fileKeys" body = Some (JStr s) ->
  (utf16_length s < 2)%nat ->
  Merge.handler event w = (Returned Merge.too_few, w).
Proof.
  intros Hb Hf Hlen. unfold Merge.handler, JSON_parse, destructure.
  rewrite Hb, bind_of_option_Some, Hf, bind_of_option_Some.
  cbn [length_of Number].
  rewrite js_lt_Int, (bool_decide_eq_true_2 (Z.of_nat (utf16_length s) < 2)) by lia.
  by rewrite orb_true_r.
Qed.
End StringKeys.

(** X22. merge takes a [fileKeys] that is one string for the list of its
    code points.  A string of at least 2 code points runs as the array of
    its code points, each a string, does; a string of fewer than 2 UTF-16
    code units is answered 400, nothing done; and a 200 needs every code
    point of the string to be, alone, the key of an object that downloads
    and decodes. *)
Theorem merge_reads_a_string_as_its_characters `{!Runtime, !PdfLib}
    (event1 event2 : LambdaEvent) (body1 body2 : JSValue) (s : string) (w : World) :
  parsed_body event1 = Some body1 ->
  get_field "fileKeys" body1 = Some (JStr s) ->
  parsed_body event2 = Some body2 ->
  get_field "fileKeys" body2 = Some (JArr (JStr <$> code_points s)) ->
  ((2 <= length (code_points s))%nat ->
   Merge.handler event1 w = Merge.handler event2 w) /\
  ((utf16_length s < 2)%nat ->
   Merge.handler event1 w = (Returned Merge.too_few, w)) /\
  (forall r w', Merge.handler event1 w = (Returned r, w') ->
                statusCode r = 200 ->
                Forall (fun item => usable w None (JStr item)) (code_points s)).
Proof.
  intros Hb1 Hf1 Hb2 Hf2.
  split; [intros; by eapply merge_string_fileKeys |].
  split; [intros; by eapply merge_short_string |].
  intros r w' Hrun Hstatus.
  destruct (merge_success event1 w r w' Hrun Hstatus)
    as (body & fileKeys & items & srcs & Hb & Hf & _ & _ & Hiter & Hall & _).
  rewrite Hb1 in Hb. injection Hb as <-. rewrite Hf1 in Hf. injection Hf as <-.
  cbn [iterate] in Hiter. injection Hiter as <-.
  apply Forall_forall. intros item Hitem.
  apply (list_elem_of_fmap_2 JStr), list_elem_of_lookup in Hitem as [i Hi].
  destruct (Forall2_lookup_l _ _ _ _ _ Hall Hi) as (src & _ & Hsrc).
  by exists src.
Qed.

Lemma merge_reads_a_string_as_its_characters_witness :
  @Merge.handler Sample.runtime Sample.pdf
     (Sample.request [("fileKeys", JStr "ab")]) Sample.world
    = @Merge.handler Sample.runtime Sample.pdf
        (Sample.request [("fileKeys", JArr [JStr "a"; JStr "b"])]) Sample.world /\
  fst (@Merge.handler Sample.runtime Sample.pdf
         (Sample.request [("fileKeys", JStr "ab")]) Sample.world)
    = Thrown NoSuchKey /\
  @Merge.handler Sample.runtime Sample.pdf
     (Sample.request [("fileKeys", JStr "é")]) Sample.world
    = (Returned Merge.too_few, Sample.world).
Proof.
  split; [| split; [vm_compute; reflexivity |]].
  - apply (proj1 (@merge_reads_a_string_as_its_characters Sample.runtime Sample.pdf
                    (Sample.request [("fileKeys", JStr "ab")])
                    (Sample.request [("fileKeys", JArr [JStr "a"; JStr "b"])])
                    (obj [("fileKeys", JStr "ab")])
                    (obj [("fileKeys", JArr [JStr "a"; JStr "b"])])
                    "ab" Sample.world eq_refl eq_refl eq_refl eq_refl)).
    vm_compute. lia.
  - apply (proj1 (proj2 (@merge_reads_a_string_as_its_characters Sample.runtime Sample.pdf
                    (Sample.request [("fileKeys", JStr "é")])
                    (Sample.request [("fileKeys", JArr [JStr "é"])])
                    (obj [("fileKeys", JStr "é")])
                    (obj [("fileKeys", JArr [JStr "é"])])
                    "é" Sample.world eq_refl eq_refl eq_refl eq_refl))).
    vm_compute. lia.
Defined.

(** ** The exception a defective source causes *)

Section Defects.
Context `{!Runtime, !PdfLib}.

Lemma send_get_missing K w t :
  fault_free w -> bucket w !! key_name w K = None ->
  send_get K (logs t w) = (Thrown NoSuchKey, logs (t ++ [Send (GetObjectCommand K)]) w).
Proof.
  intros F Hmissing. unfold send_get.
  change (key_name (logs t w) K) with (key_name w K).
  cbn [faults logs bucket]. by rewrite F, Hmissing, log_logs.
Qed.

Lemma send_get_found K w t o :
  fault_free w -> bucket w !! key_name w K = Some o ->
  send_get K (logs t w) = (Returned o, logs (t ++ [Send (GetObjectCommand K)]) w).
Proof.
  intros F Ho. unfold send_get.
  change (key_name (logs t w) K) with (key_name w K).
  cbn [faults logs bucket]. by rewrite F, Ho, log_logs.
Qed.

Lemma streamToBuffer_broken o w :
  broken (Body o) = true -> streamToBuffer (Body o) w = (Thrown StreamError, w).
Proof. unfold streamToBuffer. by intros ->. Qed.

Lemma load_malformed b opt w t :
  PDF_parse opt b = None ->
  PDFDocument_load b opt (logs t w) = (Thrown ParseError, logs (t ++ [PdfLoad b opt]) w).
Proof. intros Hb. unfold PDFDocument_load. by rewrite Hb, log_logs. Qed.

(** The fetch and the decoding of a defective source, as split and rotate
    write them. *)
Lemma fetch_defect {B} K opt (rest : Document -> M B) w t e calls :
  fault_free w -> source_defect w opt K e calls ->
  (let* pdfBuffer := (let* response := send_get K in streamToBuffer (Body response)) in
   let* pdf := PDFDocument_load pdfBuffer opt in
   rest pdf) (logs t w) = (Thrown e, logs (t ++ calls) w).
Proof.
  intros F [Hmissing | o Ho Hbroken | o b Ho Hd Hb].
  - erewrite bind_thrown; [reflexivity |].
    erewrite bind_thrown; [reflexivity |]. by apply send_get_missing.
  - erewrite bind_thrown; [reflexivity |].
    step send_get_found. by rewrite streamToBuffer_broken.
  - erewrite bind_returned;
      [| step send_get_found; by apply streamToBuffer_ok].
    erewrite bind_thrown; [reflexivity |].
    rewrite load_malformed by done. by rewrite <- app_assoc.
Qed.

Lemma merge_one_defect acc K w t e calls :
  fault_free w -> source_defect w None K e calls ->
  Merge.merge_one acc K (logs t w) = (Thrown e, logs (t ++ calls) w).
Proof.
  intros F [Hmissing | o Ho Hbroken | o b Ho Hd Hb];
    unfold Merge.merge_one, Merge.downloadPdfFromS3.
  - erewrite bind_thrown; [reflexivity |].
    erewrite bind_thrown; [reflexivity |]. by apply send_get_missing.
  - erewrite bind_thrown; [reflexivity |].
    step send_get_found. by rewrite (bind_thrown _ _ _ _ _ (streamToBuffer_broken _ _ Hbroken)).
  - erewrite bind_returned;
      [| step send_get_found; step streamToBuffer_ok; reflexivity].
    erewrite bind_thrown; [reflexivity |].
    rewrite load_malformed by done. by rewrite <- app_assoc.
Qed.

Lemma compress_defect event body K w e calls :
  parsed_body event = Some body ->
  get_field "fileKey" body = Some K ->
  truthy K = true ->
  fault_free w -> source_defect w (Some true) K e calls ->
  Compress.handler event w = (Thrown e, logs calls w).
Proof.
  intros Hb Hf Htruthy F Hdefect.
  rewrite <- (logs_nil w) at 1.
  unfold Compress.handler, JSON_parse, destructure.
  rewrite Hb, bind_of_option_Some, Hf, bind_of_option_Some, Htruthy. cbn [negb].
  destruct Hdefect as [Hmissing | o Ho Hbroken | o b Ho Hd Hpdf];
    unfold Compress.downloadPdfFromS3.
  - erewrite bind_thrown; [reflexivity |].
    erewrite bind_thrown; [reflexivity |]. by apply send_get_missing.
  - erewrite bind_thrown; [reflexivity |].
    step send_get_found. by rewrite (bind_thrown _ _ _ _ _ (streamToBuffer_broken _ _ Hbroken)).
  - erewrite bind_returned;
      [| step send_get_found; step streamToBuffer_ok; reflexivity].
    cbn [Compress.buffer]. erewrite bind_thrown; [reflexivity |].
    unfold Compress.compressPdf. erewrite bind_thrown; [reflexivity |].
    by rewrite load_malformed.
Qed.

Lemma merge_defect event body good K rest w e calls :
  parsed_body event = Some body ->
  get_field "fileKeys" body = Some (JArr ((JStr ∘ src_key <$> good) ++ K :: rest)) ->
  (2 <= length good + 1 + length rest)%nat ->
  fault_free w ->
  Forall (fetched w None) good ->
  source_defect w None K e calls ->
  Merge.handler event w
    = (Thrown e, logs (PdfCreate :: (good ≫= fetch_calls None) ++ calls) w).
Proof.
  intros Hb Hf Hlen F Hgood Hdefect.
  rewrite <- (logs_nil w) at 1.
  unfold Merge.handler, JSON_parse, destructure.
  rewrite Hb, bind_of_option_Some, Hf, bind_of_option_Some.
  cbn [truthy negb orb length_of Number iterate].
  rewrite js_lt_Int, bool_decide_eq_false_2
    by (rewrite length_app, length_fmap; simpl; lia).
  rewrite (bind_returned _ _ _ _ _ (create_ok w [])).
  rewrite bind_of_option_Some.
  erewrite bind_thrown; [reflexivity |].
  rewrite for_each_app.
  rewrite (bind_returned _ _ _ _ _ (merge_loop_ok w good _ _ F Hgood)).
  cbn [for_each]. erewrite bind_thrown; [reflexivity |].
  rewrite (merge_one_defect _ _ _ _ _ _ F Hdefect). by rewrite <- app_assoc.
Qed.
End Defects.

(** X23. Calls being accepted, the exception of a run names the defect of
    its source: NoSuchKey for a key the bucket does not hold, StreamError for
    an object whose stream breaks, ParseError for bytes that are no document.
    It is thrown right after the fetch (after the decoding attempt for a
    ParseError), with nothing written; in merge, after the sources listed
    before the defective one have been fetched and decoded. *)
Theorem defective_source_names_its_exception `{!Runtime, !PdfLib}
    (event : LambdaEvent) (body : JSValue) (w : World) :
  parsed_body event = Some body ->
  fault_free w ->
  (forall K e calls,
      get_field "fileKey" body = Some K -> truthy K = true ->
      source_defect w None K e calls ->
      Split.handler event w = (Thrown e, logs calls w)) /\
  (forall K e calls,
      get_field "fileKey" body = Some K -> truthy K = true ->
      source_defect w (Some true) K e calls ->
      Compress.handler event w = (Thrown e, logs calls w)) /\
  (forall K angle e calls,
      get_field "fileKey" body = Some K -> truthy K = true ->
      get_field "rotation" body = Some angle ->
      Rotate.validateRotation angle = true ->
      source_defect w None K e calls ->
      Rotate.handler event w = (Thrown e, logs calls w)) /\
  (forall good K rest e calls,
      get_field "fileKeys" body = Some (JArr ((JStr ∘ src_key <$> good) ++ K :: rest)) ->
      (2 <= length good + 1 + length rest)%nat ->
      Forall (fetched w None) good ->
      source_defect w None K e calls ->
      Merge.handler event w
        = (Thrown e, logs (PdfCreate :: (good ≫= fetch_calls None) ++ calls) w)).
Proof.
  intros Hb F. split; [| split; [| split]].
  - intros K e calls Hf Htruthy Hdefect.
    rewrite <- (logs_nil w) at 1.
    unfold Split.handler, JSON_parse, destructure, Split.downloadPdfFromS3.
    rewrite Hb, bind_of_option_Some, Hf, bind_of_option_Some, Htruthy. cbn [negb].
    by rewrite (fetch_defect K None _ w [] e calls F Hdefect).
  - intros K e calls Hf Htruthy Hdefect. by eapply compress_defect.
  - intros K angle e calls Hf Htruthy Hr Hvalid Hdefect.
    rewrite <- (logs_nil w) at 1.
    unfold Rotate.handler, JSON_parse, destructure, Rotate.downloadPdfFromS3.
    rewrite Hb, bind_of_option_Some, Hf, bind_of_option_Some,
      Hr, bind_of_option_Some, Htruthy, Hvalid.
    cbn [negb]. cbv zeta.
    by rewrite (fetch_defect K None _ w [] e calls F Hdefect).
  - intros good K rest e calls Hf Hlen Hgood Hdefect. by eapply merge_defect.
Qed.

Lemma defective_source_names_its_exception_witness :
  @Merge.handler Sample.runtime Sample.pdf
     (Sample.request [("fileKeys", JArr [JStr "uploads/a.pdf"; JStr "uploads/missing.pdf"])])
     Sample.world
    = (Thrown NoSuchKey,
       logs [PdfCreate;
             Send (GetObjectCommand (JStr "uploads/a.pdf")); PdfLoad Sample.a_pdf None;
             Send (GetObjectCommand (JStr "uploads/missing.pdf"))]
            Sample.world) /\
  @Split.handler Sample.pdf (Sample.request [("fileKey", JNum (Int 7))]) Sample.world
    = (Thrown NoSuchKey, logs [Send (GetObjectCommand (JNum (Int 7)))] Sample.world).
Proof.
  split.
  2: { apply (proj1 (@defective_source_names_its_exception Sample.runtime Sample.pdf
                       (Sample.request [("fileKey", JNum (Int 7))])
                       (obj [("fileKey", JNum (Int 7))])
                       Sample.world eq_refl (fun _ _ => eq_refl))
                (JNum (Int 7)) NoSuchKey [Send (GetObjectCommand (JNum (Int 7)))]).
       - reflexivity.
       - vm_compute; reflexivity.
       - apply defect_missing. vm_compute; reflexivity. }
  apply (proj2 (proj2 (proj2
           (@defective_source_names_its_exception Sample.runtime Sample.pdf
              (Sample.request [("fileKeys", JArr [JStr "uploads/a.pdf"; JStr "uploads/missing.pdf"])])
              (obj [("fileKeys", JArr [JStr "uploads/a.pdf"; JStr "uploads/missing.pdf"])])
              Sample.world eq_refl (fun _ _ => eq_refl))))
           [ {| src_key := "uploads/a.pdf"; src_bytes := Sample.a_pdf;
                src_doc := {| pages := [{| content := [Byte.x41]; rotation := 0 |};
                                        {| content := [Byte.x42]; rotation := 270 |}] |} |} ]
           (JStr "uploads/missing.pdf") [] NoSuchKey
           [Send (GetObjectCommand (JStr "uploads/missing.pdf"))]).
  - reflexivity.
  - simpl. lia.
  - repeat constructor. exists (Sample.object Sample.a_pdf). repeat split; reflexivity.
  - apply defect_missing. reflexivity.
Defined.

(** ** Two splits at one clock reading *)

Section SplitCollisions.
Context `{!PdfLib}.

Lemma split_output_stored ts (ps : list Page) w i p :
  ps !! i = Some p ->
  bucket (put_all (split_output ts <$> indexed 0 ps) w) !! split_key ts i
    = Some (written (PDF_serialize None (single p))).
Proof.
  intros Hp. apply bucket_put_all_in; [apply split_keys_NoDup |].
  apply list_elem_of_lookup_2 with i.
  rewrite list_lookup_fmap, (indexed_lookup _ 0 i p Hp). reflexivity.
Qed.

Lemma split_output_beyond ts (ps : list Page) w i :
  (length ps <= i)%nat ->
  bucket (put_all (split_output ts <$> indexed 0 ps) w) !! split_key ts i
    = bucket w !! split_key ts i.
Proof.
  intros Hi. apply bucket_put_all_notin.
  rewrite <- list_fmap_compose.
  intros ([j q] & E & [_ Hj]%indexed_elem)%list_elem_of_fmap.
  cbn [compose split_output fst] in E. apply split_key_inj in E. simpl in Hj. lia.
Qed.
End SplitCollisions.

(** X24. Two splits that read the same clock value share their keys.  When
    split answers 200 twice at one reading of the clock, the pages of the
    second source replace those of the first under the keys of their page
    numbers, and the pages of the first source beyond the page count of the
    second stay in the bucket: one time stamp then names pages of two
    documents. *)
Theorem same_clock_splits_mix_pages `{!PdfLib}
    (event1 event2 : LambdaEvent)
    (w : World) (r1 : Response) (w1 : World) (r2 : Response) (w2 : World) :
  Split.handler event1 w = (Returned r1, w1) ->
  statusCode r1 = 200 ->
  Split.handler event2 w1 = (Returned r2, w2) ->
  statusCode r2 = 200 ->
  exists s1 s2,
    fetched w None s1 /\
    fetched w1 None s2 /\
    body_field "pageCount" r1 = Some (JNum (Int (Z.of_nat (getPageCount (src_doc s1))))) /\
    body_field "pageCount" r2 = Some (JNum (Int (Z.of_nat (getPageCount (src_doc s2))))) /\
    (forall i p,
        pages (src_doc s2) !! i = Some p ->
        bucket w2 !! Split.page_key (clock w) (Z.of_nat i + 1)
          = Some (written (PDF_serialize None (single p)))) /\
    (forall i p,
        pages (src_doc s1) !! i = Some p ->
        (getPageCount (src_doc s2) <= i)%nat ->
        bucket w2 !! Split.page_key (clock w) (Z.of_nat i + 1)
          = Some (written (PDF_serialize None (single p)))).
Proof.
  intros Hrun1 Hstatus1 Hrun2 Hstatus2.
  destruct (split_success event1 w r1 w1 Hrun1 Hstatus1)
    as (_ & K1 & s1 & _ & _ & [_ Hs1] & _ & Hw1 & Hcount1 & _).
  destruct (split_success event2 w1 r2 w2 Hrun2 Hstatus2)
    as (_ & K2 & s2 & _ & _ & [_ Hs2] & _ & Hw2 & Hcount2 & _).
  cbv zeta in Hw1, Hw2.
  assert (Hclock : clock w1 = clock w) by (rewrite Hw1; apply clock_put_all).
  rewrite Hclock in Hw2.
  exists s1, s2. do 4 (split; [done |]).
  rewrite Hw2. cbn [bucket logs]. split.
  - intros i p Hp. by apply split_output_stored.
  - intros i p Hp Hi.
    change (Split.page_key (clock w) (Z.of_nat i + 1)) with (split_key (clock w) i).
    rewrite split_output_beyond by exact Hi.
    rewrite Hw1. cbn [bucket logs]. by apply split_output_stored.
Qed.

Lemma same_clock_splits_mix_pages_witness :
  exists r1 w1 r2 w2,
    @Split.handler Sample.pdf
       (Sample.request [("fileKey", JStr "uploads/c.pdf")]) Sample.world
      = (Returned r1, w1) /\
    @Split.handler Sample.pdf
       (Sample.request [("fileKey", JStr "uploads/a.pdf")]) w1
      = (Returned r2, w2) /\
    body_field "pageCount" r2 = Some (JNum (Int 2)) /\
    bucket w2 !! "processed/split-1709123456789-page-1.pdf"
      = Some (written [Byte.x41; Byte.x00]) /\
    bucket w2 !! "processed/split-1709123456789-page-3.pdf"
      = Some (written [Byte.x46; Byte.x00]) /\
    exists s2,
      @fetched Sample.pdf w1 None s2 /\
      body_field "pageCount" r2
        = Some (JNum (Int (Z.of_nat (getPageCount (src_doc s2))))).
Proof.
  pose (run1 := @Split.handler Sample.pdf
                  (Sample.request [("fileKey", JStr "uploads/c.pdf")]) Sample.world).
  pose (r1 := match fst run1 with Returned r => r | Thrown _ => Split.no_file end).
  pose (run2 := @Split.handler Sample.pdf
                  (Sample.request [("fileKey", JStr "uploads/a.pdf")]) (snd run1)).
  pose (r2 := match fst run2 with Returned r => r | Thrown _ => Split.no_file end).
  assert (Hrun1 : run1 = (Returned r1, snd run1)) by (vm_compute; reflexivity).
  assert (Hrun2 : run2 = (Returned r2, snd run2)) by (vm_compute; reflexivity).
  assert (Hstatus1 : statusCode r1 = 200) by (vm_compute; reflexivity).
  assert (Hstatus2 : statusCode r2 = 200) by (vm_compute; reflexivity).
  destruct (@same_clock_splits_mix_pages Sample.pdf _ _ _ _ _ _ _
              Hrun1 Hstatus1 Hrun2 Hstatus2)
    as (s1 & s2 & _ & Hs2 & _ & Hcount2 & _).
  exists r1, (snd run1), r2, (snd run2).
  split; [exact Hrun1 |]. split; [exact Hrun2 |].
  split; [vm_compute; reflexivity |].
  split; [vm_compute; reflexivity |].
  split; [vm_compute; reflexivity |].
  exists s2. split; [exact Hs2 | exact Hcount2].
Defined.

(** ** Writes that are refused *)

Lemma write_only_accepts_fetches K : is_write (Send (GetObjectCommand K)) = false.
Proof. reflexivity. Qed.

Lemma fetches_read opt (srcs : list Source) : Forall reads (srcs ≫= fetch_calls opt).
Proof.
  induction srcs as [| s srcs IH]; [constructor |].
  cbn [mbind list_bind fetch_calls app]. by repeat constructor.
Qed.

(** X25. When the storage service refuses every write, and nothing else,
    each handler on usable sources throws a ServiceError at its first write.
    The calls of the run are those that lead to the upload, none of which
    writes or signs, and then the refused PutObject of the output (for
    split, of the first page), which is the last call: no URL is signed, and
    the bucket is as it was. *)
Theorem refused_write_stores_nothing `{!Runtime, !PdfLib}
    (event : LambdaEvent) (body : JSValue) (w : World) :
  parsed_body event = Some body ->
  refuses is_write w ->
  (forall srcs,
      get_field "fileKeys" body = Some (JArr (JStr ∘ src_key <$> srcs)) ->
      (2 <= length srcs)%nat ->
      Forall (fetched w None) srcs ->
      let merged := {| pages := concat (pages ∘ src_doc <$> srcs) |} in
      let outputKey := "processed/merged-" +:+ pretty (clock w) +:+ ".pdf" in
      let before := PdfCreate :: (srcs ≫= fetch_calls None) ++ [PdfSave merged None] in
      let put := Send (PutObjectCommand outputKey (PDF_serialize None merged)
                         "application/pdf") in
      exists w',
        Merge.handler event w = (Thrown ServiceError, w') /\
        bucket w' = bucket w /\
        trace w' = trace w ++ before ++ [put] /\
        Forall reads before) /\
  (forall s p,
      get_field "fileKey" body = Some (JStr (src_key s)) ->
      src_key s <> "" ->
      fetched w None s ->
      (2 <= length (pages (src_doc s)))%nat ->
      pages (src_doc s) !! 0%nat = Some p ->
      let before := fetch_calls None s ++ [PdfCreate; PdfSave (single p) None] in
      let put := Send (PutObjectCommand (Split.page_key (clock w) 1)
                         (PDF_serialize None (single p)) "application/pdf") in
      exists w',
        Split.handler event w = (Thrown ServiceError, w') /\
        bucket w' = bucket w /\
        trace w' = trace w ++ before ++ [put] /\
        Forall reads before) /\
  (forall s,
      get_field "fileKey" body = Some (JStr (src_key s)) ->
      src_key s <> "" ->
      fetched w (Some true) s ->
      let outputKey := "processed/compressed-" +:+ pretty (clock w) +:+ ".pdf" in
      let before := fetch_calls (Some true) s ++ [PdfSave (src_doc s) (Some true)] in
      let put := Send (PutObjectCommand outputKey
                         (PDF_serialize (Some true) (src_doc s)) "application/pdf") in
      exists w',
        Compress.handler event w = (Thrown ServiceError, w') /\
        bucket w' = bucket w /\
        trace w' = trace w ++ before ++ [put] /\
        Forall reads before) /\
  (forall s angle,
      get_field "fileKey" body = Some (JStr (src_key s)) ->
      get_field "rotation" body = Some angle ->
      src_key s <> "" ->
      Rotate.validateRotation angle = true ->
      fetched w None s ->
      let rotated := Rotate.rotate_pages (to_Z (Number angle)) (src_doc s) in
      let outputKey := "processed/rotated-" +:+ pretty (clock w) +:+ ".pdf" in
      let before := fetch_calls None s ++ [PdfSave rotated None] in
      let put := Send (PutObjectCommand outputKey (PDF_serialize None rotated)
                         "application/pdf") in
      exists w',
        Rotate.handler event w = (Thrown ServiceError, w') /\
        bucket w' = bucket w /\
        trace w' = trace w ++ before ++ [put] /\
        Forall reads before).
Proof.
  intros Hb R. split; [| split; [| split]].
  - intros srcs Hf Hlen Hall merged outputKey before put.
    pose proof (merge_reaches_upload is_write write_only_accepts_fetches
                  event body srcs w [] Hb Hf Hlen R Hall) as Hrun.
    rewrite logs_nil in Hrun. cbv zeta in Hrun. rewrite Hrun.
    erewrite bind_thrown;
      [| unfold Merge.uploadPdfToS3; rewrite (upload_at is_write); [reflexivity | exact R]].
    eexists. split; [reflexivity |]. split; [reflexivity |].
    split; [reflexivity |].
    constructor; [done |]. apply Forall_app. split; [apply fetches_read |].
    by repeat constructor.
  - intros s p Hf Hk Hs Hlen Hp before put.
    destruct (pages (src_doc s)) as [| p' rest] eqn:Hpages; [done |].
    injection Hp as ->. rewrite <- Hpages in Hlen.
    rewrite (split_run_refused is_write event body s [] p rest w Hb Hf Hk
               write_only_accepts_fetches R Hs Hpages Hlen (Forall_nil_2 _) eq_refl).
    eexists. split; [reflexivity |]. split; [reflexivity |].
    split.
    + cbn [trace logs put_all fmap list_fmap indexed foldl mbind list_bind app].
      subst before put. unfold refused_split_calls, split_key. cbn [fst snd Z.of_nat].
      by rewrite <- !app_assoc.
    + subst before. by repeat constructor.
  - intros s Hf Hk (o & Ho & Hd & Hpdf) outputKey before put.
    pose proof (compress_reaches_upload is_write write_only_accepts_fetches
                  event body s o w [] Hb Hf Hk R Ho Hd Hpdf) as Hrun.
    rewrite logs_nil in Hrun. cbv zeta in Hrun. rewrite Hrun.
    erewrite bind_thrown;
      [| unfold Compress.uploadCompressedPdfToS3; rewrite (upload_at is_write);
         [reflexivity | exact R]].
    eexists. split; [reflexivity |]. split; [reflexivity |].
    split; [| subst before; by repeat constructor].
    cbn [trace logs]. subst before put. by rewrite <- !app_assoc.
  - intros s angle Hf Hr Hk Hvalid Hs rotated outputKey before put.
    pose proof (rotate_reaches_upload is_write write_only_accepts_fetches
                  event body s angle w [] Hb Hf Hr Hk Hvalid R Hs) as Hrun.
    rewrite logs_nil in Hrun. cbv zeta in Hrun. rewrite Hrun.
    erewrite bind_thrown;
      [| unfold Rotate.uploadRotatedPdfToS3; rewrite (upload_at is_write);
         [reflexivity | exact R]].
    eexists. split; [reflexivity |]. split; [reflexivity |].
    split; [| subst before; by repeat constructor].
    cbn [trace logs]. subst before put. by rewrite <- !app_assoc.
Qed.

Lemma refused_write_stores_nothing_witness :
  refuses is_write Sample.read_only_world /\
  exists w',
    @Split.handler Sample.pdf
       (Sample.request [("fileKey", JStr "uploads/c.pdf")]) Sample.read_only_world
      = (Thrown ServiceError, w') /\
    bucket w' = bucket Sample.read_only_world /\
    trace w'
      = [Send (GetObjectCommand (JStr "uploads/c.pdf")); PdfLoad Sample.c_pdf None;
         PdfCreate; PdfSave (single {| content := [Byte.x44]; rotation := 0 |}) None;
         Send (PutObjectCommand "processed/split-1709123456789-page-1.pdf"
                 [Byte.x44; Byte.x00] "application/pdf")].
Proof.
  assert (R : refuses is_write Sample.read_only_world) by (intros ? ?; reflexivity).
  split; [exact R |].
  destruct (proj1 (proj2 (@refused_write_stores_nothing Sample.runtime Sample.pdf
                            (Sample.request [("fileKey", JStr "uploads/c.pdf")])
                            (obj [("fileKey", JStr "uploads/c.pdf")])
                            Sample.read_only_world eq_refl R))
              {| src_key := "uploads/c.pdf"; src_bytes := Sample.c_pdf;
                 src_doc := {| pages := [{| content := [Byte.x44]; rotation := 0 |};
                                         {| content := [Byte.x45]; rotation := 0 |};
                                         {| content := [Byte.x46]; rotation := 0 |}] |} |}
              {| content := [Byte.x44]; rotation := 0 |})
    as (w' & Hrun & Hbucket & Htrace & _).
  - reflexivity.
  - discriminate.
  - exists (Sample.object Sample.c_pdf). repeat split; reflexivity.
  - simpl. lia.
  - reflexivity.
  - exists w'. split; [exact Hrun |]. split; [exact Hbucket |].
    rewrite Htrace. vm_compute. reflexivity.
Defined.
